(** * The node_modules contributor of the yarn/npm buildpack

    A shallow embedding of [modules/modules.go] (package [modules]): the
    [Contributor] that fingerprints the lock file, asks the layer store
    whether the cached layer can be reused, runs the package manager on a
    cache miss, relocates [node_modules] into the layer and registers the
    [web] process.

    The Go code is effectful: it touches the disk, the process environment,
    the clock and the layer store, and it calls the injected package
    manager.  All of that is threaded through a [World] value by a small
    state-and-error monad; every call of the package manager, of the layer
    store and of the logger, and every change of the tree or of the
    environment that goes through, leaves an [Event] behind, so that
    "invokes", "exactly once" and "after" are statements about the recorded
    trace.  Probes ([Stat], [ReadDir], [ReadFile]) are functions of the
    world. *)

From Stdlib Require Import ZArith List String Ascii Bool Lia.
From Stdlib Require Import Strings.Byte Hexadecimal HexadecimalPos HexadecimalZ HexadecimalString.
From stdpp Require Import base option list strings gmap.

Open Scope Z_scope.
Open Scope string_scope.

(** ** crypto/sha256, encoding/hex, strconv

    The three encoders the fingerprint code calls.  [Sum256] follows
    FIPS 180-4 on 32-bit words kept as [Z] in [0, 2^32). *)

Module sha256.

Definition w32 : Z := 4294967296.

Definition add32 (a b : Z) : Z := (a + b) mod w32.

Definition rotr (n x : Z) : Z :=
  Z.lor (Z.shiftr x n) (Z.shiftl x (32 - n) mod w32).

Definition Ch (x y z : Z) : Z :=
  Z.lxor (Z.land x y) (Z.land (Z.lxor x (w32 - 1)) z).

Definition Maj (x y z : Z) : Z :=
  Z.lxor (Z.lxor (Z.land x y) (Z.land x z)) (Z.land y z).

Definition bsig0 (x : Z) : Z :=
  Z.lxor (Z.lxor (rotr 2 x) (rotr 13 x)) (rotr 22 x).
Definition bsig1 (x : Z) : Z :=
  Z.lxor (Z.lxor (rotr 6 x) (rotr 11 x)) (rotr 25 x).
Definition ssig0 (x : Z) : Z :=
  Z.lxor (Z.lxor (rotr 7 x) (rotr 18 x)) (Z.shiftr x 3).
Definition ssig1 (x : Z) : Z :=
  Z.lxor (Z.lxor (rotr 17 x) (rotr 19 x)) (Z.shiftr x 10).

(** Round constants: the first 32 bits of the fractional parts of the
    cube roots of the first 64 primes, written in decimal. *)
Definition K : list Z :=
[ 1116352408; 1899447441; 3049323471; 3921009573; 961987163; 1508970993;
  2453635748; 2870763221; 3624381080; 310598401; 607225278; 1426881987;
  1925078388; 2162078206; 2614888103; 3248222580; 3835390401; 4022224774;
  264347078; 604807628; 770255983; 1249150122; 1555081692; 1996064986;
  2554220882; 2821834349; 2952996808; 3210313671; 3336571891; 3584528711;
  113926993; 338241895; 666307205; 773529912; 1294757372; 1396182291;
  1695183700; 1986661051; 2177026350; 2456956037; 2730485921; 2820302411;
  3259730800; 3345764771; 3516065817; 3600352804; 4094571909; 275423344;
  430227734; 506948616; 659060556; 883997877; 958139571; 1322822218;
  1537002063; 1747873779; 1955562222; 2024104815; 2227730452; 2361852424;
  2428436474; 2756734187; 3204031479; 3329325298 ].

(** Initial hash value: square roots of the first 8 primes. *)
Definition H0 : list Z :=
[ 1779033703; 3144134277; 1013904242; 2773480762;
  1359893119; 2600822924; 528734635; 1541459225 ].

Definition be32 (w : Z) : list Z :=
  [ Z.shiftr w 24 mod 256; Z.shiftr w 16 mod 256;
    Z.shiftr w 8 mod 256; w mod 256 ].

Definition be64 (n : Z) : list Z :=
  be32 (Z.shiftr n 32 mod w32) ++ be32 (n mod w32).

(** Padding: a single 1 bit, zeros up to 56 mod 64, the bit length on
    eight bytes. *)
Definition pad (msg : list Z) : list Z :=
  let len := Z.of_nat (length msg) in
  let zeros := (55 - len) mod 64 in
  msg ++ [128] ++ repeat 0 (Z.to_nat zeros) ++ be64 (8 * len).

Fixpoint words (bs : list Z) : list Z :=
  match bs with
  | a :: b :: c :: d :: rest =>
      (Z.shiftl a 24 + Z.shiftl b 16 + Z.shiftl c 8 + d) :: words rest
  | _ => []
  end.

Definition at_ (l : list Z) (i : nat) : Z := nth i l 0.

(** The message schedule, extended from 16 to 64 words. *)
Fixpoint schedule (n : nat) (w : list Z) : list Z :=
  match n with
  | O => w
  | S n' =>
      let t := length w in
      let x := add32 (add32 (ssig1 (at_ w (t - 2))) (at_ w (t - 7)))
                     (add32 (ssig0 (at_ w (t - 15))) (at_ w (t - 16))) in
      schedule n' (w ++ [x])
  end.

Record regs := Regs { ra : Z; rb : Z; rc : Z; rd : Z;
                      re : Z; rf : Z; rg : Z; rh : Z }.

Definition round (s : regs) (kw : Z * Z) : regs :=
  let (k, w) := kw in
  let t1 := add32 (add32 (add32 (rh s) (bsig1 (re s)))
                         (add32 (Ch (re s) (rf s) (rg s)) k)) w in
  let t2 := add32 (bsig0 (ra s)) (Maj (ra s) (rb s) (rc s)) in
  Regs (add32 t1 t2) (ra s) (rb s) (rc s) (add32 (rd s) t1) (re s) (rf s) (rg s).

Definition of_list (h : list Z) : regs :=
  Regs (at_ h 0) (at_ h 1) (at_ h 2) (at_ h 3)
       (at_ h 4) (at_ h 5) (at_ h 6) (at_ h 7).

Definition to_list (s : regs) : list Z :=
  [ra s; rb s; rc s; rd s; re s; rf s; rg s; rh s].

Definition compress (h : list Z) (block : list Z) : list Z :=
  let w := schedule 48 (words block) in
  let s := fold_left round (combine K w) (of_list h) in
  map (fun p => add32 (fst p) (snd p)) (combine h (to_list s)).

Fixpoint blocks (n : nat) (h : list Z) (bs : list Z) : list Z :=
  match n with
  | O => h
  | S n' => blocks n' (compress h (firstn 64 bs)) (skipn 64 bs)
  end.

Definition digest (msg : list Z) : list Z :=
  let p := pad msg in
  concat (map be32 (blocks (length p / 64) H0 p)).

Definition byte_to_Z (b : byte) : Z := Z.of_N (Byte.to_N b).
Definition byte_of_Z (z : Z) : byte :=
  match Byte.of_N (Z.to_N z) with Some b => b | None => x00 end.

(** [sha256.Sum256]: the 32-byte digest of the data. *)
Definition Sum256 (data : list byte) : list byte :=
  map byte_of_Z (digest (map byte_to_Z data)).

End sha256.

Module hex.

Definition hextable : string := "0123456789abcdef".

Definition hexdigit (n : N) : ascii :=
  match String.get (N.to_nat n) hextable with Some c => c | None => "0"%char end.

(** [hex.EncodeToString]: two lower-case digits per byte. *)
Fixpoint EncodeToString (src : list byte) : string :=
  match src with
  | [] => ""
  | b :: rest =>
      let v := Byte.to_N b in
      String (hexdigit (N.shiftr v 4))
        (String (hexdigit (N.land v 15)) (EncodeToString rest))
  end.

End hex.

Module strconv.

(** [strconv.FormatInt(i, 16)]: a minus sign for negative values, then the
    magnitude in lower-case hexadecimal without leading zeros. *)
Definition FormatInt16 (i : Z) : string :=
  NilZero.string_of_int (Z.to_hex_int i).

End strconv.

Definition bytes_of (s : string) : list byte := list_byte_of_string s.

(** The double-quote character, for messages and file contents that
    carry one. *)
Definition dq : string := String (ascii_of_nat 34) EmptyString.

(** ** Paths, errors and the tree on disk *)

Definition path : Type := list string.

Module filepath.

(** [filepath.Join(dir, name)] on cleaned paths kept as component lists. *)
Definition Join (dir : path) (name : string) : path := (dir ++ [name])%list.

Fixpoint show (p : path) : string :=
  match p with
  | [] => ""
  | x :: rest => "/" +:+ x +:+ show rest
  end.

End filepath.

(** Failures whose cause lies outside the tree of the model. *)
Inductive fault := EACCES | EIO | ENOSPC | EROFS.

Inductive errno := ENOENT | ENOTDIR | EISDIR | EINVAL | EOTHER (f : fault).

(** Go's [error] values: the [*os.PathError] of a failed system call, or a
    message built by [fmt.Errorf]/[errors.New]. *)
Inductive error :=
| PathError (op : string) (p : path) (e : errno)
| errorString (msg : string).

Definition errno_text (e : errno) : string :=
  match e with
  | ENOENT => "no such file or directory"
  | ENOTDIR => "not a directory"
  | EISDIR => "is a directory"
  | EINVAL => "invalid argument"
  | EOTHER EACCES => "permission denied"
  | EOTHER EIO => "input/output error"
  | EOTHER ENOSPC => "no space left on device"
  | EOTHER EROFS => "read-only file system"
  end.

(** [err.Error()] *)
Definition Error (e : error) : string :=
  match e with
  | PathError op p n => op +:+ " " +:+ filepath.show p +:+ ": " +:+ errno_text n
  | errorString msg => msg
  end.

(** [fmt.Errorf(format + "%s", err.Error())] *)
Definition Errorf (prefix : string) (e : error) : error :=
  errorString (prefix +:+ Error e).

Inductive result (A : Type) :=
| Ok (a : A)
| Err (e : error).
Arguments Ok {A} a.
Arguments Err {A} e.

#[local] Set Warnings "-register-all".

Inductive Node :=
| File (data : list byte)
| Dir (entries : list (string * Node)).

Definition is_dir (n : Node) : bool :=
  match n with Dir _ => true | File _ => false end.

Fixpoint find (name : string) (es : list (string * Node)) : option Node :=
  match es with
  | [] => None
  | (n, c) :: rest => if decide (n = name) then Some c else find name rest
  end.

Fixpoint remove (name : string) (es : list (string * Node)) : list (string * Node) :=
  match es with
  | [] => []
  | (n, c) :: rest =>
      if decide (n = name) then remove name rest else (n, c) :: remove name rest
  end.

(** Replace the entry [name] where it stands, or add it at the end. *)
Fixpoint put (name : string) (c : Node) (es : list (string * Node)) : list (string * Node) :=
  match es with
  | [] => [(name, c)]
  | (n, c0) :: rest =>
      if decide (n = name) then (n, c) :: rest else (n, c0) :: put name c rest
  end.

Inductive Walk :=
| Found (n : Node)
| Missing
| Blocked.

(** Path resolution from the root: [Missing] is ENOENT, [Blocked] is a
    regular file met where a directory was needed (ENOTDIR). *)
Fixpoint walk (p : path) (n : Node) : Walk :=
  match p with
  | [] => Found n
  | x :: rest =>
      match n with
      | File _ => Blocked
      | Dir es =>
          match find x es with
          | Some c => walk rest c
          | None => Missing
          end
      end
  end.

Definition present (p : path) (n : Node) : bool :=
  match walk p n with Found _ => true | _ => false end.

(** The tree without the subtree at [p]. *)
Fixpoint prune (p : path) (n : Node) : Node :=
  match p with
  | [] => n
  | x :: rest =>
      match n with
      | File _ => n
      | Dir es =>
          match rest with
          | [] => Dir (remove x es)
          | _ :: _ =>
              match find x es with
              | Some c => Dir (put x (prune rest c) es)
              | None => n
              end
          end
      end
  end.

Definition overlay (es ds : list (string * Node)) : list (string * Node) :=
  fold_left (fun acc e => put (fst e) (snd e) acc) es ds.

(** The tree with a directory at [p] (missing parents created) that holds
    the entries [es] on top of what was there; [None] when a regular file
    stands in the way. *)
Fixpoint graft (p : path) (es : list (string * Node)) (n : Node) : option Node :=
  match n with
  | File _ => None
  | Dir ds =>
      match p with
      | [] => Some (Dir (overlay es ds))
      | x :: rest =>
          match graft rest es (default (Dir []) (find x ds)) with
          | Some c => Some (Dir (put x c ds))
          | None => None
          end
      end
  end.

(** The regular file that stands in the way of [p]: the shortest prefix of
    [p] at which a regular file is found, if there is one. *)
Fixpoint blocker (p : path) (n : Node) : option path :=
  match n with
  | File _ => Some []
  | Dir es =>
      match p with
      | [] => None
      | x :: rest =>
          match find x es with
          | Some c => cons x <$> blocker rest c
          | None => None
          end
      end
  end.

(** A new name put at its place in a list kept in the order of the names. *)
Fixpoint place (x : string) (c : Node) (l : list (string * Node)) : list (string * Node) :=
  match l with
  | [] => [(x, c)]
  | (y, c') :: rest =>
      if String.ltb x y then (x, c) :: (y, c') :: rest else (y, c') :: place x c rest
  end.

(** The entries of a directory as a listing gives them: one for each name,
    the one [find] sees, in the order of the names. *)
Definition listing (es : list (string * Node)) : list (string * Node) :=
  fold_right
    (fun e acc =>
       match find (fst e) acc with
       | Some _ => put (fst e) (snd e) acc
       | None => place (fst e) (snd e) acc
       end) [] es.

(** The tree with every directory as its listing gives it. *)
Fixpoint listed (n : Node) : Node :=
  match n with
  | File data => File data
  | Dir es => Dir (listing (map (fun e => (fst e, listed (snd e))) es))
  end.

(** Writing one regular file [name] with the bytes [data] into the
    directory [dir]: the directory is made with its parents, then the file
    is created or truncated.  A regular file among the parents, or a
    directory standing where the file goes, is an error. *)
Definition write_file (dir : path) (name : string) (data : list byte) (d : Node)
  : option error * Node :=
  match graft dir [(name, File data)] d with
  | None => (Some (PathError "mkdir" (default dir (blocker dir d)) ENOTDIR), d)
  | Some d' =>
      match walk (dir ++ [name])%list d with
      | Found (Dir _) => (Some (PathError "open" (dir ++ [name])%list EISDIR), d)
      | _ => (None, d')
      end
  end.

(** The entries of a directory copied one after the other, each by
    [copy_entry]; the first error ends the copy and what was written
    stays. *)
Definition copy_entries (copy_entry : string -> Node -> Node -> option error * Node) :=
  fix each (es : list (string * Node)) (d : Node) : option error * Node :=
    match es with
    | [] => (None, d)
    | (x, c) :: rest =>
        let (r, d1) := copy_entry x c d in
        match r with
        | Some e => (Some e, d1)
        | None => each rest d1
        end
    end.

(** Copying what the directory [n] holds under [destination]: a regular
    file is written, a directory is entered (and is made only when a file
    is written under it). *)
Fixpoint copy_into (destination : path) (n : Node) (d : Node) {struct n}
  : option error * Node :=
  match n with
  | File _ => (None, d)
  | Dir es =>
      copy_entries
        (fun x c d =>
           match c with
           | File data => write_file destination x data d
           | Dir _ => copy_into (destination ++ [x])%list c d
           end) es d
  end.

Definition copy_entry (destination : path) (x : string) (c : Node) (d : Node)
  : option error * Node :=
  match c with
  | File data => write_file destination x data d
  | Dir _ => copy_into (destination ++ [x])%list c d
  end.

(** What a copy of [source] to [destination] returns and leaves. *)
Definition copy (source destination : path) (d : Node) : option error * Node :=
  match walk source d with
  | Found (Dir es) => copy_into destination (listed (Dir es)) d
  | Found (File _) => (Some (PathError "readdirent" source ENOTDIR), d)
  | Missing => (Some (PathError "open" source ENOENT), d)
  | Blocked => (Some (PathError "open" source ENOTDIR), d)
  end.

(** A tree in which no directory holds the same name twice. *)
Inductive tidy : Node -> Prop :=
| tidy_File data : tidy (File data)
| tidy_Dir es :
    List.NoDup (map fst es) -> Forall (fun e => tidy (snd e)) es -> tidy (Dir es).

(** ** The data of the package and of its collaborators *)

Definition Dependency : string := "node_modules".
Definition NodeDependency : string := "node".
Definition Cache : string := "cache".
Definition ModulesDir : string := "node_modules".
Definition ModulesMetaName : string := "Node Modules".
Definition CacheDir : string := "npm-cache".
Definition CacheMetaName : string := "NPM Cache".
Definition PackageLock : string := "package-lock.json".

(** [type Metadata struct { Name, Hash string }]: the only implementation
    of [MetadataInterface], so the interface is read as this record. *)
Record Metadata := mkMetadata { Name : string; Hash : string }.

Definition Identity (m : Metadata) : string * string := (Name m, Hash m).

#[global] Instance Metadata_eq_dec : EqDecision Metadata.
Proof. solve_decision. Defined.

Module application.

Record Application := { Root : path }.

End application.

Module layers.

Inductive Flag := Build | Cache | Launch.

#[global] Instance Flag_eq_dec : EqDecision Flag.
Proof. solve_decision. Defined.

(** A layer handle: its root directory and the name it is stored under. *)
Record Layer := { Root : path; LayerName : string }.

Record Layers := { LayersRoot : path }.

(** [Layers.Layer(name)] *)
Definition Layer_of (ls : Layers) (name : string) : Layer :=
  {| Root := filepath.Join (LayersRoot ls) name; LayerName := name |}.

(** [Process{Type, Command, Direct}] *)
Record Process := mkProcess { Type_ : string; Command : string; Direct : bool }.

(** [layers.Metadata]: the application metadata written at launch. *)
Record Metadata := { Processes : list Process }.

Inductive EnvEntry :=
| Override (name value : string)
| AppendPath (name value : string).

End layers.

(** What the store keeps for a layer between builds. *)
Record Stored := { stored_metadata : Metadata; stored_flags : list layers.Flag }.

Module buildplan.

(** What a TOML value of the plan's metadata can be once decoded into
    [interface{}]. *)
Inductive Value :=
| VBool (b : bool)
| VString (s : string)
| VInt (i : Z)
| VList (l : list Value).

Record Plan := { PlanName : string; Version : string; Metadata : gmap string Value }.

(** The three outcomes of [Plans.GetShallowMerged(name)]:
    [(Plan{}, false, err)], [(Plan{}, false, nil)] and [(plan, true, nil)]. *)
Inductive Merged :=
| MergeError (e : error)
| NotWanted
| Wanted (p : Plan).

Record Plans := { GetShallowMerged : string -> Merged }.

(** [v.(bool)] in its two-result form, on the result of a map lookup. *)
Definition assert_bool (v : option Value) : bool * bool :=
  match v with
  | Some (VBool b) => (b, true)
  | _ => (false, false)
  end.

End buildplan.

Module build.

Record Build := {
  Application : application.Application;
  Layers : layers.Layers;
  Plans : buildplan.Plans }.

End build.

(** The answer of one call of the package manager: the error it returns,
    what it printed, and the tree it leaves behind. *)
Record Outcome := { out_err : option error; out_lines : list string; out_disk : Node }.

(** [type PackageManager interface]: an implementation sees the process
    environment and the disk. *)
Record PackageManager := {
  Install : path -> path -> path -> gmap string string -> Node -> Outcome;
  Rebuild : path -> path -> gmap string string -> Node -> Outcome;
  WarnUnmetDependencies : path -> gmap string string -> Node -> Outcome }.

(** System and store calls that can fail for reasons outside the tree
    (permissions, full disk, ...). *)
Inductive SysCall :=
| ScStat (p : path)
| ScReadDir (p : path)
| ScReadFile (p : path)
| ScCopyDirectory (src dst : path)
| ScRemoveAll (p : path)
| ScMkdirAll (p : path)
| ScSetenv (key : string)
| ScMetadataMatches (layer : string)
| ScWriteMetadata (layer : string)
| ScSharedEnv (layer : string) (name : string)
| ScWriteApplicationMetadata.

Definition sys_op (c : SysCall) : string :=
  match c with
  | ScStat _ => "stat"
  | ScReadDir _ | ScReadFile _ | ScCopyDirectory _ _ => "open"
  | ScRemoveAll _ => "unlinkat"
  | ScMkdirAll _ => "mkdir"
  | ScSetenv _ => "setenv"
  | ScMetadataMatches _ => "read"
  | _ => "write"
  end.

Definition sys_path (c : SysCall) : path :=
  match c with
  | ScStat p | ScReadDir p | ScReadFile p | ScRemoveAll p | ScMkdirAll p => p
  | ScCopyDirectory src _ => src
  | ScSetenv key => [key]
  | ScMetadataMatches l | ScWriteMetadata l => [l]
  | ScSharedEnv l name => [l; name]
  | ScWriteApplicationMetadata => []
  end.

(** The error of a call that failed for such a reason; it is never "does
    not exist". *)
Definition failure (c : SysCall) (f : fault) : error :=
  PathError (sys_op c) (sys_path c) (EOTHER f).

(** Calls that leave the package, in the order they were made. *)
Inductive Event :=
| EvInfo (msg : string)
| EvInstall (layerRoot cacheRoot appRoot : path) (printed : list string) (answer : option error)
| EvRebuild (cacheRoot appRoot : path) (printed : list string) (answer : option error)
| EvWarnUnmetDependencies (appRoot : path) (findings : list string) (answer : option error)
| EvCopyDirectory (src dst : path)
| EvRemoveAll (p : path)
| EvMkdirAll (p : path)
| EvSetenv (key value : string)
| EvLayerContribute (l : layers.Layer) (expected : Metadata) (flags : list layers.Flag)
| EvWriteMetadata (l : layers.Layer) (expected : Metadata) (flags : list layers.Flag)
| EvSharedEnv (l : layers.Layer) (e : layers.EnvEntry)
| EvWriteApplicationMetadata (md : layers.Metadata).

Record World := mkWorld {
  disk : Node;
  environ : gmap string string;
  clock : nat -> Z;
  ticks : nat;
  faults : SysCall -> option fault;
  stored : gmap string Stored;
  sharedEnv : list (string * layers.EnvEntry);
  appMetadata : option layers.Metadata;
  events : list Event }.

Definition set_disk (d : Node) (w : World) : World :=
  mkWorld d (environ w) (clock w) (ticks w) (faults w) (stored w)
          (sharedEnv w) (appMetadata w) (events w).

Definition set_environ (e : gmap string string) (w : World) : World :=
  mkWorld (disk w) e (clock w) (ticks w) (faults w) (stored w)
          (sharedEnv w) (appMetadata w) (events w).

Definition set_ticks (n : nat) (w : World) : World :=
  mkWorld (disk w) (environ w) (clock w) n (faults w) (stored w)
          (sharedEnv w) (appMetadata w) (events w).

Definition set_stored (s : gmap string Stored) (w : World) : World :=
  mkWorld (disk w) (environ w) (clock w) (ticks w) (faults w) s
          (sharedEnv w) (appMetadata w) (events w).

Definition set_sharedEnv (s : list (string * layers.EnvEntry)) (w : World) : World :=
  mkWorld (disk w) (environ w) (clock w) (ticks w) (faults w) (stored w)
          s (appMetadata w) (events w).

Definition set_appMetadata (m : option layers.Metadata) (w : World) : World :=
  mkWorld (disk w) (environ w) (clock w) (ticks w) (faults w) (stored w)
          (sharedEnv w) m (events w).

Definition emit (e : Event) (w : World) : World :=
  mkWorld (disk w) (environ w) (clock w) (ticks w) (faults w) (stored w)
          (sharedEnv w) (appMetadata w) (events w ++ [e])%list.

(** ** The monad: a world threaded through, and Go's [error] results *)

Definition M (A : Type) : Type := World -> result A * World.

Definition ret {A} (a : A) : M A := fun w => (Ok a, w).

Definition bind {A B} (m : M A) (k : A -> M B) : M B :=
  fun w =>
    match m w with
    | (Ok a, w1) => k a w1
    | (Err e, w1) => (Err e, w1)
    end.

Definition fail {A} (e : error) : M A := fun w => (Err e, w).

Notation "x <- m ;; k" := (bind m (fun x => k))
  (at level 100, m at next level, right associativity).
Notation "m ;; k" := (bind m (fun _ => k))
  (at level 100, right associativity).

(** [if err := m; err != nil { return f(err) }] *)
Definition wrap {A} (f : error -> error) (m : M A) : M A :=
  fun w =>
    match m w with
    | (Ok a, w1) => (Ok a, w1)
    | (Err e, w1) => (Err (f e), w1)
    end.

(** A read of the world. *)
Definition ask {A} (f : World -> result A) : M A := fun w => (f w, w).

(** A system call: an injected fault comes first and leaves the world as
    it was. *)
Definition syscall {A} (c : SysCall) (m : M A) : M A :=
  fun w =>
    match faults w c with
    | Some f => (Err (failure c f), w)
    | None => m w
    end.

Definition log (e : Event) : M unit := fun w => (Ok tt, emit e w).

Module os.

(** [os.IsNotExist] *)
Definition IsNotExist (e : error) : bool :=
  match e with
  | PathError _ _ ENOENT => true
  | _ => false
  end.

(** [os.Stat] *)
Definition Stat (p : path) (w : World) : result Node :=
  match faults w (ScStat p) with
  | Some f => Err (failure (ScStat p) f)
  | None =>
      match walk p (disk w) with
      | Found n => Ok n
      | Missing => Err (PathError "stat" p ENOENT)
      | Blocked => Err (PathError "stat" p ENOTDIR)
      end
  end.

(** [os.RemoveAll]: removes the subtree; a missing path is not an error
    (pruning it changes nothing). *)
Definition RemoveAll (p : path) : M unit :=
  syscall (ScRemoveAll p) (fun w =>
    match p, walk p (disk w) with
    | [], _ => (Err (PathError "unlinkat" p EINVAL), w)
    | _, Blocked => (Err (PathError "unlinkat" p ENOTDIR), w)
    | _, _ => (Ok tt, emit (EvRemoveAll p) (set_disk (prune p (disk w)) w))
    end).

(** [os.MkdirAll]: the directory is made with the parents it lacks; when
    a regular file stands on the way nothing is made, and the error names
    that file. *)
Definition MkdirAll (p : path) : M unit :=
  syscall (ScMkdirAll p) (fun w =>
    match graft p [] (disk w) with
    | Some d => (Ok tt, emit (EvMkdirAll p) (set_disk d w))
    | None => (Err (PathError "mkdir" (default p (blocker p (disk w))) ENOTDIR), w)
    end).

(** [os.Setenv] *)
Definition Setenv (key value : string) : M unit :=
  syscall (ScSetenv key) (fun w =>
    (Ok tt, emit (EvSetenv key value) (set_environ (<[key := value]> (environ w)) w))).

End os.

Module ioutil.

(** [ioutil.ReadDir]: the entries of a directory with their [IsDir()]. *)
Definition ReadDir (p : path) (w : World) : result (list (string * bool)) :=
  match faults w (ScReadDir p) with
  | Some f => Err (failure (ScReadDir p) f)
  | None =>
      match walk p (disk w) with
      | Found (Dir es) => Ok (map (fun e => (fst e, is_dir (snd e))) es)
      | Found (File _) => Err (PathError "readdirent" p ENOTDIR)
      | Missing => Err (PathError "open" p ENOENT)
      | Blocked => Err (PathError "open" p ENOTDIR)
      end
  end.

(** [ioutil.ReadFile] *)
Definition ReadFile (p : path) (w : World) : result (list byte) :=
  match faults w (ScReadFile p) with
  | Some f => Err (failure (ScReadFile p) f)
  | None =>
      match walk p (disk w) with
      | Found (File data) => Ok data
      | Found (Dir _) => Err (PathError "read" p EISDIR)
      | Missing => Err (PathError "open" p ENOENT)
      | Blocked => Err (PathError "open" p ENOTDIR)
      end
  end.

End ioutil.

Module time.

(** [time.Now().UnixNano()]: the next reading of the clock. *)
Definition Now_UnixNano : M Z :=
  fun w => (Ok (clock w (ticks w)), set_ticks (S (ticks w)) w).

End time.

Module helper.

(** [helper.FileExists]: [os.Stat], with "does not exist" turned into
    [(false, nil)]. *)
Definition FileExists (file : path) (w : World) : result bool :=
  match os.Stat file w with
  | Ok _ => Ok true
  | Err e => if os.IsNotExist e then Ok false else Err e
  end.

(** Modelled from the spec: [helper.CopyDirectory] belongs to the
    buildpack library; it copies the full contents of the source directory
    into the destination directory.  The library does so file by file: it
    walks the source in the order of the names and writes each regular file
    at its place under the destination, making the directories above the
    file as it writes it ([os.MkdirAll] of the parent, then the file
    created or truncated), so that a directory that holds no regular file
    is not made.  The first call that fails ends the copy with the error of
    that call, and what was written by then stays.  The source is taken as
    it stands at the call, which is what the walk meets as long as neither
    directory lies inside the other. *)
Definition CopyDirectory (source destination : path) : M unit :=
  syscall (ScCopyDirectory source destination) (fun w =>
    match copy source destination (disk w) with
    | (None, d) => (Ok tt, emit (EvCopyDirectory source destination) (set_disk d w))
    | (Some e, d) => (Err e, set_disk d w)
    end).

End helper.

(** ** The layer store and the package manager, as the contributor calls them *)

(** Modelled from the spec: the comparison the layer store makes between
    the supplied fingerprint and the one it recorded in the previous
    build. *)
Definition Layer_MetadataMatches (l : layers.Layer) (expected : Metadata) : M bool :=
  syscall (ScMetadataMatches (layers.LayerName l)) (fun w =>
    (Ok (bool_decide
           (stored_metadata <$> stored w !! layers.LayerName l = Some expected)), w)).

(** Modelled from the spec: the store records the fingerprint and the
    purpose flags of a layer. *)
Definition Layer_WriteMetadata (l : layers.Layer) (expected : Metadata)
    (flags : list layers.Flag) : M unit :=
  syscall (ScWriteMetadata (layers.LayerName l)) (fun w =>
    (Ok tt,
     emit (EvWriteMetadata l expected flags)
       (set_stored
          (<[layers.LayerName l :=
               {| stored_metadata := expected; stored_flags := flags |}]> (stored w)) w))).

(** Modelled from the spec: [Layer.Contribute(fingerprint,
    contributionFunction, purposeFlags...)] of the layer store invokes the
    contribution function only on fingerprint mismatch and persists the
    supplied fingerprint on success. *)
Definition Layer_Contribute (l : layers.Layer) (expected : Metadata)
    (contributor : layers.Layer -> M unit) (flags : list layers.Flag) : M unit :=
  log (EvLayerContribute l expected flags) ;;
  matches <- Layer_MetadataMatches l expected ;;
  if matches then Layer_WriteMetadata l expected flags
  else (contributor l ;; Layer_WriteMetadata l expected flags).

(** Modelled from the spec: a variable override scoped to the layer. *)
Definition Layer_OverrideSharedEnv (l : layers.Layer) (name value : string) : M unit :=
  syscall (ScSharedEnv (layers.LayerName l) name) (fun w =>
    (Ok tt,
     emit (EvSharedEnv l (layers.Override name value))
       (set_sharedEnv
          (sharedEnv w ++ [(layers.LayerName l, layers.Override name value)])%list w))).

(** Modelled from the spec: a search-path extension scoped to the layer. *)
Definition Layer_AppendPathSharedEnv (l : layers.Layer) (name value : string) : M unit :=
  syscall (ScSharedEnv (layers.LayerName l) name) (fun w =>
    (Ok tt,
     emit (EvSharedEnv l (layers.AppendPath name value))
       (set_sharedEnv
          (sharedEnv w ++ [(layers.LayerName l, layers.AppendPath name value)])%list w))).

(** Modelled from the spec: the application metadata (the registered
    processes) is written as a whole. *)
Definition Layers_WriteApplicationMetadata (ls : layers.Layers)
    (md : layers.Metadata) : M unit :=
  syscall ScWriteApplicationMetadata (fun w =>
    (Ok tt, emit (EvWriteApplicationMetadata md) (set_appMetadata (Some md) w))).

(** [Logger.Info] *)
Definition Logger_Info (msg : string) : M unit := log (EvInfo msg).

(** A call of the package manager: its tree replaces the disk, the call
    and its answer are recorded, its error is returned. *)
Definition answer (o : Outcome) (ev : Event) : M unit :=
  fun w =>
    let w1 := emit ev (set_disk (out_disk o) w) in
    match out_err o with
    | Some e => (Err e, w1)
    | None => (Ok tt, w1)
    end.

Definition call_Install (pm : PackageManager) (layerRoot cacheRoot appRoot : path) : M unit :=
  fun w =>
    let o := Install pm layerRoot cacheRoot appRoot (environ w) (disk w) in
    answer o (EvInstall layerRoot cacheRoot appRoot (out_lines o) (out_err o)) w.

Definition call_Rebuild (pm : PackageManager) (cacheRoot appRoot : path) : M unit :=
  fun w =>
    let o := Rebuild pm cacheRoot appRoot (environ w) (disk w) in
    answer o (EvRebuild cacheRoot appRoot (out_lines o) (out_err o)) w.

Definition call_WarnUnmetDependencies (pm : PackageManager) (appRoot : path) : M unit :=
  fun w =>
    let o := WarnUnmetDependencies pm appRoot (environ w) (disk w) in
    answer o (EvWarnUnmetDependencies appRoot (out_lines o) (out_err o)) w.

(** ** modules.go *)

Record Contributor := mkContributor {
  NodeModulesMetadata : Metadata;
  NPMCacheMetadata : Metadata;
  buildContribution : bool;
  launchContribution : bool;
  pkgManager : PackageManager;
  app : application.Application;
  nodeModulesLayer : layers.Layer;
  npmCacheLayer : layers.Layer;
  launch : layers.Layers }.

Definition set_NodeModulesMetadata (m : Metadata) (c : Contributor) : Contributor :=
  mkContributor m (NPMCacheMetadata c) (buildContribution c) (launchContribution c)
    (pkgManager c) (app c) (nodeModulesLayer c) (npmCacheLayer c) (launch c).

Definition set_NPMCacheMetadata (m : Metadata) (c : Contributor) : Contributor :=
  mkContributor (NodeModulesMetadata c) m (buildContribution c) (launchContribution c)
    (pkgManager c) (app c) (nodeModulesLayer c) (npmCacheLayer c) (launch c).

Definition set_buildContribution (b : bool) (c : Contributor) : Contributor :=
  mkContributor (NodeModulesMetadata c) (NPMCacheMetadata c) b (launchContribution c)
    (pkgManager c) (app c) (nodeModulesLayer c) (npmCacheLayer c) (launch c).

Definition set_launchContribution (b : bool) (c : Contributor) : Contributor :=
  mkContributor (NodeModulesMetadata c) (NPMCacheMetadata c) (buildContribution c) b
    (pkgManager c) (app c) (nodeModulesLayer c) (npmCacheLayer c) (launch c).

(** The unset [MetadataInterface] fields of a fresh [Contributor]. *)
Definition noMetadata : Metadata := mkMetadata "" "".

(** [func (c *Contributor) setLayersMetadata() error]; the updated
    receiver is the result. *)
Definition setLayersMetadata (c : Contributor) : M Contributor :=
  t1 <- time.Now_UnixNano ;;
  let c := set_NodeModulesMetadata (mkMetadata ModulesMetaName (strconv.FormatInt16 t1)) c in
  t2 <- time.Now_UnixNano ;;
  let c := set_NPMCacheMetadata (mkMetadata CacheMetaName (strconv.FormatInt16 t2)) c in
  exists_ <- ask (helper.FileExists (filepath.Join (application.Root (app c)) PackageLock)) ;;
  if (exists_ : bool) then
    out <- ask (ioutil.ReadFile (filepath.Join (application.Root (app c)) PackageLock)) ;;
    let hash := sha256.Sum256 out in
    let c := set_NodeModulesMetadata (mkMetadata ModulesMetaName (hex.EncodeToString hash)) c in
    let c := set_NPMCacheMetadata (mkMetadata CacheMetaName (hex.EncodeToString hash)) c in
    ret c
  else ret c.

(** [func NewContributor(context, pkgManager) (Contributor, bool, error)]:
    [Some c] is [(c, true, nil)], [None] is [(Contributor{}, false, nil)]. *)
Definition NewContributor (context : build.Build) (pkgManager : PackageManager)
    : M (option Contributor) :=
  match buildplan.GetShallowMerged (build.Plans context) Dependency with
  | buildplan.MergeError err => fail err
  | buildplan.NotWanted => ret None
  | buildplan.Wanted plan =>
      let contributor :=
        {| NodeModulesMetadata := noMetadata;
           NPMCacheMetadata := noMetadata;
           buildContribution := false;
           launchContribution := false;
           pkgManager := pkgManager;
           app := build.Application context;
           nodeModulesLayer := layers.Layer_of (build.Layers context) Dependency;
           npmCacheLayer := layers.Layer_of (build.Layers context) Cache;
           launch := build.Layers context |} in
      contributor <- setLayersMetadata contributor ;;
      let contributor :=
        set_buildContribution
          (fst (buildplan.assert_bool (buildplan.Metadata plan !! "build"))) contributor in
      let contributor :=
        set_launchContribution
          (fst (buildplan.assert_bool (buildplan.Metadata plan !! "launch"))) contributor in
      ret (Some contributor)
  end.

(** [func hasSubdirs(path string) (bool, error)] *)
Definition hasSubdirs (p : path) (w : World) : result bool :=
  match ioutil.ReadDir p w with
  | Err err => if os.IsNotExist err then Ok false else Err err
  | Ok files => Ok (existsb snd files)
  end.

(** [func (c *Contributor) tipVendorDependencies(nodeModules string) error] *)
Definition tipVendorDependencies (c : Contributor) (nodeModules : path) : M unit :=
  subdirs <- ask (hasSubdirs nodeModules) ;;
  (if negb subdirs
   then Logger_Info "It is recommended to vendor the application's Node.js dependencies"
   else ret tt) ;;
  ret tt.

(** [func (c Contributor) contributeNodeModules(layer layers.Layer) error] *)
Definition contributeNodeModules (c : Contributor) (layer : layers.Layer) : M unit :=
  let nodeModules := filepath.Join (application.Root (app c)) ModulesDir in
  tipVendorDependencies c nodeModules ;;
  vendored <- wrap (Errorf "unable to stat node_modules: ")
                (ask (helper.FileExists nodeModules)) ;;
  (if (vendored : bool) then
     Logger_Info "Rebuilding node_modules" ;;
     wrap (Errorf "unable to rebuild node_modules: ")
       (call_Rebuild (pkgManager c) (layers.Root (npmCacheLayer c))
          (application.Root (app c)))
   else
     Logger_Info "Installing node_modules" ;;
     wrap (Errorf "unable to install node_modules: ")
       (call_Install (pkgManager c) (layers.Root layer) (layers.Root (npmCacheLayer c))
          (application.Root (app c)))) ;;
  nodeModulesExist <- wrap (Errorf "unable to stat node_modules: ")
                        (ask (helper.FileExists nodeModules)) ;;
  (if (nodeModulesExist : bool) then
     wrap (Errorf ("unable to copy " +:+ dq +:+ filepath.show nodeModules +:+ dq
                   +:+ " to " +:+ dq +:+ filepath.show (layers.Root layer) +:+ dq +:+ ": "))
       (helper.CopyDirectory nodeModules (filepath.Join (layers.Root layer) ModulesDir)) ;;
     wrap (Errorf "unable to remove node_modules from the app dir: ")
       (os.RemoveAll nodeModules)
   else ret tt) ;;
  wrap (fun _ => errorString "unable to set NODE_VERBOSE to true")
    (os.Setenv "NODE_VERBOSE" "true") ;;
  wrap (Errorf "failed to check unmet dependencies: ")
    (call_WarnUnmetDependencies (pkgManager c) (application.Root (app c))) ;;
  Layer_OverrideSharedEnv layer "NODE_PATH"
    (filepath.show (filepath.Join (layers.Root layer) ModulesDir)) ;;
  Layer_AppendPathSharedEnv layer "PATH"
    (filepath.show (filepath.Join (filepath.Join (layers.Root layer) ModulesDir) ".bin")).

(** [func (c Contributor) contributeNPMCache(layer layers.Layer) error] *)
Definition contributeNPMCache (c : Contributor) (layer : layers.Layer) : M unit :=
  wrap (Errorf "unable make npm cache layer: ") (os.MkdirAll (layers.Root layer)) ;;
  let npmCache := filepath.Join (application.Root (app c)) CacheDir in
  npmCacheExists <- ask (helper.FileExists npmCache) ;;
  (if (npmCacheExists : bool) then
     wrap (Errorf ("unable to copy " +:+ dq +:+ filepath.show npmCache +:+ dq
                   +:+ " to " +:+ dq +:+ filepath.show (layers.Root layer) +:+ dq +:+ ": "))
       (helper.CopyDirectory npmCache (filepath.Join (layers.Root layer) CacheDir)) ;;
     wrap (Errorf "unable to remove existing npm-cache: ") (os.RemoveAll npmCache)
   else ret tt) ;;
  ret tt.

(** [func (c Contributor) flags() []layers.Flag] *)
Definition flags (c : Contributor) : list layers.Flag :=
  let flags := [layers.Cache] in
  let flags := if buildContribution c then (flags ++ [layers.Build])%list else flags in
  let flags := if launchContribution c then (flags ++ [layers.Launch])%list else flags in
  flags.

(** The process list of line 97: [{"web", "npm start", false}]. *)
Definition webProcess : layers.Process := layers.mkProcess "web" "npm start" false.

(** [func (c Contributor) Contribute() error] *)
Definition Contribute (c : Contributor) : M unit :=
  Layer_Contribute (nodeModulesLayer c) (NodeModulesMetadata c)
    (contributeNodeModules c) (flags c) ;;
  Layer_Contribute (npmCacheLayer c) (NPMCacheMetadata c)
    (contributeNPMCache c) [layers.Cache] ;;
  Layers_WriteApplicationMetadata (launch c)
    {| layers.Processes := [webProcess] |}.

(** ** The outcome of a call, and what a copy leaves *)

(** The error a computation returns in a world, if any. *)
Definition fails {A} (m : M A) (w : World) : option error :=
  match fst (m w) with
  | Err e => Some e
  | Ok _ => None
  end.

(** The tree a copy leaves, whether it went through or stopped on an
    error. *)
Definition copied (source destination : path) (d : Node) : Node :=
  snd (copy source destination d).

(** The tree a call of [CopyDirectory] leaves: the one it found when the
    call failed for an outside reason, the one the copy leaves otherwise. *)
Definition interrupted (source destination : path) (w : World) : Node :=
  match faults w (ScCopyDirectory source destination) with
  | Some _ => disk w
  | None => copied source destination (disk w)
  end.

(** Where the contributor looks for the dependency tree. *)
Definition nodeModulesPath (c : Contributor) : path :=
  filepath.Join (application.Root (app c)) ModulesDir.

(** The tree the package manager leaves behind in the branch the
    contributor takes: [Rebuild] when [node_modules] was found, [Install]
    otherwise. *)
Definition built (c : Contributor) (layer : layers.Layer) (w : World) : Node :=
  match helper.FileExists (nodeModulesPath c) w with
  | Ok true =>
      out_disk (Rebuild (pkgManager c) (layers.Root (npmCacheLayer c))
                  (application.Root (app c)) (environ w) (disk w))
  | _ =>
      out_disk (Install (pkgManager c) (layers.Root layer)
                  (layers.Root (npmCacheLayer c))
                  (application.Root (app c)) (environ w) (disk w))
  end.

(** The outcome of the two environment exports that end the contribution. *)
Definition exported (layer : layers.Layer) (w : World) : result unit :=
  match faults w (ScSharedEnv (layers.LayerName layer) "NODE_PATH") with
  | Some f => Err (failure (ScSharedEnv (layers.LayerName layer) "NODE_PATH") f)
  | None =>
      match faults w (ScSharedEnv (layers.LayerName layer) "PATH") with
      | Some f => Err (failure (ScSharedEnv (layers.LayerName layer) "PATH") f)
      | None => Ok tt
      end
  end.

(** ** Reading the trace *)

Definition is_Install (e : Event) : bool :=
  match e with EvInstall _ _ _ _ _ => true | _ => false end.

Definition is_Rebuild (e : Event) : bool :=
  match e with EvRebuild _ _ _ _ => true | _ => false end.

Definition is_Warn (e : Event) : bool :=
  match e with EvWarnUnmetDependencies _ _ _ => true | _ => false end.

(** Relocation and the other changes of the tree made by the package
    itself. *)
Definition is_move (e : Event) : bool :=
  match e with
  | EvCopyDirectory _ _ | EvRemoveAll _ | EvMkdirAll _ => true
  | _ => false
  end.

Definition is_LayerContribute (e : Event) : bool :=
  match e with EvLayerContribute _ _ _ => true | _ => false end.

Definition is_registration (e : Event) : bool :=
  match e with EvWriteApplicationMetadata _ => true | _ => false end.

(** What the layer store does for itself: taking the call, recording the
    fingerprint and flags, writing the application metadata. *)
Definition is_bookkeeping (e : Event) : bool :=
  match e with
  | EvLayerContribute _ _ _ | EvWriteMetadata _ _ _ | EvWriteApplicationMetadata _ => true
  | _ => false
  end.

Fixpoint only (f : Event -> bool) (tr : list Event) : list Event :=
  match tr with
  | [] => []
  | e :: rest => if f e then e :: only f rest else only f rest
  end.

Definition count (f : Event -> bool) (tr : list Event) : nat := length (only f tr).

(** The events after the first call of the diagnostic, and those before. *)
Fixpoint after_warn (tr : list Event) : list Event :=
  match tr with
  | [] => []
  | e :: rest => if is_Warn e then rest else after_warn rest
  end.

Fixpoint before_warn (tr : list Event) : list Event :=
  match tr with
  | [] => []
  | e :: rest => if is_Warn e then [] else e :: before_warn rest
  end.

(** ** A small application, for running the definitions *)

Definition lockBytes : list byte :=
  bytes_of ("{" +:+ dq +:+ "name" +:+ dq +:+ ":" +:+ dq +:+ "x" +:+ dq +:+ "}").

Definition appRoot : path := ["workspace"].
Definition layersRoot : path := ["layers"].

Definition quiet (d : Node) : Outcome :=
  {| out_err := None; out_lines := []; out_disk := d |}.

(** A package manager whose install puts one package under
    [node_modules] of the application, and whose diagnostic reports a
    finding without failing. *)
Definition npm : PackageManager :=
  {| Install := fun _ _ app _ d =>
       match graft (filepath.Join app ModulesDir)
               [("left-pad", Dir [("index.js", File [])])] d with
       | Some d' => quiet d'
       | None => {| out_err := Some (errorString "npm install failed");
                    out_lines := []; out_disk := d |}
       end;
     Rebuild := fun _ _ _ d => quiet d;
     WarnUnmetDependencies := fun _ _ d =>
       {| out_err := None; out_lines := ["npm WARN unmet peer dependency"];
          out_disk := d |} |}.

(** A package manager that reports success and produces nothing. *)
Definition idle : PackageManager :=
  {| Install := fun _ _ _ _ d => quiet d;
     Rebuild := fun _ _ _ d => quiet d;
     WarnUnmetDependencies := fun _ _ d => quiet d |}.

(** A package manager whose diagnostic cannot run. *)
Definition broken_ls : PackageManager :=
  {| Install := Install npm;
     Rebuild := Rebuild npm;
     WarnUnmetDependencies := fun _ _ d =>
       {| out_err := Some (errorString "exit status 127");
          out_lines := []; out_disk := d |} |}.

Definition freshDisk : Node :=
  Dir [("workspace", Dir [("package-lock.json", File lockBytes);
                          ("server.js", File [])]);
       ("layers", Dir [])].

(** An application whose [node_modules] directory exists and holds a
    single regular file, no directory. *)
Definition flatDisk : Node :=
  Dir [("workspace", Dir [("package-lock.json", File lockBytes);
                          ("node_modules", Dir [(".yarn-integrity", File [])])]);
       ("layers", Dir [])].

(** An application without a lock file. *)
Definition unlockedDisk : Node :=
  Dir [("workspace", Dir [("server.js", File [])]); ("layers", Dir [])].

(** A world on the tree [d] whose clock reads [t] first and advances by a
    nanosecond at each reading; nothing is stored yet and no call fails for
    an outside reason. *)
Definition world_at (t : Z) (d : Node) : World :=
  {| disk := d; environ := ∅;
     clock := fun n => nth n [t; t + 1; t + 2; t + 3] (t + 4); ticks := 0;
     faults := fun _ => None; stored := ∅; sharedEnv := [];
     appMetadata := None; events := [] |}.

Definition world_of (d : Node) : World := world_at 1700000000000000000 d.

Definition plan_of (md : gmap string buildplan.Value) : buildplan.Plan :=
  {| buildplan.PlanName := Dependency; buildplan.Version := "";
     buildplan.Metadata := md |}.

Definition context_of (md : gmap string buildplan.Value) : build.Build :=
  {| build.Application := {| application.Root := appRoot |};
     build.Layers := {| layers.LayersRoot := layersRoot |};
     build.Plans :=
       {| buildplan.GetShallowMerged := fun name =>
            if decide (name = Dependency)
            then buildplan.Wanted (plan_of md) else buildplan.NotWanted |} |}.

Definition sample (pm : PackageManager) : Contributor :=
  {| NodeModulesMetadata := mkMetadata ModulesMetaName "0";
     NPMCacheMetadata := mkMetadata CacheMetaName "0";
     buildContribution := true;
     launchContribution := false;
     pkgManager := pm;
     app := {| application.Root := appRoot |};
     nodeModulesLayer := layers.Layer_of {| layers.LayersRoot := layersRoot |} Dependency;
     npmCacheLayer := layers.Layer_of {| layers.LayersRoot := layersRoot |} Cache;
     launch := {| layers.LayersRoot := layersRoot |} |}.

(** Where the contributor looks for the lock file. *)
Definition lockPath (c : Contributor) : path :=
  filepath.Join (application.Root (app c)) PackageLock.

(** The contributor as [NewContributor] builds it before the fingerprints
    and the intents are filled in. *)
Definition blank (context : build.Build) (pm : PackageManager) : Contributor :=
  {| NodeModulesMetadata := noMetadata;
     NPMCacheMetadata := noMetadata;
     buildContribution := false;
     launchContribution := false;
     pkgManager := pm;
     app := build.Application context;
     nodeModulesLayer := layers.Layer_of (build.Layers context) Dependency;
     npmCacheLayer := layers.Layer_of (build.Layers context) Cache;
     launch := build.Layers context |}.

(** The intents read from the metadata of the plan. *)
Definition intents (plan : buildplan.Plan) (c : Contributor) : Contributor :=
  set_launchContribution
    (fst (buildplan.assert_bool (buildplan.Metadata plan !! "launch")))
    (set_buildContribution
       (fst (buildplan.assert_bool (buildplan.Metadata plan !! "build"))) c).

(** The events a run added to the trace. *)
Definition added (w w' : World) : list Event := skipn (length (events w)) (events w').

(** The vendoring rule as the specification words it: [Rebuild] exactly
    when [node_modules] exists with a directory inside, otherwise one
    [Install] and no [Rebuild]. *)
Definition rebuild_iff_nested (c : Contributor) (layer : layers.Layer) (w : World) : Prop :=
  let tr := added w (snd (contributeNodeModules c layer w)) in
  ((1 <= count is_Rebuild tr)%nat <-> hasSubdirs (nodeModulesPath c) w = Ok true)
  /\ (hasSubdirs (nodeModulesPath c) w <> Ok true ->
      count is_Install tr = 1%nat /\ count is_Rebuild tr = 0%nat).

(** The relocation rule as the specification words it: after a successful
    contribution the application root has lost [node_modules] and the layer
    root has it. *)
Definition relocated_always (c : Contributor) (layer : layers.Layer) (w : World) : Prop :=
  forall w', contributeNodeModules c layer w = (Ok tt, w') ->
    present (nodeModulesPath c) (disk w') = false
    /\ present (filepath.Join (layers.Root layer) ModulesDir) (disk w') = true.

(** The rule on the intents as the specification words it: with the
    requirement present and a "build" or "launch" entry that is missing or
    is not a boolean, [NewContributor] returns a contributor, whose intent
    for that entry is false. *)
Definition lenient_intents (context : build.Build) (pm : PackageManager) (w : World) : Prop :=
  forall plan,
    buildplan.GetShallowMerged (build.Plans context) Dependency = buildplan.Wanted plan ->
    (forall b, buildplan.Metadata plan !! "build" <> Some (buildplan.VBool b))
    \/ (forall b, buildplan.Metadata plan !! "launch" <> Some (buildplan.VBool b)) ->
    exists c w',
      NewContributor context pm w = (Ok (Some c), w')
      /\ ((forall b, buildplan.Metadata plan !! "build" <> Some (buildplan.VBool b)) ->
          buildContribution c = false /\ ~ In layers.Build (flags c))
      /\ ((forall b, buildplan.Metadata plan !! "launch" <> Some (buildplan.VBool b)) ->
          launchContribution c = false /\ ~ In layers.Launch (flags c)).

(** A contribution function that leaves the store's records, the
    application metadata and the fault table alone and does none of the
    store's bookkeeping. *)
Definition quiet_fn (f : layers.Layer -> M unit) : Prop :=
  forall l w,
    faults (snd (f l w)) = faults w
    /\ stored (snd (f l w)) = stored w
    /\ appMetadata (snd (f l w)) = appMetadata w
    /\ exists tr, events (snd (f l w)) = (events w ++ tr)%list
         /\ only is_bookkeeping tr = [].

(** The events that are not the store's bookkeeping. *)
Definition is_work (e : Event) : bool := negb (is_bookkeeping e).

(** A first build of the small application, and the world it leaves. *)
Definition firstBuild : result (option Contributor) * World :=
  NewContributor (context_of ∅) npm (world_of freshDisk).

Definition firstContributor : Contributor :=
  match fst firstBuild with
  | Ok (Some c) => c
  | _ => sample npm
  end.

Definition afterFirstBuild : World :=
  snd (Contribute firstContributor (snd firstBuild)).

(** An application whose [node_modules] is a regular file. *)
Definition fileDisk : Node :=
  Dir [("workspace", Dir [("node_modules", File [])]); ("layers", Dir [])].

(** ** More of the small application *)

(** The advisory of [tipVendorDependencies]. *)
Definition vendoringTip : string :=
  "It is recommended to vendor the application's Node.js dependencies".

Definition is_tip (e : Event) : bool :=
  match e with
  | EvInfo msg => bool_decide (msg = vendoringTip)
  | _ => false
  end.

Definition is_Setenv (e : Event) : bool :=
  match e with EvSetenv _ _ => true | _ => false end.

Definition is_SharedEnv (e : Event) : bool :=
  match e with EvSharedEnv _ _ => true | _ => false end.

(** An application whose lock file path is a directory. *)
Definition lockDirDisk : Node :=
  Dir [("workspace", Dir [("package-lock.json", Dir [])]); ("layers", Dir [])].

(** An application that vendors its dependencies. *)
Definition vendoredDisk : Node :=
  Dir [("workspace", Dir [("package-lock.json", File lockBytes);
                          ("node_modules", Dir [("left-pad", Dir [("index.js", File [])])])]);
       ("layers", Dir [])].

(** An application that ships a package-manager cache. *)
Definition cachedDisk : Node :=
  Dir [("workspace",
        Dir [("package-lock.json", File lockBytes);
             ("npm-cache", Dir [("_cacache", Dir [("index-v5", File [])])])]);
       ("layers", Dir [])].

(** A package manager whose install and rebuild fail. *)
Definition failing : PackageManager :=
  {| Install := fun _ _ _ _ d =>
       {| out_err := Some (errorString "exit status 1"); out_lines := []; out_disk := d |};
     Rebuild := fun _ _ _ d =>
       {| out_err := Some (errorString "exit status 1"); out_lines := []; out_disk := d |};
     WarnUnmetDependencies := fun _ _ d => quiet d |}.

Definition is_build (e : Event) : bool := is_Install e || is_Rebuild e.

(** The call the stale contribution makes to the package manager, on the
    world as it found it: [Rebuild] when [node_modules] was found,
    [Install] otherwise. *)
Definition attempt (c : Contributor) (layer : layers.Layer) (w : World) : Outcome :=
  match helper.FileExists (nodeModulesPath c) w with
  | Ok true =>
      Rebuild (pkgManager c) (layers.Root (npmCacheLayer c))
        (application.Root (app c)) (environ w) (disk w)
  | _ =>
      Install (pkgManager c) (layers.Root layer) (layers.Root (npmCacheLayer c))
        (application.Root (app c)) (environ w) (disk w)
  end.

Definition attempt_event (c : Contributor) (layer : layers.Layer) (w : World) : Event :=
  match helper.FileExists (nodeModulesPath c) w with
  | Ok true =>
      EvRebuild (layers.Root (npmCacheLayer c)) (application.Root (app c))
        (out_lines (attempt c layer w)) (out_err (attempt c layer w))
  | _ =>
      EvInstall (layers.Root layer) (layers.Root (npmCacheLayer c))
        (application.Root (app c))
        (out_lines (attempt c layer w)) (out_err (attempt c layer w))
  end.

(** A vendored application whose layer directory is taken by a regular
    file, so that no file can be written under it. *)
Definition blockedDisk : Node :=
  Dir [("workspace",
        Dir [("node_modules", Dir [("left-pad", Dir [("index.js", File [])])])]);
       ("layers", Dir [("node_modules", File [])])].

(** An application with a cache, and a cache layer in which a regular file
    stands where the cache would go. *)
Definition blockedCacheDisk : Node :=
  Dir [("workspace",
        Dir [("npm-cache", Dir [("_cacache", Dir [("index-v5", File [])])])]);
       ("layers", Dir [("cache", Dir [("npm-cache", File [])])])].

(** An application whose [node_modules] is an empty directory. *)
Definition emptyModulesDisk : Node :=
  Dir [("workspace", Dir [("package-lock.json", File lockBytes);
                          ("node_modules", Dir [])]);
       ("layers", Dir [])].

(** A layers directory that is a regular file. *)
Definition noLayersDisk : Node :=
  Dir [("workspace", Dir []); ("layers", File [])].

(** * Properties *)

(** ** The encoders *)

Example sha256_empty :
  hex.EncodeToString (sha256.Sum256 []) =
  "e3b0c44298fc1c149afbf4c8996fb92427ae41e4649b934ca495991b7852b855".
Proof. vm_compute. reflexivity. Qed.

Example sha256_abc :
  hex.EncodeToString (sha256.Sum256 (bytes_of "abc")) =
  "ba7816bf8f01cfea414140de5dae2223b00361a396177a9cb410ff61f20015ad".
Proof. vm_compute. reflexivity. Qed.

Example sha256_two_blocks :
  hex.EncodeToString (sha256.Sum256 (bytes_of
    "aaaaaaaaaaaaaaaaaaaaaaaaaaaaaaaaaaaaaaaaaaaaaaaaaaaaaaaa")) =
  "b35439a4ac6f0948b6d6f9e3c6af0f5f590ce20f1bde7090ef7970686ec6738a".
Proof. vm_compute. reflexivity. Qed.

Example FormatInt16_samples :
  strconv.FormatInt16 0 = "0" /\ strconv.FormatInt16 255 = "ff"
  /\ strconv.FormatInt16 (-255) = "-ff"
  /\ strconv.FormatInt16 1700000000000000000 = "17979cfe362a0000".
Proof. vm_compute. repeat split. Qed.

(** [FormatInt] never prints two integers alike. *)
Lemma FormatInt16_inj (a b : Z) :
  strconv.FormatInt16 a = strconv.FormatInt16 b -> a = b.
Proof.
  unfold strconv.FormatInt16. intros H.
  assert (Hn : forall z, Z.to_hex_int z <> Pos Nil /\ Z.to_hex_int z <> Neg Nil).
  { intros [|p|p]; simpl; split; try discriminate;
      intros E; injection E; apply HexadecimalPos.Unsigned.to_uint_nonnil. }
  apply HexadecimalZ.to_int_inj.
  assert (Ha := NilZero.isi (Z.to_hex_int a) (proj1 (Hn a)) (proj2 (Hn a))).
  assert (Hb := NilZero.isi (Z.to_hex_int b) (proj1 (Hn b)) (proj2 (Hn b))).
  rewrite H in Ha. rewrite Ha in Hb. now injection Hb.
Qed.

(** ** What the probes see does not depend on the clock or on the trace *)

Lemma FileExists_ticks p n w : helper.FileExists p (set_ticks n w) = helper.FileExists p w.
Proof. reflexivity. Qed.

Lemma ReadFile_ticks p n w : ioutil.ReadFile p (set_ticks n w) = ioutil.ReadFile p w.
Proof. reflexivity. Qed.

Lemma FileExists_emit p e w : helper.FileExists p (emit e w) = helper.FileExists p w.
Proof. reflexivity. Qed.

Lemma hasSubdirs_emit p e w : hasSubdirs p (emit e w) = hasSubdirs p w.
Proof. reflexivity. Qed.

(** ** The fingerprint *)

(** With a readable lock file both fingerprints carry its digest. *)
Lemma setLayersMetadata_locked c w L :
  helper.FileExists (lockPath c) w = Ok true ->
  ioutil.ReadFile (lockPath c) w = Ok L ->
  exists c', setLayersMetadata c w = (Ok c', set_ticks (S (S (ticks w))) w)
    /\ NodeModulesMetadata c' =
         mkMetadata ModulesMetaName (hex.EncodeToString (sha256.Sum256 L))
    /\ NPMCacheMetadata c' =
         mkMetadata CacheMetaName (hex.EncodeToString (sha256.Sum256 L))
    /\ pkgManager c' = pkgManager c /\ app c' = app c
    /\ nodeModulesLayer c' = nodeModulesLayer c
    /\ npmCacheLayer c' = npmCacheLayer c /\ launch c' = launch c
    /\ buildContribution c' = buildContribution c
    /\ launchContribution c' = launchContribution c.
Proof.
  unfold lockPath. intros HE HR.
  unfold setLayersMetadata, bind, time.Now_UnixNano, ask, ret.
  cbn [app set_NPMCacheMetadata set_NodeModulesMetadata].
  rewrite !FileExists_ticks, HE, !ReadFile_ticks, HR.
  eexists. split; [reflexivity|]. repeat split.
Qed.

(** Without a lock file both fingerprints are the clock readings. *)
Lemma setLayersMetadata_unlocked c w :
  helper.FileExists (lockPath c) w = Ok false ->
  exists c', setLayersMetadata c w = (Ok c', set_ticks (S (S (ticks w))) w)
    /\ NodeModulesMetadata c' =
         mkMetadata ModulesMetaName (strconv.FormatInt16 (clock w (ticks w)))
    /\ NPMCacheMetadata c' =
         mkMetadata CacheMetaName (strconv.FormatInt16 (clock w (S (ticks w))))
    /\ pkgManager c' = pkgManager c /\ app c' = app c
    /\ nodeModulesLayer c' = nodeModulesLayer c
    /\ npmCacheLayer c' = npmCacheLayer c /\ launch c' = launch c
    /\ buildContribution c' = buildContribution c
    /\ launchContribution c' = launchContribution c.
Proof.
  unfold lockPath. intros HE.
  unfold setLayersMetadata, bind, time.Now_UnixNano, ask, ret.
  cbn [app set_NPMCacheMetadata set_NodeModulesMetadata].
  rewrite !FileExists_ticks, HE.
  eexists. split; [reflexivity|]. repeat split.
Qed.

Lemma NewContributor_wanted context pm plan w :
  buildplan.GetShallowMerged (build.Plans context) Dependency = buildplan.Wanted plan ->
  NewContributor context pm w =
  (contributor <- setLayersMetadata (blank context pm) ;;
   ret (Some (intents plan contributor))) w.
Proof. intros H. unfold NewContributor. rewrite H. reflexivity. Qed.

(** C2.  When the application root holds a lock file, the fingerprint of
    the dependency-tree layer is the pair ("Node Modules", hex of the
    SHA-256 digest of the lock file bytes): this is what
    [setLayersMetadata] leaves in any contributor, and what
    [NewContributor] returns.  For the lock file [{"name":"x"}] the hash is
    the digest 0229d37e...85a1 of exactly those twelve bytes. *)
Theorem lock_file_fingerprint context pm plan c0 w L :
  buildplan.GetShallowMerged (build.Plans context) Dependency = buildplan.Wanted plan ->
  app c0 = build.Application context ->
  helper.FileExists (lockPath c0) w = Ok true ->
  ioutil.ReadFile (lockPath c0) w = Ok L ->
  (exists c' w', setLayersMetadata c0 w = (Ok c', w')
     /\ Identity (NodeModulesMetadata c') =
          ("Node Modules", hex.EncodeToString (sha256.Sum256 L)))
  /\ (exists c w', NewContributor context pm w = (Ok (Some c), w')
     /\ Identity (NodeModulesMetadata c) =
          ("Node Modules", hex.EncodeToString (sha256.Sum256 L)))
  /\ hex.EncodeToString (sha256.Sum256 lockBytes) =
       "0229d37e33daae149bf40543a5ce1db4459d10f830d5139279aa2bfd5f6485a1".
Proof.
  intros Hplan Happ HE HR. split; [|split].
  - destruct (setLayersMetadata_locked c0 w L HE HR) as (c' & Hrun & Hnm & _).
    exists c', (set_ticks (S (S (ticks w))) w). split; [exact Hrun|].
    unfold Identity. now rewrite Hnm.
  - rewrite (NewContributor_wanted _ _ _ _ Hplan). unfold bind.
    unfold lockPath in HE, HR. rewrite Happ in HE, HR.
    destruct (setLayersMetadata_locked (blank context pm) w L HE HR)
      as (c' & Hrun & Hnm & _).
    rewrite Hrun. eexists _, _. split; [reflexivity|].
    unfold Identity, intents.
    cbn [NodeModulesMetadata set_launchContribution set_buildContribution].
    now rewrite Hnm.
  - vm_compute. reflexivity.
Qed.

Lemma lock_file_fingerprint_witness :
  (exists c' w', setLayersMetadata (sample npm) (world_of freshDisk) = (Ok c', w')
     /\ Identity (NodeModulesMetadata c') =
          ("Node Modules", hex.EncodeToString (sha256.Sum256 lockBytes)))
  /\ (exists c w', NewContributor (context_of ∅) npm (world_of freshDisk) = (Ok (Some c), w')
     /\ Identity (NodeModulesMetadata c) =
          ("Node Modules", hex.EncodeToString (sha256.Sum256 lockBytes)))
  /\ hex.EncodeToString (sha256.Sum256 lockBytes) =
       "0229d37e33daae149bf40543a5ce1db4459d10f830d5139279aa2bfd5f6485a1".
Proof.
  apply (lock_file_fingerprint (context_of ∅) npm (plan_of ∅) (sample npm)
           (world_of freshDisk) lockBytes); reflexivity.
Defined.

(** C3.  The fingerprints computed from a lock file are a function of its
    bytes alone: two computations over the same bytes, by whatever
    contributors, at whatever clock readings and in whatever worlds, give
    the same name and the same hash for both layers. *)
Theorem fingerprint_deterministic c1 w1 c2 w2 L :
  helper.FileExists (lockPath c1) w1 = Ok true ->
  ioutil.ReadFile (lockPath c1) w1 = Ok L ->
  helper.FileExists (lockPath c2) w2 = Ok true ->
  ioutil.ReadFile (lockPath c2) w2 = Ok L ->
  exists c1' w1' c2' w2',
    setLayersMetadata c1 w1 = (Ok c1', w1')
    /\ setLayersMetadata c2 w2 = (Ok c2', w2')
    /\ NodeModulesMetadata c1' = NodeModulesMetadata c2'
    /\ NPMCacheMetadata c1' = NPMCacheMetadata c2'.
Proof.
  intros HE1 HR1 HE2 HR2.
  destruct (setLayersMetadata_locked c1 w1 L HE1 HR1) as (c1' & Hrun1 & Hnm1 & Hc1 & _).
  destruct (setLayersMetadata_locked c2 w2 L HE2 HR2) as (c2' & Hrun2 & Hnm2 & Hc2 & _).
  eexists c1', _, c2', _. repeat split; [exact Hrun1 | exact Hrun2 | congruence | congruence].
Qed.

Lemma fingerprint_deterministic_witness :
  exists c1' w1' c2' w2',
    setLayersMetadata (sample npm) (world_at 1 freshDisk) = (Ok c1', w1')
    /\ setLayersMetadata (sample idle) (world_at 1900000000000000000 flatDisk) = (Ok c2', w2')
    /\ NodeModulesMetadata c1' = NodeModulesMetadata c2'
    /\ NPMCacheMetadata c1' = NPMCacheMetadata c2'.
Proof.
  apply (fingerprint_deterministic (sample npm) (world_at 1 freshDisk)
           (sample idle) (world_at 1900000000000000000 flatDisk) lockBytes);
    reflexivity.
Defined.

(** ** The reuse decision of the layer store *)

Lemma Layer_Contribute_hit l expected f flags w :
  faults w (ScMetadataMatches (layers.LayerName l)) = None ->
  stored_metadata <$> stored w !! layers.LayerName l = Some expected ->
  Layer_Contribute l expected f flags w =
  Layer_WriteMetadata l expected flags (emit (EvLayerContribute l expected flags) w).
Proof.
  intros Hf Hs. unfold Layer_Contribute, bind, log, Layer_MetadataMatches, syscall.
  cbn [faults emit stored]. rewrite Hf, bool_decide_true by exact Hs. reflexivity.
Qed.

Lemma Layer_Contribute_miss l expected f flags w :
  faults w (ScMetadataMatches (layers.LayerName l)) = None ->
  stored_metadata <$> stored w !! layers.LayerName l <> Some expected ->
  Layer_Contribute l expected f flags w =
  (f l ;; Layer_WriteMetadata l expected flags)
    (emit (EvLayerContribute l expected flags) w).
Proof.
  intros Hf Hs. unfold Layer_Contribute, bind, log, Layer_MetadataMatches, syscall.
  cbn [faults emit stored]. rewrite Hf, bool_decide_false by exact Hs. reflexivity.
Qed.

Lemma Layer_Contribute_fault l expected f flags w e :
  faults w (ScMetadataMatches (layers.LayerName l)) = Some e ->
  Layer_Contribute l expected f flags w =
  (Err (failure (ScMetadataMatches (layers.LayerName l)) e),
   emit (EvLayerContribute l expected flags) w).
Proof.
  intros Hf. unfold Layer_Contribute, bind, log, Layer_MetadataMatches, syscall.
  cbn [faults emit]. rewrite Hf. reflexivity.
Qed.

(** C4.  Without a lock file the fingerprint is not an error: the hash of
    each layer is a reading of the clock in nanoseconds, printed in
    hexadecimal.  Two computations whose readings differ give different
    fingerprints for the dependency-tree layer, so a store that recorded the
    one misses on the other and runs the contribution function. *)
Theorem no_lock_file_fingerprint c1 w1 c2 w2 :
  helper.FileExists (lockPath c1) w1 = Ok false ->
  helper.FileExists (lockPath c2) w2 = Ok false ->
  exists c1' w1' c2' w2',
    setLayersMetadata c1 w1 = (Ok c1', w1')
    /\ setLayersMetadata c2 w2 = (Ok c2', w2')
    /\ Identity (NodeModulesMetadata c1') =
         ("Node Modules", strconv.FormatInt16 (clock w1 (ticks w1)))
    /\ Identity (NPMCacheMetadata c1') =
         ("NPM Cache", strconv.FormatInt16 (clock w1 (S (ticks w1))))
    /\ (clock w1 (ticks w1) <> clock w2 (ticks w2) ->
        NodeModulesMetadata c1' <> NodeModulesMetadata c2'
        /\ forall l f flags w,
             faults w (ScMetadataMatches (layers.LayerName l)) = None ->
             stored_metadata <$> stored w !! layers.LayerName l
               = Some (NodeModulesMetadata c1') ->
             Layer_Contribute l (NodeModulesMetadata c2') f flags w =
             (f l ;; Layer_WriteMetadata l (NodeModulesMetadata c2') flags)
               (emit (EvLayerContribute l (NodeModulesMetadata c2') flags) w)).
Proof.
  intros HE1 HE2.
  destruct (setLayersMetadata_unlocked c1 w1 HE1) as (c1' & Hrun1 & Hnm1 & Hc1 & _).
  destruct (setLayersMetadata_unlocked c2 w2 HE2) as (c2' & Hrun2 & Hnm2 & Hc2 & _).
  eexists c1', _, c2', _.
  split; [exact Hrun1|]. split; [exact Hrun2|].
  split; [unfold Identity; now rewrite Hnm1|].
  split; [unfold Identity; now rewrite Hc1|].
  intros Hclock.
  assert (Hne : NodeModulesMetadata c1' <> NodeModulesMetadata c2').
  { rewrite Hnm1, Hnm2. intros E. injection E. intros E'.
    apply Hclock. now apply FormatInt16_inj. }
  split; [exact Hne|].
  intros l f flags w Hf Hs. apply Layer_Contribute_miss; [exact Hf|].
  rewrite Hs. intros E. injection E. exact Hne.
Qed.

Lemma no_lock_file_fingerprint_witness :
  exists c1' w1' c2' w2',
    setLayersMetadata (sample npm) (world_at 1700000000000000000 unlockedDisk) = (Ok c1', w1')
    /\ setLayersMetadata (sample npm) (world_at 1700000060000000000 unlockedDisk) = (Ok c2', w2')
    /\ Identity (NodeModulesMetadata c1') = ("Node Modules", "17979cfe362a0000")
    /\ Identity (NPMCacheMetadata c1') = ("NPM Cache", "17979cfe362a0001")
    /\ NodeModulesMetadata c1' <> NodeModulesMetadata c2'.
Proof.
  destruct (no_lock_file_fingerprint
              (sample npm) (world_at 1700000000000000000 unlockedDisk)
              (sample npm) (world_at 1700000060000000000 unlockedDisk)
              eq_refl eq_refl)
    as (c1' & w1' & c2' & w2' & H1 & H2 & H3 & H4 & H5).
  exists c1', w1', c2', w2'.
  split; [exact H1|]. split; [exact H2|]. split; [exact H3|]. split; [exact H4|].
  apply H5. vm_compute. discriminate.
Defined.

(** ** Intents and flags *)

Lemma flags_spec c :
  flags c =
  (layers.Cache :: (if buildContribution c then [layers.Build] else [])
     ++ (if launchContribution c then [layers.Launch] else []))%list.
Proof. unfold flags. destruct (buildContribution c), (launchContribution c); reflexivity. Qed.

Lemma flags_Build c : In layers.Build (flags c) <-> buildContribution c = true.
Proof.
  rewrite flags_spec.
  destruct (buildContribution c), (launchContribution c); simpl; intuition congruence.
Qed.

Lemma flags_Launch c : In layers.Launch (flags c) <-> launchContribution c = true.
Proof.
  rewrite flags_spec.
  destruct (buildContribution c), (launchContribution c); simpl; intuition congruence.
Qed.

Lemma flags_Cache c : In layers.Cache (flags c).
Proof. rewrite flags_spec. left. reflexivity. Qed.

Lemma assert_bool_other (v : option buildplan.Value) :
  (forall b, v <> Some (buildplan.VBool b)) -> buildplan.assert_bool v = (false, false).
Proof.
  intros H. destruct v as [[b| | |]|]; try reflexivity. now destruct (H b).
Qed.

(** C10, amended.  With a requirement for the dependency key in the plan,
    a "build" or "launch" entry that is missing from the metadata, or
    present with a value that is not a boolean, never makes
    [NewContributor] fail: it returns an error exactly when the fingerprint
    step does, whatever the metadata holds, and so it succeeds whenever the
    lock file is absent or readable.  The contributor it returns has the intent [false] for such an
    entry and its flags leave [Build] (or [Launch]) out; [Cache] stays. *)
Theorem absent_or_non_boolean_intent context pm plan w :
  buildplan.GetShallowMerged (build.Plans context) Dependency = buildplan.Wanted plan ->
  (forall e w', setLayersMetadata (blank context pm) w = (Err e, w') ->
     NewContributor context pm w = (Err e, w'))
  /\ (forall c1 w', setLayersMetadata (blank context pm) w = (Ok c1, w') ->
      exists c, NewContributor context pm w = (Ok (Some c), w')
        /\ ((forall b, buildplan.Metadata plan !! "build" <> Some (buildplan.VBool b)) ->
            buildContribution c = false /\ ~ In layers.Build (flags c))
        /\ ((forall b, buildplan.Metadata plan !! "launch" <> Some (buildplan.VBool b)) ->
            launchContribution c = false /\ ~ In layers.Launch (flags c))
        /\ In layers.Cache (flags c))
  /\ (helper.FileExists (lockPath (blank context pm)) w = Ok false
      \/ (helper.FileExists (lockPath (blank context pm)) w = Ok true
          /\ exists L, ioutil.ReadFile (lockPath (blank context pm)) w = Ok L) ->
      exists c w', NewContributor context pm w = (Ok (Some c), w')).
Proof.
  intros Hplan. split; [|split].
  - intros e w' H. rewrite (NewContributor_wanted _ _ _ _ Hplan).
    unfold bind. now rewrite H.
  - intros c1 w' H. rewrite (NewContributor_wanted _ _ _ _ Hplan).
    unfold bind. rewrite H. eexists. split; [reflexivity|].
    split; [|split].
    + intros Hb. assert (E : buildContribution (intents plan c1) = false).
      { unfold intents. cbn [buildContribution set_launchContribution set_buildContribution].
        now rewrite (assert_bool_other _ Hb). }
      split; [exact E|]. rewrite flags_Build, E. discriminate.
    + intros Hb. assert (E : launchContribution (intents plan c1) = false).
      { unfold intents. cbn [launchContribution set_launchContribution].
        now rewrite (assert_bool_other _ Hb). }
      split; [exact E|]. rewrite flags_Launch, E. discriminate.
    + apply flags_Cache.
  - intros Hlock. rewrite (NewContributor_wanted _ _ _ _ Hplan). unfold bind.
    destruct Hlock as [HE | [HE [L HR]]].
    + destruct (setLayersMetadata_unlocked _ _ HE) as (c' & Hrun & _).
      rewrite Hrun. eexists _, _. reflexivity.
    + destruct (setLayersMetadata_locked _ _ _ HE HR) as (c' & Hrun & _).
      rewrite Hrun. eexists _, _. reflexivity.
Qed.

Lemma absent_or_non_boolean_intent_witness :
  exists c w',
    NewContributor
      (context_of {[ "build" := buildplan.VString "true" ]}) npm (world_of freshDisk)
    = (Ok (Some c), w')
    /\ buildContribution c = false /\ launchContribution c = false
    /\ flags c = [layers.Cache].
Proof.
  destruct (absent_or_non_boolean_intent
              (context_of {[ "build" := buildplan.VString "true" ]}) npm
              (plan_of {[ "build" := buildplan.VString "true" ]})
              (world_of freshDisk) eq_refl) as (_ & H & _).
  destruct (H _ _ eq_refl) as (c & Hrun & Hb & Hl & _).
  eexists c, _. split; [exact Hrun|].
  assert (Eb : buildContribution c = false).
  { apply Hb. intros b. vm_compute. discriminate. }
  assert (El : launchContribution c = false).
  { apply Hl. intros b. vm_compute. discriminate. }
  split; [exact Eb|]. split; [exact El|].
  rewrite flags_spec, Eb, El. reflexivity.
Defined.

(** C10 as stated fails: with the requirement present and no "build" and
    no "launch" entry in the metadata, an application whose lock file
    cannot be read (here it is a directory) makes [NewContributor] return
    the error of the read, and no contributor. *)
Lemma missing_intent_with_unreadable_lock_file :
  buildplan.GetShallowMerged (build.Plans (context_of ∅)) Dependency
    = buildplan.Wanted (plan_of ∅)
  /\ buildplan.Metadata (plan_of ∅) !! "build" = None
  /\ buildplan.Metadata (plan_of ∅) !! "launch" = None
  /\ fst (NewContributor (context_of ∅) npm (world_of lockDirDisk)) =
       Err (PathError "read" ["workspace"; "package-lock.json"] EISDIR)
  /\ ~ lenient_intents (context_of ∅) npm (world_of lockDirDisk).
Proof.
  assert (Hrun : fst (NewContributor (context_of ∅) npm (world_of lockDirDisk)) =
                 Err (PathError "read" ["workspace"; "package-lock.json"] EISDIR))
    by (vm_compute; reflexivity).
  split; [reflexivity|]. split; [reflexivity|]. split; [reflexivity|].
  split; [exact Hrun|].
  intros H.
  destruct (H (plan_of ∅) eq_refl) as (c & w' & Hok & _).
  - left. intros b. discriminate.
  - rewrite Hok in Hrun. discriminate Hrun.
Qed.

(** ** The tree on disk *)

Lemma find_remove_same x es : find x (remove x es) = None.
Proof.
  induction es as [|[n c] es IH]; simpl; [reflexivity|].
  destruct (decide (n = x)) as [E|E]; [exact IH|].
  simpl. destruct (decide (n = x)); [contradiction | exact IH].
Qed.

Lemma find_remove_other x y es : x <> y -> find y (remove x es) = find y es.
Proof.
  intros Hxy. induction es as [|[n c] es IH]; simpl; [reflexivity|].
  destruct (decide (n = x)) as [E|E].
  - subst n. destruct (decide (x = y)); [contradiction | exact IH].
  - simpl. destruct (decide (n = y)); [reflexivity | exact IH].
Qed.

Lemma find_put_same x c es : find x (put x c es) = Some c.
Proof.
  induction es as [|[n c0] es IH]; simpl.
  - destruct (decide (x = x)); [reflexivity | contradiction].
  - destruct (decide (n = x)) as [E|E]; simpl.
    + destruct (decide (n = x)); [reflexivity | contradiction].
    + destruct (decide (n = x)); [contradiction | exact IH].
Qed.

Lemma find_put_other x y c es : x <> y -> find y (put x c es) = find y es.
Proof.
  intros Hxy. induction es as [|[n c0] es IH]; simpl.
  - destruct (decide (x = y)); [contradiction | reflexivity].
  - destruct (decide (n = x)) as [E|E]; simpl.
    + subst n. destruct (decide (x = y)); [contradiction | reflexivity].
    + destruct (decide (n = y)); [reflexivity | exact IH].
Qed.

Lemma present_cons x q es :
  present (x :: q) (Dir es) =
  match find x es with Some c => present q c | None => false end.
Proof. unfold present. simpl. destruct (find x es); reflexivity. Qed.

(** After pruning, the path is gone. *)
Lemma present_prune_self p n : p <> [] -> present p (prune p n) = false.
Proof.
  revert n. induction p as [|x rest IH]; intros n Hp; [contradiction|].
  destruct n as [data|es]; [reflexivity|].
  simpl. destruct rest as [|y rest'].
  - rewrite present_cons, find_remove_same. reflexivity.
  - destruct (find x es) as [c|] eqn:Hf.
    + rewrite present_cons, find_put_same. apply IH. discriminate.
    + rewrite present_cons, Hf. reflexivity.
Qed.

(** Pruning leaves alone what does not lie under the pruned path. *)
Lemma present_prune_other p q n :
  ~ p `prefix_of` q -> present q (prune p n) = present q n.
Proof.
  revert q n. induction p as [|x rest IH]; intros q n Hpq.
  - destruct Hpq. apply prefix_nil.
  - destruct n as [data|es]; [reflexivity|].
    destruct q as [|y q']; [reflexivity|].
    simpl. destruct rest as [|z rest'].
    + rewrite !present_cons.
      destruct (decide (x = y)) as [E|E].
      * subst y. destruct Hpq. exists q'. reflexivity.
      * now rewrite (find_remove_other _ _ _ E).
    + destruct (find x es) as [c|] eqn:Hf; [|reflexivity].
      rewrite !present_cons.
      destruct (decide (x = y)) as [E|E].
      * subst y. rewrite find_put_same, Hf. apply IH.
        intros Hpre. apply Hpq. now apply prefix_cons.
      * now rewrite (find_put_other _ _ _ _ E).
Qed.

(** A grafted directory is there. *)
Lemma graft_present p es n d : graft p es n = Some d -> present p d = true.
Proof.
  revert n d. induction p as [|x rest IH]; intros n d H.
  - reflexivity.
  - destruct n as [data|ds]; [discriminate|].
    simpl in H. destruct (graft rest es _) as [c|] eqn:Hg; [|discriminate].
    injection H as <-. rewrite present_cons, find_put_same. exact (IH _ _ Hg).
Qed.

(** ** The tree: listing, making directories, writing files, copying *)

(** Induction on a tree, with the property known of every entry of a
    directory. *)
Lemma Node_nested_ind (P : Node -> Prop) :
  (forall data, P (File data)) ->
  (forall es, Forall (fun e => P (snd e)) es -> P (Dir es)) ->
  forall n, P n.
Proof.
  intros HF HD.
  exact (fix rec (n : Node) : P n :=
           match n with
           | File data => HF data
           | Dir es =>
               HD es ((fix all (es : list (string * Node))
                         : Forall (fun e => P (snd e)) es :=
                         match es with
                         | [] => List.Forall_nil _
                         | e :: rest => List.Forall_cons _ e rest (rec (snd e)) (all rest)
                         end) es)
           end).
Qed.

Lemma walk_cons x q es :
  walk (x :: q) (Dir es) =
  match find x es with Some c => walk q c | None => Missing end.
Proof. reflexivity. Qed.

Lemma walk_app (p q : path) n :
  walk (p ++ q)%list n =
  match walk p n with
  | Found m => walk q m
  | Missing => Missing
  | Blocked => Blocked
  end.
Proof.
  revert n. induction p as [|x p IH]; intros n; [reflexivity|].
  destruct n as [data|es]; [reflexivity|].
  change ((x :: p) ++ q)%list with (x :: (p ++ q)%list). rewrite !walk_cons.
  destruct (find x es); [apply IH | reflexivity].
Qed.

Lemma walk_file_below x q data : walk (x :: q) (File data) = Blocked.
Proof. reflexivity. Qed.

Lemma find_In x c es : find x es = Some c -> In (x, c) es.
Proof.
  induction es as [|[n c0] es IH]; simpl; [discriminate|].
  destruct (decide (n = x)) as [->|E].
  - intros [= ->]. now left.
  - intros H. right. exact (IH H).
Qed.

Lemma find_None x es : find x es = None -> ~ In x (map fst es).
Proof.
  induction es as [|[n c0] es IH]; simpl; [tauto|].
  destruct (decide (n = x)) as [->|E]; [discriminate|].
  intros H [H1|H1]; [contradiction | exact (IH H H1)].
Qed.

(** Pruning leaves every regular file that does not lie under the pruned
    path as it is. *)
Lemma prune_keeps_file p q n v :
  ~ p `prefix_of` q -> walk q n = Found (File v) -> walk q (prune p n) = Found (File v).
Proof.
  revert q n. induction p as [|x rest IH]; intros q n Hpq.
  - destruct Hpq. apply prefix_nil.
  - destruct n as [data|es]; [now intros H|].
    destruct q as [|y q']; [discriminate|].
    simpl prune. destruct rest as [|z rest'].
    + rewrite !walk_cons.
      destruct (decide (x = y)) as [E|E].
      * subst y. destruct Hpq. exists q'. reflexivity.
      * now rewrite (find_remove_other _ _ _ E).
    + destruct (find x es) as [c|] eqn:Hf; [|now intros H].
      rewrite !walk_cons.
      destruct (decide (x = y)) as [E|E].
      * subst y. rewrite find_put_same, Hf. apply IH.
        intros [k Hk]. apply Hpq. exists k. now rewrite Hk.
      * now rewrite (find_put_other _ _ _ _ E).
Qed.

(** *** The listing *)

Lemma find_place_same x c l : find x l = None -> find x (place x c l) = Some c.
Proof.
  induction l as [|[y c'] l IH]; simpl.
  - intros _. destruct (decide (x = x)); [reflexivity | contradiction].
  - destruct (decide (y = x)) as [->|E]; [discriminate|]. intros H.
    destruct (String.ltb x y); simpl.
    + destruct (decide (x = x)); [reflexivity | contradiction].
    + destruct (decide (y = x)); [contradiction | exact (IH H)].
Qed.

Lemma find_place_other x y c l : x <> y -> find y (place x c l) = find y l.
Proof.
  intros Hxy. induction l as [|[z c'] l IH]; simpl.
  - destruct (decide (x = y)); [contradiction | reflexivity].
  - destruct (String.ltb x z); simpl.
    + destruct (decide (x = y)); [contradiction | reflexivity].
    + destruct (decide (z = y)); [reflexivity | exact IH].
Qed.

Lemma in_place e x c l : In e (place x c l) -> e = (x, c) \/ In e l.
Proof.
  induction l as [|[z c'] l IH]; simpl.
  - intros [H|[]]. now left.
  - destruct (String.ltb x z); simpl.
    + intros [H|[H|H]]; [now left | right; now left | right; now right].
    + intros [H|H]; [right; now left|].
      destruct (IH H) as [H1|H1]; [now left | right; now right].
Qed.

Lemma in_put e x c l : In e (put x c l) -> e = (x, c) \/ In e l.
Proof.
  induction l as [|[z c'] l IH]; simpl.
  - intros [H|[]]. now left.
  - destruct (decide (z = x)) as [->|E]; simpl.
    + intros [H|H]; [now left | right; now right].
    + intros [H|H]; [right; now left|].
      destruct (IH H) as [H1|H1]; [now left | right; now right].
Qed.

Lemma names_put x c c0 l : find x l = Some c0 -> map fst (put x c l) = map fst l.
Proof.
  induction l as [|[z c'] l IH]; simpl; [discriminate|].
  destruct (decide (z = x)) as [->|E]; simpl; [reflexivity|].
  intros H. now rewrite (IH H).
Qed.

Lemma NoDup_place x c l :
  ~ In x (map fst l) -> List.NoDup (map fst l) -> List.NoDup (map fst (place x c l)).
Proof.
  induction l as [|[z c'] l IH]; simpl; intros Hx Hl.
  - apply List.NoDup_cons; [intros [] | apply List.NoDup_nil].
  - destruct (String.ltb x z); simpl.
    + apply List.NoDup_cons; [exact Hx | exact Hl].
    + apply List.NoDup_cons_iff in Hl. destruct Hl as [Hz Hl].
      apply List.NoDup_cons_iff. split.
      * intros Hin. apply in_map_iff in Hin. destruct Hin as ([n cn] & Hn & Hin).
        simpl in Hn. subst n.
        destruct (in_place _ _ _ _ Hin) as [[= -> ->]|H1].
        -- apply Hx. now left.
        -- apply Hz. apply in_map_iff. now exists (z, cn).
      * apply IH; [|exact Hl]. intros H. apply Hx. now right.
Qed.

Lemma find_listing x es : find x (listing es) = find x es.
Proof.
  induction es as [|[n c] es IH]; [reflexivity|].
  unfold listing. simpl fold_right. fold (listing es). simpl fst. simpl snd.
  simpl find. destruct (decide (n = x)) as [->|E].
  - destruct (find x (listing es)) eqn:Hf.
    + apply find_put_same.
    + now apply find_place_same.
  - destruct (find n (listing es)).
    + now rewrite (find_put_other _ _ _ _ E).
    + now rewrite (find_place_other _ _ _ _ E).
Qed.

Lemma in_listing e es : In e (listing es) -> In e es.
Proof.
  induction es as [|[n c] es IH]; [intros []|].
  unfold listing. simpl fold_right. fold (listing es). simpl fst. simpl snd.
  destruct (find n (listing es)); intros H.
  - destruct (in_put _ _ _ _ H) as [->|H1]; [now left | right; exact (IH H1)].
  - destruct (in_place _ _ _ _ H) as [->|H1]; [now left | right; exact (IH H1)].
Qed.

Lemma NoDup_listing es : List.NoDup (map fst (listing es)).
Proof.
  induction es as [|[n c] es IH]; [apply List.NoDup_nil|].
  unfold listing. simpl fold_right. fold (listing es). simpl fst. simpl snd.
  destruct (find n (listing es)) eqn:Hf.
  - now rewrite (names_put _ _ _ _ Hf).
  - apply NoDup_place; [exact (find_None _ _ Hf) | exact IH].
Qed.

Lemma find_map_entries (f : Node -> Node) x es :
  find x (map (fun e : string * Node => (fst e, f (snd e))) es) = f <$> find x es.
Proof.
  induction es as [|[n c] es IH]; simpl; [reflexivity|].
  destruct (decide (n = x)); [reflexivity | exact IH].
Qed.

(** A listed tree answers a path as the tree does. *)
Lemma walk_listed q n :
  walk q (listed n) =
  match walk q n with
  | Found m => Found (listed m)
  | Missing => Missing
  | Blocked => Blocked
  end.
Proof.
  revert n. induction q as [|x q IH]; intros n; [reflexivity|].
  destruct n as [data|es]; [reflexivity|].
  simpl listed. rewrite !walk_cons, find_listing, find_map_entries.
  destruct (find x es) as [c|]; simpl; [apply IH | reflexivity].
Qed.

Lemma tidy_listed n : tidy (listed n).
Proof.
  induction n as [data|es IH] using Node_nested_ind; [constructor|].
  simpl. constructor; [apply NoDup_listing|].
  apply List.Forall_forall. intros e He. apply in_listing in He.
  apply in_map_iff in He. destruct He as (e0 & <- & He0). simpl.
  rewrite List.Forall_forall in IH. exact (IH e0 He0).
Qed.

(** *** Making directories *)

Lemma graft_empty p es : exists d, graft p es (Dir []) = Some d.
Proof.
  induction p as [|x p [d IH]]; simpl; [eexists; reflexivity|].
  rewrite IH. eexists; reflexivity.
Qed.

(** When a directory cannot be made, a regular file stands on the way. *)
Lemma graft_None_blocker p es n :
  graft p es n = None ->
  exists b data, blocker p n = Some b /\ b `prefix_of` p /\ walk b n = Found (File data).
Proof.
  revert n. induction p as [|x p IH]; intros n.
  - destruct n as [data|ds]; [|discriminate]. intros _.
    exists [], data. split; [reflexivity|]. split; [apply prefix_nil | reflexivity].
  - destruct n as [data|ds]; simpl.
    + intros _. exists [], data. split; [reflexivity|].
      split; [apply prefix_nil | reflexivity].
    + destruct (find x ds) as [c|] eqn:Hf; simpl.
      * destruct (graft p es c) eqn:Hg; [discriminate|]. intros _.
        destruct (IH _ Hg) as (b & data & Hb & Hpre & Hw).
        exists (x :: b), data. rewrite Hb. split; [reflexivity|]. split.
        -- now apply prefix_cons.
        -- rewrite walk_cons, Hf. exact Hw.
      * destruct (graft_empty p es) as [d Hd]. rewrite Hd. discriminate.
Qed.

(** Making a directory leaves every regular file as it is. *)
Lemma mkdir_keeps_file q n d p v :
  graft q [] n = Some d -> walk p n = Found (File v) -> walk p d = Found (File v).
Proof.
  revert n d p. induction q as [|x q IH]; intros n d p.
  - destruct n as [data|ds]; [discriminate|]. now intros [= <-].
  - destruct n as [data|ds]; [discriminate|]. simpl.
    destruct (graft q [] _) as [c|] eqn:Hg; [|discriminate]. intros [= <-].
    destruct p as [|y p]; [discriminate|]. rewrite !walk_cons.
    destruct (decide (x = y)) as [<-|E].
    + rewrite find_put_same. destruct (find x ds) as [c0|]; [|discriminate].
      simpl in Hg. exact (IH _ _ _ Hg).
    + now rewrite (find_put_other _ _ _ _ E).
Qed.

(** Making a directory removes nothing. *)
Lemma mkdir_keeps_present q n d p :
  graft q [] n = Some d -> present p n = true -> present p d = true.
Proof.
  revert n d p. induction q as [|x q IH]; intros n d p.
  - destruct n as [data|ds]; [discriminate|]. now intros [= <-].
  - destruct n as [data|ds]; [discriminate|]. simpl.
    destruct (graft q [] _) as [c|] eqn:Hg; [|discriminate]. intros [= <-].
    destruct p as [|y p]; [reflexivity|]. rewrite !present_cons.
    destruct (decide (x = y)) as [<-|E].
    + rewrite find_put_same. destruct (find x ds) as [c0|]; [|discriminate].
      simpl in Hg. exact (IH _ _ _ Hg).
    + now rewrite (find_put_other _ _ _ _ E).
Qed.

(** *** Writing a file *)

Lemma graft_file_written dir name data n d :
  graft dir [(name, File data)] n = Some d ->
  walk (dir ++ [name])%list d = Found (File data).
Proof.
  revert n d. induction dir as [|x dir IH]; intros n d.
  - destruct n as [v|ds]; [discriminate|]. intros [= <-].
    simpl. rewrite find_put_same. reflexivity.
  - destruct n as [v|ds]; [discriminate|]. simpl.
    destruct (graft dir _ _) as [c|] eqn:Hg; [|discriminate]. intros [= <-].
    rewrite find_put_same. exact (IH _ _ Hg).
Qed.

Lemma graft_file_keeps_file dir name data n d p v :
  graft dir [(name, File data)] n = Some d ->
  (forall es, walk (dir ++ [name])%list n <> Found (Dir es)) ->
  p <> (dir ++ [name])%list ->
  walk p n = Found (File v) -> walk p d = Found (File v).
Proof.
  revert n d p. induction dir as [|x dir IH]; intros n d p.
  - destruct n as [v0|ds]; [discriminate|]. intros [= <-] Hnd Hp.
    destruct p as [|y p]; [discriminate|].
    change (Dir (overlay [(name, File data)] ds)) with (Dir (put name (File data) ds)).
    rewrite !walk_cons.
    destruct (decide (name = y)) as [<-|E].
    + simpl in Hnd. destruct (find name ds) as [c0|]; [|discriminate].
      destruct p as [|z p]; [now destruct Hp|].
      destruct c0 as [v0|es0]; [discriminate|]. now destruct (Hnd es0).
    + now rewrite (find_put_other _ _ _ _ E).
  - destruct n as [v0|ds]; [discriminate|]. simpl.
    destruct (graft dir _ _) as [c|] eqn:Hg; [|discriminate]. intros [= <-] Hnd Hp.
    destruct p as [|y p]; [discriminate|]. rewrite !walk_cons.
    destruct (decide (x = y)) as [<-|E].
    + rewrite find_put_same. destruct (find x ds) as [c0|]; [|discriminate].
      simpl in Hg. apply (IH _ _ _ Hg); [exact Hnd|]. intros ->. now destruct Hp.
    + now rewrite (find_put_other _ _ _ _ E).
Qed.

Lemma graft_file_keeps_present dir name data n d p :
  graft dir [(name, File data)] n = Some d ->
  (forall es, walk (dir ++ [name])%list n <> Found (Dir es)) ->
  present p n = true -> present p d = true.
Proof.
  revert n d p. induction dir as [|x dir IH]; intros n d p.
  - destruct n as [v0|ds]; [discriminate|]. intros [= <-] Hnd.
    destruct p as [|y p]; [reflexivity|].
    change (Dir (overlay [(name, File data)] ds)) with (Dir (put name (File data) ds)).
    rewrite !present_cons.
    destruct (decide (name = y)) as [<-|E].
    + rewrite find_put_same. simpl in Hnd.
      destruct (find name ds) as [c0|]; [|discriminate].
      destruct c0 as [v0|es0]; [|now destruct (Hnd es0)].
      destruct p; [reflexivity | discriminate].
    + now rewrite (find_put_other _ _ _ _ E).
  - destruct n as [v0|ds]; [discriminate|]. simpl.
    destruct (graft dir _ _) as [c|] eqn:Hg; [|discriminate]. intros [= <-] Hnd.
    destruct p as [|y p]; [reflexivity|]. rewrite !present_cons.
    destruct (decide (x = y)) as [<-|E].
    + rewrite find_put_same. destruct (find x ds) as [c0|]; [|discriminate].
      simpl in Hg. exact (IH _ _ _ Hg Hnd).
    + now rewrite (find_put_other _ _ _ _ E).
Qed.

Lemma write_file_written dir name data d d' :
  write_file dir name data d = (None, d') ->
  walk (dir ++ [name])%list d' = Found (File data).
Proof.
  unfold write_file. destruct (graft dir _ d) as [d1|] eqn:Hg; [|discriminate].
  destruct (walk (dir ++ [name])%list d) as [[v|es]| |]; try discriminate;
    intros [= <-]; exact (graft_file_written _ _ _ _ _ Hg).
Qed.

Lemma write_file_keeps_file dir name data d r d' p v :
  write_file dir name data d = (r, d') ->
  p <> (dir ++ [name])%list ->
  walk p d = Found (File v) -> walk p d' = Found (File v).
Proof.
  unfold write_file. destruct (graft dir _ d) as [d1|] eqn:Hg; [|now intros [= <- <-]].
  destruct (walk (dir ++ [name])%list d) as [[v0|es]| |] eqn:Hw;
    try (now intros [= <- <-]);
    intros [= <- <-] Hp; apply (graft_file_keeps_file _ _ _ _ _ _ _ Hg);
      try exact Hp; intros es; rewrite Hw; discriminate.
Qed.

Lemma write_file_keeps_present dir name data d r d' p :
  write_file dir name data d = (r, d') ->
  present p d = true -> present p d' = true.
Proof.
  unfold write_file. destruct (graft dir _ d) as [d1|] eqn:Hg; [|now intros [= <- <-]].
  destruct (walk (dir ++ [name])%list d) as [[v0|es]| |] eqn:Hw;
    try (now intros [= <- <-]);
    intros [= <- <-]; apply (graft_file_keeps_present _ _ _ _ _ _ Hg);
      intros es; rewrite Hw; discriminate.
Qed.

(** *** Copying *)

Lemma copy_into_Dir dst es d :
  copy_into dst (Dir es) d = copy_entries (copy_entry dst) es d.
Proof. reflexivity. Qed.

Lemma copy_entries_cons f x c rest d :
  copy_entries f ((x, c) :: rest) d =
  match f x c d with
  | (Some e, d1) => (Some e, d1)
  | (None, d1) => copy_entries f rest d1
  end.
Proof. simpl. destruct (f x c d) as [[e|] d1]; reflexivity. Qed.

(** A copy removes nothing. *)
Lemma copy_into_keeps_present n :
  forall dst d r d' p,
    copy_into dst n d = (r, d') -> present p d = true -> present p d' = true.
Proof.
  induction n as [data|es IH] using Node_nested_ind; intros dst d r d' p.
  - now intros [= <- <-].
  - rewrite copy_into_Dir. revert d.
    induction es as [|[x c] es IHes]; intros d.
    + now intros [= <- <-].
    + apply List.Forall_cons_iff in IH. destruct IH as [IHc IH]. simpl in IHc.
      rewrite copy_entries_cons.
      destruct (copy_entry dst x c d) as [[e|] d1] eqn:Hc.
      * intros [= <- <-] Hp. destruct c as [data|cs].
        -- exact (write_file_keeps_present _ _ _ _ _ _ _ Hc Hp).
        -- exact (IHc _ _ _ _ _ Hc Hp).
      * intros Hrest Hp. apply (IHes IH d1 Hrest). destruct c as [data|cs].
        -- exact (write_file_keeps_present _ _ _ _ _ _ _ Hc Hp).
        -- exact (IHc _ _ _ _ _ Hc Hp).
Qed.

Lemma prefix_snoc_self (dst : path) x : dst `prefix_of` (dst ++ [x])%list.
Proof. now exists [x]. Qed.

(** Copying the entries named [names] under [dst] leaves every regular
    file that is not under one of them as it is. *)
Lemma copy_entries_keep_file dst es :
  Forall (fun e => forall dst d r d' p v,
            copy_into dst (snd e) d = (r, d') -> ~ dst `prefix_of` p ->
            walk p d = Found (File v) -> walk p d' = Found (File v)) es ->
  forall d r d' p v,
    copy_entries (copy_entry dst) es d = (r, d') ->
    (forall y, In y (map fst es) -> ~ (dst ++ [y])%list `prefix_of` p) ->
    walk p d = Found (File v) -> walk p d' = Found (File v).
Proof.
  induction es as [|[x c] es IHes]; intros IH d r d' p v.
  - now intros [= <- <-].
  - apply List.Forall_cons_iff in IH. destruct IH as [IHc IH]. simpl in IHc.
    rewrite copy_entries_cons. intros Hrun Hnames Hp.
    assert (Hx : ~ (dst ++ [x])%list `prefix_of` p) by (apply Hnames; now left).
    assert (Hstep : forall r1 d1, copy_entry dst x c d = (r1, d1) ->
                                  walk p d1 = Found (File v)).
    { intros r1 d1 Hc. destruct c as [data|cs].
      - apply (write_file_keeps_file _ _ _ _ _ _ _ _ Hc); [|exact Hp].
        intros ->. now apply Hx.
      - exact (IHc _ _ _ _ _ _ Hc Hx Hp). }
    destruct (copy_entry dst x c d) as [[e|] d1] eqn:Hc.
    + injection Hrun as <- <-. exact (Hstep _ _ eq_refl).
    + apply (IHes IH d1 r d' p v Hrun); [|exact (Hstep _ _ eq_refl)].
      intros y Hy. apply Hnames. now right.
Qed.

(** A copy leaves every regular file outside the destination as it is. *)
Lemma copy_into_keeps_file n :
  forall dst d r d' p v,
    copy_into dst n d = (r, d') -> ~ dst `prefix_of` p ->
    walk p d = Found (File v) -> walk p d' = Found (File v).
Proof.
  induction n as [data|es IH] using Node_nested_ind; intros dst d r d' p v.
  - now intros [= <- <-].
  - rewrite copy_into_Dir. intros Hrun Hpre.
    apply (copy_entries_keep_file dst es IH d r d' p v Hrun).
    intros y _ H. apply Hpre. etransitivity; [apply prefix_snoc_self | exact H].
Qed.

Lemma copy_entry_keeps_file dst x c d r d' p v :
  copy_entry dst x c d = (r, d') -> ~ (dst ++ [x])%list `prefix_of` p ->
  walk p d = Found (File v) -> walk p d' = Found (File v).
Proof.
  destruct c as [data|cs]; unfold copy_entry; intros Hc Hx Hp.
  - apply (write_file_keeps_file _ _ _ _ _ _ _ _ Hc); [|exact Hp].
    intros ->. now apply Hx.
  - exact (copy_into_keeps_file _ _ _ _ _ _ _ Hc Hx Hp).
Qed.

(** A copy that returns no error has written every regular file of the
    source at its place under the destination. *)
Lemma copy_into_writes n :
  tidy n ->
  forall dst d d',
    copy_into dst n d = (None, d') ->
    forall q data, q <> [] -> walk q n = Found (File data) ->
      walk (dst ++ q)%list d' = Found (File data).
Proof.
  induction n as [data|es IH] using Node_nested_ind; intros Ht dst d d'.
  - intros _ [|x q] v Hq; [now destruct Hq | discriminate].
  - inversion Ht as [|es' Hnd Hall]; subst es'.
    rewrite copy_into_Dir. intros Hrun [|x q] v _; [discriminate|].
    rewrite walk_cons. destruct (find x es) as [c|] eqn:Hf; [|discriminate].
    intros Hw. apply find_In in Hf.
    revert d Hrun. induction es as [|[x0 c0] es IHes]; intros d; [destruct Hf|].
    apply List.Forall_cons_iff in IH. destruct IH as [IHc IH].
    apply List.Forall_cons_iff in Hall. destruct Hall as [Htc Hall].
    simpl in IHc, Htc, Hnd. apply List.NoDup_cons_iff in Hnd. destruct Hnd as [Hx0 Hnd].
    rewrite copy_entries_cons.
    destruct (copy_entry dst x0 c0 d) as [[e|] d1] eqn:Hc; [discriminate|].
    intros Hrest. destruct Hf as [[= -> ->]|Hin].
    + assert (H1 : walk (dst ++ x :: q)%list d1 = Found (File v)).
      { destruct c as [data|cs].
        - destruct q as [|z q]; [|discriminate]. injection Hw as ->.
          exact (write_file_written _ _ _ _ _ Hc).
        - unfold copy_entry in Hc.
          assert (Hq : q <> []) by (intros ->; discriminate).
          pose proof (IHc Htc _ _ _ Hc q v Hq Hw) as H.
          now rewrite <- app_assoc in H. }
      apply (copy_entries_keep_file dst es) with (d := d1) (r := None); try assumption.
      * apply List.Forall_forall. intros e _ dst0 d0 r0 d0' p0 v0.
        apply copy_into_keeps_file.
      * intros y Hy Hpre. apply prefix_app_inv in Hpre.
        destruct Hpre as [k Hk]. injection Hk as -> _. contradiction.
    + apply (IHes IH (tidy_Dir _ Hnd Hall) Hnd Hall Hin d1 Hrest).
Qed.

(** The same of a whole copy. *)
Lemma copy_writes src dst d d' :
  copy src dst d = (None, d') ->
  forall q data, walk (src ++ q)%list d = Found (File data) ->
    walk (dst ++ q)%list d' = Found (File data).
Proof.
  unfold copy. intros Hrun q v. rewrite walk_app.
  destruct (walk src d) as [[data|es]| |]; try discriminate.
  intros Hw.
  assert (Hq : q <> []) by (intros ->; discriminate).
  apply (copy_into_writes (listed (Dir es)) (tidy_listed _) _ _ _ Hrun q v Hq).
  now rewrite walk_listed, Hw.
Qed.

Lemma copy_keeps_file src dst d r d' p v :
  copy src dst d = (r, d') -> ~ dst `prefix_of` p ->
  walk p d = Found (File v) -> walk p d' = Found (File v).
Proof.
  unfold copy. destruct (walk src d) as [[data|es]| |]; try (now intros [= <- <-]).
  apply copy_into_keeps_file.
Qed.

Lemma copy_keeps_present src dst d r d' p :
  copy src dst d = (r, d') -> present p d = true -> present p d' = true.
Proof.
  unfold copy. destruct (walk src d) as [[data|es]| |]; try (now intros [= <- <-]).
  apply copy_into_keeps_present.
Qed.

(** *** What [CopyDirectory] leaves *)

Lemma CopyDirectory_ok src dst w :
  fails (helper.CopyDirectory src dst) w = None ->
  copy src dst (disk w) = (None, copied src dst (disk w)).
Proof.
  unfold fails, helper.CopyDirectory, syscall, copied.
  destruct (faults w (ScCopyDirectory src dst)); [discriminate|].
  destruct (copy src dst (disk w)) as [[e|] d]; [discriminate | reflexivity].
Qed.

(** A copy that went through has written every regular file of the source
    at its place under the destination. *)
Lemma copied_files src dst w q data :
  fails (helper.CopyDirectory src dst) w = None ->
  walk (src ++ q)%list (disk w) = Found (File data) ->
  walk (dst ++ q)%list (copied src dst (disk w)) = Found (File data).
Proof. intros H. exact (copy_writes _ _ _ _ (CopyDirectory_ok _ _ _ H) q data). Qed.

Lemma copied_keeps_present src dst d p :
  present p d = true -> present p (copied src dst d) = true.
Proof.
  unfold copied. destruct (copy src dst d) as [r d'] eqn:E.
  exact (copy_keeps_present _ _ _ _ _ _ E).
Qed.

Lemma copied_keeps_file src dst d p v :
  ~ dst `prefix_of` p ->
  walk p d = Found (File v) -> walk p (copied src dst d) = Found (File v).
Proof.
  unfold copied. destruct (copy src dst d) as [r d'] eqn:E.
  exact (copy_keeps_file _ _ _ _ _ _ _ E).
Qed.

Lemma interrupted_keeps_present src dst w p :
  present p (disk w) = true -> present p (interrupted src dst w) = true.
Proof.
  unfold interrupted. destruct (faults w _); [trivial|]. apply copied_keeps_present.
Qed.

Lemma FileExists_false p w : helper.FileExists p w = Ok false -> present p (disk w) = false.
Proof.
  unfold helper.FileExists, os.Stat, present.
  destruct (faults w (ScStat p)); [discriminate|].
  destruct (walk p (disk w)); simpl; intros H; try reflexivity; discriminate.
Qed.

Lemma FileExists_true p w : helper.FileExists p w = Ok true -> present p (disk w) = true.
Proof.
  unfold helper.FileExists, os.Stat, present.
  destruct (faults w (ScStat p)); [discriminate|].
  destruct (walk p (disk w)); simpl; intros H; try reflexivity; discriminate.
Qed.

Lemma FileExists_same p w1 w2 :
  faults w1 = faults w2 -> disk w1 = disk w2 ->
  helper.FileExists p w1 = helper.FileExists p w2.
Proof. unfold helper.FileExists, os.Stat. now intros -> ->. Qed.

Lemma Join_not_nil dir name : filepath.Join dir name <> [].
Proof. unfold filepath.Join. destruct dir; discriminate. Qed.

(** ** One equation per call across the boundary

    Each call either returns its error and leaves the world as it was, or
    succeeds, changes its part of the world and records its event.  A copy
    is the exception: one that fails records nothing and leaves the files
    it wrote before it failed. *)

Lemma RemoveAll_eq p w :
  os.RemoveAll p w =
  match fails (os.RemoveAll p) w with
  | Some e => (Err e, w)
  | None => (Ok tt, emit (EvRemoveAll p) (set_disk (prune p (disk w)) w))
  end.
Proof.
  unfold fails, os.RemoveAll, syscall.
  destruct (faults w (ScRemoveAll p)); [reflexivity|].
  destruct p; [reflexivity|]. destruct (walk _ _); reflexivity.
Qed.

Lemma MkdirAll_eq p w :
  os.MkdirAll p w =
  match fails (os.MkdirAll p) w with
  | Some e => (Err e, w)
  | None => (Ok tt, emit (EvMkdirAll p) (set_disk (default (disk w) (graft p [] (disk w))) w))
  end.
Proof.
  unfold fails, os.MkdirAll, syscall.
  destruct (faults w (ScMkdirAll p)); [reflexivity|].
  destruct (graft _ _ _); reflexivity.
Qed.

Lemma CopyDirectory_eq src dst w :
  helper.CopyDirectory src dst w =
  match fails (helper.CopyDirectory src dst) w with
  | Some e => (Err e, set_disk (interrupted src dst w) w)
  | None => (Ok tt, emit (EvCopyDirectory src dst) (set_disk (copied src dst (disk w)) w))
  end.
Proof.
  unfold fails, helper.CopyDirectory, syscall, interrupted, copied.
  destruct (faults w (ScCopyDirectory src dst)).
  - simpl. destruct w; reflexivity.
  - destruct (copy src dst (disk w)) as [[e|] d]; reflexivity.
Qed.

Lemma Setenv_eq k v w :
  os.Setenv k v w =
  match faults w (ScSetenv k) with
  | Some e => (Err (failure (ScSetenv k) e), w)
  | None => (Ok tt, emit (EvSetenv k v) (set_environ (<[k := v]> (environ w)) w))
  end.
Proof. reflexivity. Qed.

Lemma OverrideSharedEnv_eq l name value w :
  Layer_OverrideSharedEnv l name value w =
  match faults w (ScSharedEnv (layers.LayerName l) name) with
  | Some e => (Err (failure (ScSharedEnv (layers.LayerName l) name) e), w)
  | None =>
      (Ok tt,
       emit (EvSharedEnv l (layers.Override name value))
         (set_sharedEnv
            (sharedEnv w ++ [(layers.LayerName l, layers.Override name value)])%list w))
  end.
Proof. reflexivity. Qed.

Lemma AppendPathSharedEnv_eq l name value w :
  Layer_AppendPathSharedEnv l name value w =
  match faults w (ScSharedEnv (layers.LayerName l) name) with
  | Some e => (Err (failure (ScSharedEnv (layers.LayerName l) name) e), w)
  | None =>
      (Ok tt,
       emit (EvSharedEnv l (layers.AppendPath name value))
         (set_sharedEnv
            (sharedEnv w ++ [(layers.LayerName l, layers.AppendPath name value)])%list w))
  end.
Proof. reflexivity. Qed.

Lemma WriteMetadata_eq l expected fl w :
  Layer_WriteMetadata l expected fl w =
  match faults w (ScWriteMetadata (layers.LayerName l)) with
  | Some e => (Err (failure (ScWriteMetadata (layers.LayerName l)) e), w)
  | None =>
      (Ok tt,
       emit (EvWriteMetadata l expected fl)
         (set_stored
            (<[layers.LayerName l :=
                 {| stored_metadata := expected; stored_flags := fl |}]> (stored w)) w))
  end.
Proof. reflexivity. Qed.

Lemma WriteApplicationMetadata_eq ls md w :
  Layers_WriteApplicationMetadata ls md w =
  match faults w ScWriteApplicationMetadata with
  | Some e => (Err (failure ScWriteApplicationMetadata e), w)
  | None => (Ok tt, emit (EvWriteApplicationMetadata md) (set_appMetadata (Some md) w))
  end.
Proof. reflexivity. Qed.

Lemma call_Install_eq pm a b c w :
  call_Install pm a b c w =
  let o := Install pm a b c (environ w) (disk w) in
  (match out_err o with Some e => Err e | None => Ok tt end,
   emit (EvInstall a b c (out_lines o) (out_err o)) (set_disk (out_disk o) w)).
Proof. unfold call_Install, answer. cbv zeta. destruct (out_err _); reflexivity. Qed.

Lemma call_Rebuild_eq pm a b w :
  call_Rebuild pm a b w =
  let o := Rebuild pm a b (environ w) (disk w) in
  (match out_err o with Some e => Err e | None => Ok tt end,
   emit (EvRebuild a b (out_lines o) (out_err o)) (set_disk (out_disk o) w)).
Proof. unfold call_Rebuild, answer. cbv zeta. destruct (out_err _); reflexivity. Qed.

Lemma call_WarnUnmetDependencies_eq pm a w :
  call_WarnUnmetDependencies pm a w =
  let o := WarnUnmetDependencies pm a (environ w) (disk w) in
  (match out_err o with Some e => Err e | None => Ok tt end,
   emit (EvWarnUnmetDependencies a (out_lines o) (out_err o)) (set_disk (out_disk o) w)).
Proof.
  unfold call_WarnUnmetDependencies, answer. cbv zeta. destruct (out_err _); reflexivity.
Qed.

(** ** Running the contributor step by step *)

Lemma FileExists_set_disk_emit p d e w :
  helper.FileExists p (set_disk d (emit e w)) = helper.FileExists p (set_disk d w).
Proof. reflexivity. Qed.

Ltac simpl_world :=
  cbn [faults emit set_disk set_environ set_sharedEnv set_stored set_appMetadata
       set_ticks disk environ events stored sharedEnv appMetadata clock ticks
       fst snd negb];
  rewrite ?FileExists_emit, ?FileExists_set_disk_emit.

Ltac expose :=
  match goal with
  | |- context [os.RemoveAll ?p ?w] => rewrite (RemoveAll_eq p w)
  | |- context [os.MkdirAll ?p ?w] => rewrite (MkdirAll_eq p w)
  | |- context [helper.CopyDirectory ?s ?d ?w] => rewrite (CopyDirectory_eq s d w)
  | |- context [os.Setenv ?k ?v ?w] => rewrite (Setenv_eq k v w)
  | |- context [Layer_OverrideSharedEnv ?l ?n ?v ?w] =>
      rewrite (OverrideSharedEnv_eq l n v w)
  | |- context [Layer_AppendPathSharedEnv ?l ?n ?v ?w] =>
      rewrite (AppendPathSharedEnv_eq l n v w)
  | |- context [Layer_WriteMetadata ?l ?m ?f ?w] => rewrite (WriteMetadata_eq l m f w)
  | |- context [Layers_WriteApplicationMetadata ?l ?m ?w] =>
      rewrite (WriteApplicationMetadata_eq l m w)
  | |- context [call_Install ?pm ?a ?b ?c ?w] =>
      rewrite (call_Install_eq pm a b c w); cbv zeta
  | |- context [call_Rebuild ?pm ?a ?b ?w] =>
      rewrite (call_Rebuild_eq pm a b w); cbv zeta
  | |- context [call_WarnUnmetDependencies ?pm ?a ?w] =>
      rewrite (call_WarnUnmetDependencies_eq pm a w); cbv zeta
  end.

Ltac decide_step :=
  match goal with
  | |- context [match fails ?m ?w with _ => _ end] => destruct (fails m w) eqn:?
  | |- context [match faults ?w ?c with _ => _ end] => destruct (faults w c) eqn:?
  | |- context [match out_err ?o with _ => _ end] => destruct (out_err o) eqn:?
  | |- context [match helper.FileExists ?p ?w with _ => _ end] =>
      destruct (helper.FileExists p w) as [[|]|] eqn:?
  | |- context [match hasSubdirs ?p ?w with _ => _ end] =>
      destruct (hasSubdirs p w) as [[|]|] eqn:?
  end.

Ltac run_step := first [decide_step | expose]; simpl_world.

Ltac run :=
  unfold contributeNodeModules, contributeNPMCache, tipVendorDependencies,
    bind, wrap, ask, ret, Logger_Info, log;
  simpl_world; repeat run_step.

Ltac trace :=
  rewrite <- ?app_assoc; eexists;
  split; [first [reflexivity | symmetry; apply app_nil_r]|].

(** C1, amended.  On a stale fingerprint, once the listing and the stat of
    [node_modules] have succeeded, [contributeNodeModules] calls [Rebuild]
    exactly once and never [Install] when [node_modules] exists in the
    application root, whether or not a directory is nested in it, and calls
    [Install] exactly once and never [Rebuild] when it does not exist.  The
    listing only decides whether the vendoring tip is logged. *)
Theorem rebuild_iff_node_modules_exists c layer w s v :
  hasSubdirs (nodeModulesPath c) w = Ok s ->
  helper.FileExists (nodeModulesPath c) w = Ok v ->
  exists tr, events (snd (contributeNodeModules c layer w)) = (events w ++ tr)%list
    /\ count is_Rebuild tr = (if v then 1 else 0)%nat
    /\ count is_Install tr = (if v then 0 else 1)%nat
    /\ (count is_Rebuild tr = 1%nat <-> v = true).
Proof.
  unfold nodeModulesPath. intros Hs Hv.
  unfold contributeNodeModules, tipVendorDependencies, bind, wrap, ask, ret,
    Logger_Info, log.
  rewrite Hs.
  destruct s; simpl_world; rewrite ?FileExists_emit, Hv; destruct v.
  all: repeat run_step.
  all: trace; repeat split; try reflexivity; discriminate.
Qed.

Lemma rebuild_iff_node_modules_exists_witness :
  exists tr,
    events (snd (contributeNodeModules (sample npm) (nodeModulesLayer (sample npm))
                   (world_of freshDisk))) = ([] ++ tr)%list
    /\ count is_Rebuild tr = 0%nat
    /\ count is_Install tr = 1%nat
    /\ (count is_Rebuild tr = 1%nat <-> false = true).
Proof.
  apply (rebuild_iff_node_modules_exists (sample npm) (nodeModulesLayer (sample npm))
           (world_of freshDisk) false false); reflexivity.
Defined.

(** C1 as stated fails: with a [node_modules] directory that holds a single
    regular file, the listing finds no nested directory, and yet the
    contributor rebuilds once and does not install. *)
Lemma rebuild_without_nested_directory :
  hasSubdirs (nodeModulesPath (sample idle)) (world_of flatDisk) = Ok false
  /\ count is_Rebuild
       (added (world_of flatDisk)
          (snd (contributeNodeModules (sample idle) (nodeModulesLayer (sample idle))
                  (world_of flatDisk)))) = 1%nat
  /\ count is_Install
       (added (world_of flatDisk)
          (snd (contributeNodeModules (sample idle) (nodeModulesLayer (sample idle))
                  (world_of flatDisk)))) = 0%nat
  /\ ~ rebuild_iff_nested (sample idle) (nodeModulesLayer (sample idle))
         (world_of flatDisk).
Proof.
  assert (H1 : hasSubdirs (nodeModulesPath (sample idle)) (world_of flatDisk) = Ok false)
    by (vm_compute; reflexivity).
  assert (H2 : count is_Rebuild
       (added (world_of flatDisk)
          (snd (contributeNodeModules (sample idle) (nodeModulesLayer (sample idle))
                  (world_of flatDisk)))) = 1%nat) by (vm_compute; reflexivity).
  assert (H3 : count is_Install
       (added (world_of flatDisk)
          (snd (contributeNodeModules (sample idle) (nodeModulesLayer (sample idle))
                  (world_of flatDisk)))) = 0%nat) by (vm_compute; reflexivity).
  repeat split; try assumption.
  intros [_ H]. unfold rebuild_iff_nested in H. cbv zeta in H.
  rewrite H1, H2, H3 in H. destruct H as [H _]; [discriminate | discriminate].
Qed.

(** A run that returns [a] is the pair of [a] and the world it leaves. *)
Lemma run_ok {A} (m : M A) (w : World) (a : A) :
  fst (m w) = Ok a -> m w = (Ok a, snd (m w)).
Proof. destruct (m w) as [r w1]. simpl. now intros ->. Qed.

(** ** Relocation *)

Lemma walk_present_prefix (p q : path) n m :
  walk (p ++ q)%list n = Found m -> present p n = true.
Proof.
  rewrite walk_app. unfold present. destruct (walk p n); [reflexivity | discriminate..].
Qed.

(** Two paths of which neither lies under the other share no path below
    them. *)
Lemma apart_below (p q r : path) :
  ~ p `prefix_of` q -> ~ q `prefix_of` p -> ~ p `prefix_of` (q ++ r)%list.
Proof.
  intros Hpq Hqp H.
  destruct (prefix_weak_total p q (q ++ r)%list H (prefix_app_r q q r (reflexivity q)));
    contradiction.
Qed.

(** C5, amended.  After a successful contribution of the dependency-tree
    layer, with a diagnostic that leaves the tree as it found it, the
    application root no longer contains [node_modules].  When neither
    [node_modules] of the application nor [node_modules] of the layer lies
    inside the other, every regular file the install or rebuild step left
    under [node_modules] of the application is found, with the same bytes,
    at the same place under [node_modules] of the layer root; so the layer
    root contains [node_modules] as soon as one regular file was there.
    When the package manager produced no [node_modules], or one that holds
    no regular file, the layer may stay without it. *)
Theorem relocation c layer w w' :
  (forall root env d, out_disk (WarnUnmetDependencies (pkgManager c) root env d) = d) ->
  contributeNodeModules c layer w = (Ok tt, w') ->
  present (nodeModulesPath c) (disk w') = false
  /\ (~ nodeModulesPath c `prefix_of` filepath.Join (layers.Root layer) ModulesDir ->
      ~ filepath.Join (layers.Root layer) ModulesDir `prefix_of` nodeModulesPath c ->
      (forall q data,
         walk (nodeModulesPath c ++ q)%list (built c layer w) = Found (File data) ->
         walk (filepath.Join (layers.Root layer) ModulesDir ++ q)%list (disk w')
           = Found (File data))
      /\ ((exists q data,
             walk (nodeModulesPath c ++ q)%list (built c layer w) = Found (File data)) ->
          present (filepath.Join (layers.Root layer) ModulesDir) (disk w') = true)).
Proof.
  intros Hro Hrun.
  assert (Hmain :
    present (nodeModulesPath c) (disk w') = false
    /\ (~ nodeModulesPath c `prefix_of` filepath.Join (layers.Root layer) ModulesDir ->
        ~ filepath.Join (layers.Root layer) ModulesDir `prefix_of` nodeModulesPath c ->
        forall q data,
          walk (nodeModulesPath c ++ q)%list (built c layer w) = Found (File data) ->
          walk (filepath.Join (layers.Root layer) ModulesDir ++ q)%list (disk w')
            = Found (File data))).
  { revert Hrun. unfold nodeModulesPath. run.
    all: intros Hrun; try discriminate Hrun; injection Hrun as <-; simpl_world.
    all: rewrite ?Hro; split.
    all: try (apply present_prune_self, Join_not_nil).
    all: try (match goal with
              | H : helper.FileExists _ _ = Ok false |- _ =>
                  exact (FileExists_false _ _ H)
              end).
    all: intros Hpre1 Hpre2 q data Hw; unfold built, nodeModulesPath in Hw.
    all: repeat match goal with
                | H : helper.FileExists _ ?x = _ |- _ => is_var x; rewrite H in Hw; clear H
                end.
    all: try (match goal with
              | H : helper.FileExists _ _ = Ok false |- _ =>
                  apply FileExists_false in H; cbn [disk set_disk emit] in H;
                  apply walk_present_prefix in Hw; congruence
              end).
    all: apply prune_keeps_file; [exact (apart_below _ _ _ Hpre1 Hpre2)|];
      match goal with
      | H : fails (helper.CopyDirectory _ _) _ = None |- _ =>
          exact (copied_files _ _ _ _ _ H Hw)
      end. }
  destruct Hmain as [H1 H2]. split; [exact H1|]. intros Hpre1 Hpre2.
  split; [exact (H2 Hpre1 Hpre2)|].
  intros (q & data & Hw). exact (walk_present_prefix _ _ _ _ (H2 Hpre1 Hpre2 q data Hw)).
Qed.

Lemma relocation_witness :
  present (nodeModulesPath (sample npm))
    (disk (snd (contributeNodeModules (sample npm) (nodeModulesLayer (sample npm))
                  (world_of freshDisk)))) = false
  /\ walk ["layers"; "node_modules"; "node_modules"; "left-pad"; "index.js"]
       (disk (snd (contributeNodeModules (sample npm) (nodeModulesLayer (sample npm))
                     (world_of freshDisk)))) = Found (File [])
  /\ present (filepath.Join (layers.Root (nodeModulesLayer (sample npm))) ModulesDir)
       (disk (snd (contributeNodeModules (sample npm) (nodeModulesLayer (sample npm))
                     (world_of freshDisk)))) = true.
Proof.
  destruct (relocation (sample npm) (nodeModulesLayer (sample npm)) (world_of freshDisk)
              (snd (contributeNodeModules (sample npm) (nodeModulesLayer (sample npm))
                      (world_of freshDisk))))
    as [H1 H2].
  - intros root env d. reflexivity.
  - apply (run_ok (contributeNodeModules (sample npm) (nodeModulesLayer (sample npm)))
             (world_of freshDisk)).
    vm_compute. reflexivity.
  - destruct H2 as [H2 H3].
    + intros [k Hk]. vm_compute in Hk. discriminate Hk.
    + intros [k Hk]. vm_compute in Hk. discriminate Hk.
    + split; [exact H1|]. split.
      * apply (H2 ["left-pad"; "index.js"] []). vm_compute. reflexivity.
      * apply H3. exists ["left-pad"; "index.js"], []. vm_compute. reflexivity.
Defined.

(** C5 as stated fails: a package manager that reports success and
    produces nothing (an install with no dependencies) makes the
    contribution succeed while the layer root holds no [node_modules]. *)
Lemma nothing_installed_nothing_relocated :
  fst (contributeNodeModules (sample idle) (nodeModulesLayer (sample idle))
         (world_of freshDisk)) = Ok tt
  /\ present (filepath.Join (layers.Root (nodeModulesLayer (sample idle))) ModulesDir)
       (disk (snd (contributeNodeModules (sample idle) (nodeModulesLayer (sample idle))
                     (world_of freshDisk)))) = false
  /\ ~ relocated_always (sample idle) (nodeModulesLayer (sample idle))
         (world_of freshDisk).
Proof.
  split; [vm_compute; reflexivity|]. split; [vm_compute; reflexivity|].
  intros H.
  destruct (H (snd (contributeNodeModules (sample idle) (nodeModulesLayer (sample idle))
                      (world_of freshDisk)))) as [_ H2].
  - apply run_ok. vm_compute. reflexivity.
  - vm_compute in H2. discriminate H2.
Qed.

(** An empty [node_modules] is removed from the application and is not
    made in the layer. *)
Example empty_node_modules_is_not_made_again :
  fst (contributeNodeModules (sample idle) (nodeModulesLayer (sample idle))
         (world_of emptyModulesDisk)) = Ok tt
  /\ present (nodeModulesPath (sample idle))
       (disk (snd (contributeNodeModules (sample idle) (nodeModulesLayer (sample idle))
                     (world_of emptyModulesDisk)))) = false
  /\ present (layers.Root (nodeModulesLayer (sample idle)))
       (disk (snd (contributeNodeModules (sample idle) (nodeModulesLayer (sample idle))
                     (world_of emptyModulesDisk)))) = false.
Proof. repeat split; vm_compute; reflexivity. Qed.

Ltac use_faults :=
  repeat match goal with
         | H : faults _ _ = _ |- _ => rewrite H
         end.

(** ** The diagnostic *)

Lemma unmet_dependency_trace c layer w :
  exists tr,
    events (snd (contributeNodeModules c layer w)) = (events w ++ tr)%list
    /\ ((only is_Warn tr = [] /\ fst (contributeNodeModules c layer w) <> Ok tt)
        \/ exists findings ans,
             only is_Warn tr =
               [EvWarnUnmetDependencies (application.Root (app c)) findings ans]
             /\ (count is_Install (before_warn tr) + count is_Rebuild (before_warn tr) = 1)%nat
             /\ (only is_move (before_warn tr) = []
                 \/ only is_move (before_warn tr) =
                      [EvCopyDirectory (nodeModulesPath c)
                         (filepath.Join (layers.Root layer) ModulesDir);
                       EvRemoveAll (nodeModulesPath c)])
             /\ only is_move (after_warn tr) = []
             /\ count is_Install (after_warn tr) = 0%nat
             /\ count is_Rebuild (after_warn tr) = 0%nat
             /\ match ans with
                | Some e =>
                    fst (contributeNodeModules c layer w) =
                    Err (Errorf "failed to check unmet dependencies: " e)
                | None => fst (contributeNodeModules c layer w) = exported layer w
                end).
Proof.
  unfold nodeModulesPath. run.
  all: trace.
  all: first
    [ left; split; [reflexivity | discriminate]
    | right; eexists _, _; split; [reflexivity|];
      split; [reflexivity|];
      split; [first [left; reflexivity | right; reflexivity]|];
      split; [reflexivity|]; split; [reflexivity|]; split; [reflexivity|];
      unfold exported; use_faults; reflexivity ].
Qed.

(** A copy, and a removal, fail or not by the tree and the outside faults
    alone. *)
Lemma CopyDirectory_fails_same src dst w w' :
  faults w = faults w' -> disk w = disk w' ->
  fails (helper.CopyDirectory src dst) w = fails (helper.CopyDirectory src dst) w'.
Proof.
  unfold fails, helper.CopyDirectory, syscall. intros -> ->.
  destruct (faults w' _); [reflexivity|].
  destruct (copy src dst (disk w')) as [[e|] d]; reflexivity.
Qed.

Lemma RemoveAll_fails_same p w w' :
  faults w = faults w' -> disk w = disk w' ->
  fails (os.RemoveAll p) w = fails (os.RemoveAll p) w'.
Proof.
  unfold fails, os.RemoveAll, syscall. intros -> ->.
  destruct (faults w' _); [reflexivity|].
  destruct p; [reflexivity|]. destruct (walk _ _); reflexivity.
Qed.

(** When every step before it succeeds, the diagnostic is called. *)
Lemma diagnostic_is_reached c layer w s v b :
  hasSubdirs (nodeModulesPath c) w = Ok s ->
  helper.FileExists (nodeModulesPath c) w = Ok v ->
  out_err (attempt c layer w) = None ->
  helper.FileExists (nodeModulesPath c) (set_disk (built c layer w) w) = Ok b ->
  (b = true ->
   fails (helper.CopyDirectory (nodeModulesPath c)
            (filepath.Join (layers.Root layer) ModulesDir))
     (set_disk (built c layer w) w) = None
   /\ fails (os.RemoveAll (nodeModulesPath c))
        (set_disk (copied (nodeModulesPath c)
                     (filepath.Join (layers.Root layer) ModulesDir) (built c layer w)) w)
      = None) ->
  faults w (ScSetenv "NODE_VERBOSE") = None ->
  exists tr,
    events (snd (contributeNodeModules c layer w)) = (events w ++ tr)%list
    /\ exists findings ans,
         only is_Warn tr =
           [EvWarnUnmetDependencies (application.Root (app c)) findings ans].
Proof.
  unfold built, attempt, nodeModulesPath. intros Hs Hv. rewrite Hv.
  unfold contributeNodeModules, tipVendorDependencies, bind, wrap, ask, ret,
    Logger_Info, log.
  rewrite Hs.
  destruct s; simpl_world; rewrite Hv; destruct v; intros Ho Hb Hrel Hse.
  all: first [rewrite call_Rebuild_eq | rewrite call_Install_eq];
    cbv zeta; simpl_world; rewrite Ho; simpl_world; rewrite Hb; simpl_world.
  all: destruct b;
    [ destruct (Hrel eq_refl) as [Hc Hr];
      rewrite CopyDirectory_eq;
      match goal with
      | |- context [fails (helper.CopyDirectory ?a ?b) ?w1] =>
          replace (fails (helper.CopyDirectory a b) w1) with (@None error)
            by (rewrite <- Hc; apply CopyDirectory_fails_same; reflexivity)
      end; simpl_world;
      rewrite RemoveAll_eq;
      match goal with
      | |- context [fails (os.RemoveAll ?a) ?w1] =>
          replace (fails (os.RemoveAll a) w1) with (@None error)
            by (rewrite <- Hr; apply RemoveAll_fails_same; reflexivity)
      end; simpl_world
    | ].
  all: rewrite Setenv_eq; simpl_world; rewrite Hse; simpl_world.
  all: repeat run_step.
  all: trace; eexists _, _; reflexivity.
Qed.

(** C9.  In a stale contribution, [WarnUnmetDependencies] is called at most
    once, on the application root, and a run that does not call it has
    failed earlier.  When it is called, exactly one [Install] or [Rebuild]
    came before it, the relocation before it is either absent (nothing to
    relocate) or complete (the copy, then the removal), and no relocation,
    install or rebuild comes after it.  If the call returns an error, the
    contribution returns that error under the prefix "failed to check unmet
    dependencies: ".  If it returns none, the contribution returns what the
    two environment exports return, whatever findings were printed.  The
    call is made whenever the steps before it succeed (the listing and the
    stat of [node_modules], the install or rebuild, the second stat, the
    copy and the removal when there is something to relocate, the setting
    of NODE_VERBOSE); in particular a contribution that returns no error
    has made it, and the diagnostic returned no error. *)
Theorem unmet_dependency_check c layer w :
  exists tr,
    events (snd (contributeNodeModules c layer w)) = (events w ++ tr)%list
    /\ ((only is_Warn tr = [] /\ fst (contributeNodeModules c layer w) <> Ok tt)
        \/ exists findings ans,
             only is_Warn tr =
               [EvWarnUnmetDependencies (application.Root (app c)) findings ans]
             /\ (count is_Install (before_warn tr) + count is_Rebuild (before_warn tr) = 1)%nat
             /\ (only is_move (before_warn tr) = []
                 \/ only is_move (before_warn tr) =
                      [EvCopyDirectory (nodeModulesPath c)
                         (filepath.Join (layers.Root layer) ModulesDir);
                       EvRemoveAll (nodeModulesPath c)])
             /\ only is_move (after_warn tr) = []
             /\ count is_Install (after_warn tr) = 0%nat
             /\ count is_Rebuild (after_warn tr) = 0%nat
             /\ match ans with
                | Some e =>
                    fst (contributeNodeModules c layer w) =
                    Err (Errorf "failed to check unmet dependencies: " e)
                | None => fst (contributeNodeModules c layer w) = exported layer w
                end)
    /\ (forall s v b,
          hasSubdirs (nodeModulesPath c) w = Ok s ->
          helper.FileExists (nodeModulesPath c) w = Ok v ->
          out_err (attempt c layer w) = None ->
          helper.FileExists (nodeModulesPath c) (set_disk (built c layer w) w) = Ok b ->
          (b = true ->
           fails (helper.CopyDirectory (nodeModulesPath c)
                    (filepath.Join (layers.Root layer) ModulesDir))
             (set_disk (built c layer w) w) = None
           /\ fails (os.RemoveAll (nodeModulesPath c))
                (set_disk (copied (nodeModulesPath c)
                             (filepath.Join (layers.Root layer) ModulesDir)
                             (built c layer w)) w)
              = None) ->
          faults w (ScSetenv "NODE_VERBOSE") = None ->
          exists findings ans,
            only is_Warn tr =
              [EvWarnUnmetDependencies (application.Root (app c)) findings ans])
    /\ (fst (contributeNodeModules c layer w) = Ok tt ->
        exists findings,
          only is_Warn tr =
            [EvWarnUnmetDependencies (application.Root (app c)) findings None]).
Proof.
  destruct (unmet_dependency_trace c layer w) as (tr & Hev & Htr).
  exists tr. split; [exact Hev|]. split; [exact Htr|]. split.
  - intros s v b Hs Hv Ho Hb Hrel Hse.
    destruct (diagnostic_is_reached c layer w s v b Hs Hv Ho Hb Hrel Hse)
      as (tr' & Hev' & Hw).
    rewrite Hev in Hev'. apply app_inv_head in Hev'. now subst tr'.
  - intros Hok. destruct Htr as [[_ Hne]|(findings & ans & Hw & _ & _ & _ & _ & _ & Hres)];
      [contradiction|].
    destruct ans as [e|]; [rewrite Hok in Hres; discriminate Hres|].
    now exists findings.
Qed.

Lemma unmet_dependency_check_witness :
  exists tr,
    events (snd (contributeNodeModules (sample npm) (nodeModulesLayer (sample npm))
                   (world_of freshDisk))) = ([] ++ tr)%list
    /\ (exists findings ans,
          only is_Warn tr = [EvWarnUnmetDependencies ["workspace"] findings ans])
    /\ only is_Warn tr =
         [EvWarnUnmetDependencies ["workspace"] ["npm WARN unmet peer dependency"] None]
    /\ fst (contributeNodeModules (sample npm) (nodeModulesLayer (sample npm))
              (world_of freshDisk)) = Ok tt.
Proof.
  destruct (unmet_dependency_check (sample npm) (nodeModulesLayer (sample npm))
              (world_of freshDisk)) as (tr & Hev & _ & Hlive & _).
  exists tr. split; [exact Hev|]. split.
  - apply (Hlive false false true); try reflexivity.
    intros _. split; reflexivity.
  - split; [|vm_compute; reflexivity].
    assert (E : tr = events (snd (contributeNodeModules (sample npm)
                                    (nodeModulesLayer (sample npm))
                                    (world_of freshDisk))))
      by (symmetry; exact Hev).
    rewrite E. vm_compute. reflexivity.
Defined.

(** ** What a contribution function leaves alone *)

Lemma only_app f a b : only f (a ++ b)%list = (only f a ++ only f b)%list.
Proof.
  induction a as [|e a IH]; simpl; [reflexivity|].
  destruct (f e); simpl; now rewrite IH.
Qed.

Lemma only_none f g tr :
  (forall e, f e = true -> g e = true) -> only g tr = [] -> only f tr = [].
Proof.
  intros Hfg. induction tr as [|e tr IH]; simpl; [reflexivity|].
  destruct (g e) eqn:Hg; [discriminate|].
  destruct (f e) eqn:Hf; [|exact IH].
  rewrite (Hfg e Hf) in Hg. discriminate.
Qed.

Lemma count_app f a b : count f (a ++ b)%list = (count f a + count f b)%nat.
Proof. unfold count. now rewrite only_app, length_app. Qed.

(** The stale contribution touches neither the store's records, nor the
    application metadata, nor the fault table, and does no bookkeeping. *)
Lemma contributeNodeModules_frame c layer w :
  faults (snd (contributeNodeModules c layer w)) = faults w
  /\ stored (snd (contributeNodeModules c layer w)) = stored w
  /\ appMetadata (snd (contributeNodeModules c layer w)) = appMetadata w
  /\ exists tr,
       events (snd (contributeNodeModules c layer w)) = (events w ++ tr)%list
       /\ only is_bookkeeping tr = [].
Proof.
  run. all: repeat split; trace; reflexivity.
Qed.

Lemma contributeNPMCache_frame c layer w :
  faults (snd (contributeNPMCache c layer w)) = faults w
  /\ stored (snd (contributeNPMCache c layer w)) = stored w
  /\ appMetadata (snd (contributeNPMCache c layer w)) = appMetadata w
  /\ exists tr,
       events (snd (contributeNPMCache c layer w)) = (events w ++ tr)%list
       /\ only is_bookkeeping tr = []
       /\ count is_Install tr = 0%nat /\ count is_Rebuild tr = 0%nat.
Proof.
  run. all: repeat split; trace; repeat split; reflexivity.
Qed.

(** ** The two layer contributions and the registration *)

Lemma Layer_Contribute_spec l md f fl w :
  quiet_fn f ->
  faults (snd (Layer_Contribute l md f fl w)) = faults w
  /\ appMetadata (snd (Layer_Contribute l md f fl w)) = appMetadata w
  /\ (fst (Layer_Contribute l md f fl w) = Ok tt ->
      stored (snd (Layer_Contribute l md f fl w)) =
      <[layers.LayerName l := {| stored_metadata := md; stored_flags := fl |}]> (stored w))
  /\ exists tr,
       events (snd (Layer_Contribute l md f fl w)) =
         (events w ++ EvLayerContribute l md fl :: tr)%list
       /\ only is_LayerContribute tr = []
       /\ only is_registration tr = [].
Proof.
  intros Hq.
  unfold Layer_Contribute, bind, log, Layer_MetadataMatches, syscall. simpl_world.
  destruct (faults w (ScMetadataMatches (layers.LayerName l))) eqn:Hf; simpl_world.
  { split; [reflexivity|]. split; [reflexivity|]. split; [discriminate|].
    exists []. repeat split. }
  destruct (bool_decide _); simpl_world.
  { rewrite WriteMetadata_eq. simpl_world.
    destruct (faults w (ScWriteMetadata (layers.LayerName l))); simpl_world.
    - split; [reflexivity|]. split; [reflexivity|]. split; [discriminate|].
      exists []. repeat split.
    - split; [reflexivity|]. split; [reflexivity|]. split; [reflexivity|].
      eexists [_]. rewrite <- app_assoc. repeat split. }
  destruct (Hq l (emit (EvLayerContribute l md fl) w)) as (Hfa & Hst & Ham & tr & Hev & Hbk).
  destruct (f l (emit (EvLayerContribute l md fl) w)) as [[[]|e] w1];
    simpl fst in *; simpl snd in *; simpl_world.
  - rewrite WriteMetadata_eq, Hfa. simpl_world.
    destruct (faults w (ScWriteMetadata (layers.LayerName l))); simpl_world.
    + rewrite Hfa, Ham, Hev. simpl_world.
      split; [reflexivity|]. split; [reflexivity|]. split; [discriminate|].
      exists tr. rewrite <- app_assoc.
      split; [reflexivity|].
      split; eapply only_none; try exact Hbk; now intros [].
    + rewrite Hfa, Ham, Hst, Hev. simpl_world.
      split; [reflexivity|]. split; [reflexivity|]. split; [reflexivity|].
      exists (tr ++ [EvWriteMetadata l md fl])%list.
      rewrite <- !app_assoc. rewrite !only_app.
      split; [reflexivity|].
      split; simpl; rewrite app_nil_r;
        eapply only_none; try exact Hbk; now intros [].
  - rewrite Hfa, Ham, Hev. simpl_world.
    split; [reflexivity|]. split; [reflexivity|]. split; [discriminate|].
    exists tr. rewrite <- app_assoc.
    split; [reflexivity|].
    split; eapply only_none; try exact Hbk; now intros [].
Qed.

Lemma contributeNodeModules_quiet c : quiet_fn (contributeNodeModules c).
Proof.
  intros l w. destruct (contributeNodeModules_frame c l w) as (H1 & H2 & H3 & H4).
  repeat split; assumption.
Qed.

Lemma contributeNPMCache_quiet c : quiet_fn (contributeNPMCache c).
Proof.
  intros l w.
  destruct (contributeNPMCache_frame c l w) as (H1 & H2 & H3 & tr & H4 & H5 & _).
  repeat split; try assumption. exists tr. split; assumption.
Qed.

(** C8.  Every call of [Contribute] contributes the dependency-tree layer
    first, with the flags [Cache], then [Build] exactly when the build
    intent is set, then [Launch] exactly when the launch intent is set.
    Whenever the cache layer is contributed (it is as soon as the first
    contribution returns no error) its flags are exactly [Cache]. *)
Theorem layer_flags c w :
  exists tr,
    events (snd (Contribute c w)) = (events w ++ tr)%list
    /\ (only is_LayerContribute tr =
          [EvLayerContribute (nodeModulesLayer c) (NodeModulesMetadata c) (flags c)]
        \/ only is_LayerContribute tr =
          [EvLayerContribute (nodeModulesLayer c) (NodeModulesMetadata c) (flags c);
           EvLayerContribute (npmCacheLayer c) (NPMCacheMetadata c) [layers.Cache]])
    /\ (fst (Layer_Contribute (nodeModulesLayer c) (NodeModulesMetadata c)
               (contributeNodeModules c) (flags c) w) = Ok tt ->
        only is_LayerContribute tr =
          [EvLayerContribute (nodeModulesLayer c) (NodeModulesMetadata c) (flags c);
           EvLayerContribute (npmCacheLayer c) (NPMCacheMetadata c) [layers.Cache]])
    /\ flags c =
         (layers.Cache :: (if buildContribution c then [layers.Build] else [])
            ++ (if launchContribution c then [layers.Launch] else []))%list
    /\ In layers.Cache (flags c)
    /\ (In layers.Build (flags c) <-> buildContribution c = true)
    /\ (In layers.Launch (flags c) <-> launchContribution c = true).
Proof.
  assert (Hfl := conj (flags_spec c)
                   (conj (flags_Cache c) (conj (flags_Build c) (flags_Launch c)))).
  unfold Contribute, bind.
  destruct (Layer_Contribute_spec (nodeModulesLayer c) (NodeModulesMetadata c)
              (contributeNodeModules c) (flags c) w (contributeNodeModules_quiet c))
    as (Hfa1 & _ & _ & tr1 & Hev1 & Hlc1 & _).
  destruct (Layer_Contribute (nodeModulesLayer c) (NodeModulesMetadata c)
              (contributeNodeModules c) (flags c) w) as [[[]|e1] w1];
    simpl fst in *; simpl snd in *.
  2:{ eexists. split; [exact Hev1|]. simpl. rewrite Hlc1.
      split; [left; reflexivity|]. split; [discriminate|]. exact Hfl. }
  destruct (Layer_Contribute_spec (npmCacheLayer c) (NPMCacheMetadata c)
              (contributeNPMCache c) [layers.Cache] w1 (contributeNPMCache_quiet c))
    as (Hfa2 & _ & _ & tr2 & Hev2 & Hlc2 & _).
  destruct (Layer_Contribute (npmCacheLayer c) (NPMCacheMetadata c)
              (contributeNPMCache c) [layers.Cache] w1) as [[[]|e2] w2];
    simpl fst in *; simpl snd in *.
  2:{ rewrite Hev2, Hev1, <- app_assoc. eexists. split; [reflexivity|].
      simpl. rewrite only_app, Hlc1. simpl. rewrite Hlc2.
      split; [right; reflexivity|]. split; [reflexivity|]. exact Hfl. }
  rewrite WriteApplicationMetadata_eq.
  destruct (faults w2 ScWriteApplicationMetadata); simpl_world;
    rewrite Hev2, Hev1, <- ?app_assoc; (eexists; split; [reflexivity|]);
    simpl; rewrite !only_app, Hlc1; simpl; rewrite ?only_app, Hlc2;
    (split; [right; reflexivity|]); (split; [reflexivity|]); exact Hfl.
Qed.

(** C7.  Every run of [Contribute] that returns no error, whichever way the
    two layers went (reused, installed or rebuilt), has written the
    application metadata exactly once, as its last step, and that metadata
    holds exactly one process: type "web", command "npm start". *)
Theorem web_process_registered c w w' :
  Contribute c w = (Ok tt, w') ->
  appMetadata w' = Some {| layers.Processes := [webProcess] |}
  /\ layers.Type_ webProcess = "web"
  /\ layers.Command webProcess = "npm start"
  /\ exists tr,
       events w' = (events w ++ tr)%list
       /\ only is_registration tr =
            [EvWriteApplicationMetadata {| layers.Processes := [webProcess] |}]
       /\ last tr = Some (EvWriteApplicationMetadata {| layers.Processes := [webProcess] |}).
Proof.
  unfold Contribute, bind.
  destruct (Layer_Contribute_spec (nodeModulesLayer c) (NodeModulesMetadata c)
              (contributeNodeModules c) (flags c) w (contributeNodeModules_quiet c))
    as (_ & _ & _ & tr1 & Hev1 & _ & Hrg1).
  destruct (Layer_Contribute (nodeModulesLayer c) (NodeModulesMetadata c)
              (contributeNodeModules c) (flags c) w) as [[[]|e1] w1];
    simpl fst in *; simpl snd in *; [|discriminate].
  destruct (Layer_Contribute_spec (npmCacheLayer c) (NPMCacheMetadata c)
              (contributeNPMCache c) [layers.Cache] w1 (contributeNPMCache_quiet c))
    as (_ & _ & _ & tr2 & Hev2 & _ & Hrg2).
  destruct (Layer_Contribute (npmCacheLayer c) (NPMCacheMetadata c)
              (contributeNPMCache c) [layers.Cache] w1) as [[[]|e2] w2];
    simpl fst in *; simpl snd in *; [|discriminate].
  rewrite WriteApplicationMetadata_eq.
  destruct (faults w2 ScWriteApplicationMetadata); [discriminate|].
  intros [= <-]. simpl_world.
  split; [reflexivity|]. split; [reflexivity|]. split; [reflexivity|].
  rewrite Hev2, Hev1, <- !app_assoc. eexists. split; [reflexivity|].
  split.
  - simpl. rewrite !only_app, Hrg1. simpl. rewrite only_app, Hrg2. reflexivity.
  - rewrite app_assoc. apply last_snoc.
Qed.

(** ** Reuse *)

Lemma Layer_Contribute_reuse l md f fl w :
  stored_metadata <$> stored w !! layers.LayerName l = Some md ->
  disk (snd (Layer_Contribute l md f fl w)) = disk w
  /\ environ (snd (Layer_Contribute l md f fl w)) = environ w
  /\ sharedEnv (snd (Layer_Contribute l md f fl w)) = sharedEnv w
  /\ faults (snd (Layer_Contribute l md f fl w)) = faults w
  /\ (forall k, k <> layers.LayerName l ->
        stored (snd (Layer_Contribute l md f fl w)) !! k = stored w !! k)
  /\ exists tr,
       events (snd (Layer_Contribute l md f fl w)) = (events w ++ tr)%list
       /\ only is_work tr = [].
Proof.
  intros Hs.
  destruct (faults w (ScMetadataMatches (layers.LayerName l))) as [e|] eqn:Hf.
  - rewrite (Layer_Contribute_fault _ _ _ _ _ _ Hf). simpl_world.
    repeat split. eexists [_]. split; reflexivity.
  - rewrite (Layer_Contribute_hit _ _ _ _ _ Hf Hs), WriteMetadata_eq. simpl_world.
    destruct (faults w (ScWriteMetadata (layers.LayerName l))); simpl_world.
    + repeat split. eexists [_]. split; reflexivity.
    + split; [reflexivity|]. split; [reflexivity|]. split; [reflexivity|].
      split; [reflexivity|]. split.
      * intros k Hk. now rewrite lookup_insert_ne.
      * rewrite <- app_assoc. eexists. split; reflexivity.
Qed.

(** After a successful [Contribute] the store holds the two fingerprints,
    as long as the two layers go by different names. *)
Lemma Contribute_stores c w w' :
  layers.LayerName (nodeModulesLayer c) <> layers.LayerName (npmCacheLayer c) ->
  Contribute c w = (Ok tt, w') ->
  stored_metadata <$> stored w' !! layers.LayerName (nodeModulesLayer c)
    = Some (NodeModulesMetadata c)
  /\ stored_metadata <$> stored w' !! layers.LayerName (npmCacheLayer c)
    = Some (NPMCacheMetadata c).
Proof.
  intros Hne. unfold Contribute, bind.
  destruct (Layer_Contribute_spec (nodeModulesLayer c) (NodeModulesMetadata c)
              (contributeNodeModules c) (flags c) w (contributeNodeModules_quiet c))
    as (_ & _ & Hst1 & _).
  destruct (Layer_Contribute (nodeModulesLayer c) (NodeModulesMetadata c)
              (contributeNodeModules c) (flags c) w) as [[[]|e1] w1];
    simpl fst in *; simpl snd in *; [|discriminate].
  destruct (Layer_Contribute_spec (npmCacheLayer c) (NPMCacheMetadata c)
              (contributeNPMCache c) [layers.Cache] w1 (contributeNPMCache_quiet c))
    as (_ & _ & Hst2 & _).
  destruct (Layer_Contribute (npmCacheLayer c) (NPMCacheMetadata c)
              (contributeNPMCache c) [layers.Cache] w1) as [[[]|e2] w2];
    simpl fst in *; simpl snd in *; [|discriminate].
  rewrite WriteApplicationMetadata_eq.
  destruct (faults w2 ScWriteApplicationMetadata); [discriminate|].
  intros [= <-]. simpl_world.
  rewrite (Hst2 eq_refl), (Hst1 eq_refl). split.
  - rewrite lookup_insert_ne by congruence. now rewrite lookup_insert_eq.
  - now rewrite lookup_insert_eq.
Qed.

Lemma NewContributor_locked context pm w L c w' :
  helper.FileExists (lockPath (blank context pm)) w = Ok true ->
  ioutil.ReadFile (lockPath (blank context pm)) w = Ok L ->
  NewContributor context pm w = (Ok (Some c), w') ->
  w' = set_ticks (S (S (ticks w))) w
  /\ NodeModulesMetadata c =
       mkMetadata ModulesMetaName (hex.EncodeToString (sha256.Sum256 L))
  /\ NPMCacheMetadata c =
       mkMetadata CacheMetaName (hex.EncodeToString (sha256.Sum256 L))
  /\ nodeModulesLayer c = layers.Layer_of (build.Layers context) Dependency
  /\ npmCacheLayer c = layers.Layer_of (build.Layers context) Cache
  /\ exists plan,
       buildplan.GetShallowMerged (build.Plans context) Dependency = buildplan.Wanted plan.
Proof.
  intros HE HR. unfold NewContributor.
  destruct (buildplan.GetShallowMerged (build.Plans context) Dependency) as [e| |plan];
    [discriminate | discriminate |].
  fold (blank context pm). fold (intents plan). unfold bind.
  destruct (setLayersMetadata_locked _ _ _ HE HR)
    as (c' & Hrun & Hnm & Hc & _ & _ & Hl1 & Hl2 & _).
  rewrite Hrun. unfold ret. intros [= <- <-].
  unfold intents. cbn [NodeModulesMetadata NPMCacheMetadata nodeModulesLayer npmCacheLayer
                        set_launchContribution set_buildContribution].
  rewrite Hnm, Hc, Hl1, Hl2. repeat split. now exists plan.
Qed.

(** C6.  Two sequential builds of the same application whose lock file
    reads the same bytes: when the first build went through and the store
    still holds what it recorded, the second build's contributor is built
    without touching the disk and its [Contribute] calls neither [Install]
    nor [Rebuild] (nor any other operation of the package manager or of the
    file system): every event it leaves is the store's bookkeeping, and the
    disk, the process environment and the layers' environment are as the
    second build found them. *)
Theorem second_build_reuses context pm1 pm2 L w1 c1 w1a w1b w2 :
  helper.FileExists (lockPath (blank context pm1)) w1 = Ok true ->
  ioutil.ReadFile (lockPath (blank context pm1)) w1 = Ok L ->
  helper.FileExists (lockPath (blank context pm2)) w2 = Ok true ->
  ioutil.ReadFile (lockPath (blank context pm2)) w2 = Ok L ->
  NewContributor context pm1 w1 = (Ok (Some c1), w1a) ->
  Contribute c1 w1a = (Ok tt, w1b) ->
  stored w2 = stored w1b ->
  exists c2 w2a,
    NewContributor context pm2 w2 = (Ok (Some c2), w2a)
    /\ disk w2a = disk w2 /\ events w2a = events w2
    /\ disk (snd (Contribute c2 w2a)) = disk w2
    /\ environ (snd (Contribute c2 w2a)) = environ w2
    /\ sharedEnv (snd (Contribute c2 w2a)) = sharedEnv w2
    /\ exists tr,
         events (snd (Contribute c2 w2a)) = (events w2 ++ tr)%list
         /\ only is_work tr = []
         /\ count is_Install tr = 0%nat
         /\ count is_Rebuild tr = 0%nat.
Proof.
  intros HE1 HR1 HE2 HR2 Hnew1 Hrun1 Hst.
  destruct (NewContributor_locked _ _ _ _ _ _ HE1 HR1 Hnew1)
    as (_ & Hnm1 & Hc1 & Hl1 & Hk1 & plan & Hplan).
  assert (Hne : layers.LayerName (nodeModulesLayer c1)
                <> layers.LayerName (npmCacheLayer c1)).
  { rewrite Hl1, Hk1. discriminate. }
  destruct (Contribute_stores _ _ _ Hne Hrun1) as [Hs1 Hs2].
  rewrite Hl1, Hnm1 in Hs1. rewrite Hk1, Hc1 in Hs2. rewrite <- Hst in Hs1, Hs2.
  rewrite (NewContributor_wanted _ _ _ _ Hplan). unfold bind.
  destruct (setLayersMetadata_locked _ _ _ HE2 HR2)
    as (c' & Hrun & Hnm & Hc & _ & _ & Hl & Hk & _).
  rewrite Hrun. unfold ret.
  exists (intents plan c'), (set_ticks (S (S (ticks w2))) w2).
  split; [reflexivity|]. split; [reflexivity|]. split; [reflexivity|].
  assert (Hwork : forall tr, only is_work tr = [] ->
            only is_work tr = [] /\ count is_Install tr = 0%nat
            /\ count is_Rebuild tr = 0%nat).
  { intros tr H. split; [exact H|]. unfold count.
    split; (erewrite only_none; [reflexivity| |exact H]); now intros []. }
  unfold Contribute, bind, intents.
  cbn [NodeModulesMetadata NPMCacheMetadata nodeModulesLayer npmCacheLayer launch
       set_launchContribution set_buildContribution].
  rewrite Hnm, Hc, Hl, Hk.
  match goal with
  | |- context [Layer_Contribute ?l ?md ?f ?fl ?w] =>
      destruct (Layer_Contribute_reuse l md f fl w Hs1)
        as (Hd1 & He1 & Hh1 & _ & Hfr1 & tr1 & Hev1 & Hw1);
      destruct (Layer_Contribute l md f fl w) as [[[]|e1] wa];
      simpl fst in *; simpl snd in *
  end.
  2:{ split; [exact Hd1|]. split; [exact He1|]. split; [exact Hh1|].
      exists tr1. split; [exact Hev1|]. now apply Hwork. }
  assert (Hs2' : stored_metadata <$> stored wa
                   !! layers.LayerName (layers.Layer_of (build.Layers context) Cache)
                 = Some (mkMetadata CacheMetaName (hex.EncodeToString (sha256.Sum256 L)))).
  { rewrite Hfr1 by discriminate. exact Hs2. }
  match goal with
  | |- context [Layer_Contribute ?l ?md ?f ?fl ?w] =>
      destruct (Layer_Contribute_reuse l md f fl w Hs2')
        as (Hd2 & He2 & Hh2 & _ & _ & tr2 & Hev2 & Hw2);
      destruct (Layer_Contribute l md f fl w) as [[[]|e2] wb];
      simpl fst in *; simpl snd in *
  end.
  2:{ rewrite Hd2, He2, Hh2, Hev2, Hev1, <- app_assoc.
      split; [exact Hd1|]. split; [exact He1|]. split; [exact Hh1|].
      eexists. split; [reflexivity|]. apply Hwork.
      now rewrite only_app, Hw1, Hw2. }
  rewrite WriteApplicationMetadata_eq.
  destruct (faults wb ScWriteApplicationMetadata); simpl_world;
    rewrite Hd2, He2, Hh2, Hev2, Hev1, <- ?app_assoc;
    (split; [exact Hd1|]); (split; [exact He1|]); (split; [exact Hh1|]);
    (eexists; split; [reflexivity|]); apply Hwork;
    rewrite ?only_app, Hw1, Hw2; reflexivity.
Qed.

Lemma second_build_reuses_witness :
  exists c2 w2a,
    NewContributor (context_of ∅) npm afterFirstBuild = (Ok (Some c2), w2a)
    /\ disk (snd (Contribute c2 w2a)) = disk afterFirstBuild
    /\ exists tr,
         events (snd (Contribute c2 w2a)) = (events afterFirstBuild ++ tr)%list
         /\ only is_work tr = []
         /\ count is_Install tr = 0%nat
         /\ count is_Rebuild tr = 0%nat.
Proof.
  destruct (second_build_reuses (context_of ∅) npm npm lockBytes
              (world_of freshDisk) firstContributor (snd firstBuild)
              afterFirstBuild afterFirstBuild)
    as (c2 & w2a & Hnew2 & _ & _ & Hd & _ & _ & tr & Hev & Hw & Hi & Hr).
  - reflexivity.
  - reflexivity.
  - vm_compute. reflexivity.
  - vm_compute. reflexivity.
  - unfold firstBuild.
    apply (run_ok (NewContributor (context_of ∅) npm) (world_of freshDisk)).
    vm_compute. reflexivity.
  - unfold afterFirstBuild.
    apply (run_ok (Contribute firstContributor) (snd firstBuild)).
    vm_compute. reflexivity.
  - reflexivity.
  - exists c2, w2a. split; [exact Hnew2|]. split; [exact Hd|].
    exists tr. repeat split; assumption.
Defined.

Lemma web_process_registered_witness :
  appMetadata afterFirstBuild = Some {| layers.Processes := [webProcess] |}
  /\ layers.Type_ webProcess = "web"
  /\ layers.Command webProcess = "npm start"
  /\ exists tr,
       events afterFirstBuild = (events (snd firstBuild) ++ tr)%list
       /\ only is_registration tr =
            [EvWriteApplicationMetadata {| layers.Processes := [webProcess] |}]
       /\ last tr = Some (EvWriteApplicationMetadata {| layers.Processes := [webProcess] |}).
Proof.
  apply (web_process_registered firstContributor (snd firstBuild) afterFirstBuild).
  unfold afterFirstBuild.
  apply (run_ok (Contribute firstContributor) (snd firstBuild)).
  vm_compute. reflexivity.
Defined.

(** ** Runs of the small application *)

(** A first build installs, relocates, checks and exports, in that order. *)
Example first_build_trace :
  fst (contributeNodeModules (sample npm) (nodeModulesLayer (sample npm))
         (world_of freshDisk)) = Ok tt
  /\ events (snd (contributeNodeModules (sample npm) (nodeModulesLayer (sample npm))
                    (world_of freshDisk))) =
     [ EvInfo "It is recommended to vendor the application's Node.js dependencies";
       EvInfo "Installing node_modules";
       EvInstall ["layers"; "node_modules"] ["layers"; "cache"] ["workspace"] [] None;
       EvCopyDirectory ["workspace"; "node_modules"]
         ["layers"; "node_modules"; "node_modules"];
       EvRemoveAll ["workspace"; "node_modules"];
       EvSetenv "NODE_VERBOSE" "true";
       EvWarnUnmetDependencies ["workspace"] ["npm WARN unmet peer dependency"] None;
       EvSharedEnv (nodeModulesLayer (sample npm))
         (layers.Override "NODE_PATH" "/layers/node_modules/node_modules");
       EvSharedEnv (nodeModulesLayer (sample npm))
         (layers.AppendPath "PATH" "/layers/node_modules/node_modules/.bin") ].
Proof. split; vm_compute; reflexivity. Qed.

(** A diagnostic that cannot run fails the contribution, after the
    relocation and before the environment is exported. *)
Example diagnostic_error_is_fatal :
  fst (contributeNodeModules (sample broken_ls) (nodeModulesLayer (sample broken_ls))
         (world_of freshDisk)) =
    Err (errorString "failed to check unmet dependencies: exit status 127")
  /\ only is_move
       (events (snd (contributeNodeModules (sample broken_ls)
                       (nodeModulesLayer (sample broken_ls)) (world_of freshDisk)))) =
     [ EvCopyDirectory ["workspace"; "node_modules"]
         ["layers"; "node_modules"; "node_modules"];
       EvRemoveAll ["workspace"; "node_modules"] ]
  /\ sharedEnv (snd (contributeNodeModules (sample broken_ls)
                       (nodeModulesLayer (sample broken_ls)) (world_of freshDisk))) = [].
Proof. repeat split; vm_compute; reflexivity. Qed.

(** When [node_modules] is a regular file the listing fails and the
    package manager is not called at all. *)
Example listing_error_stops_the_contribution :
  fst (contributeNodeModules (sample npm) (nodeModulesLayer (sample npm))
         (world_of fileDisk)) =
    Err (PathError "readdirent" ["workspace"; "node_modules"] ENOTDIR)
  /\ events (snd (contributeNodeModules (sample npm) (nodeModulesLayer (sample npm))
                    (world_of fileDisk))) = [].
Proof. split; vm_compute; reflexivity. Qed.

(** The second build of the application only does the store's
    bookkeeping. *)
Example second_build_trace :
  added afterFirstBuild
    (snd ((c <- NewContributor (context_of ∅) npm ;;
           match c with Some c => Contribute c | None => ret tt end) afterFirstBuild)) =
  [ EvLayerContribute (layers.Layer_of {| layers.LayersRoot := layersRoot |} Dependency)
      (mkMetadata "Node Modules"
         "0229d37e33daae149bf40543a5ce1db4459d10f830d5139279aa2bfd5f6485a1")
      [layers.Cache];
    EvWriteMetadata (layers.Layer_of {| layers.LayersRoot := layersRoot |} Dependency)
      (mkMetadata "Node Modules"
         "0229d37e33daae149bf40543a5ce1db4459d10f830d5139279aa2bfd5f6485a1")
      [layers.Cache];
    EvLayerContribute (layers.Layer_of {| layers.LayersRoot := layersRoot |} Cache)
      (mkMetadata "NPM Cache"
         "0229d37e33daae149bf40543a5ce1db4459d10f830d5139279aa2bfd5f6485a1")
      [layers.Cache];
    EvWriteMetadata (layers.Layer_of {| layers.LayersRoot := layersRoot |} Cache)
      (mkMetadata "NPM Cache"
         "0229d37e33daae149bf40543a5ce1db4459d10f830d5139279aa2bfd5f6485a1")
      [layers.Cache];
    EvWriteApplicationMetadata {| layers.Processes := [webProcess] |} ].
Proof. vm_compute. reflexivity. Qed.

(** * Further properties of the package *)

(** Running a contribution function once, whatever the statement repeats. *)
Ltac run_once f :=
  match goal with
  | |- context [f ?c ?l ?w] =>
      let E := fresh "E" in
      destruct (f c l w) as [? ?] eqn:E; simpl fst; simpl snd;
      revert E; run; intros E; injection E as <- <-; simpl_world
  end.

(** ** NewContributor *)

(** X1.  Without a requirement for "node_modules" in the build plan,
    [NewContributor] takes no part in the build: it returns no contributor,
    reads neither the clock nor the disk and leaves the world as it is.  A
    plan that cannot be merged gives back the plan's own error. *)
Theorem not_participating context pm w :
  (forall plan,
     buildplan.GetShallowMerged (build.Plans context) Dependency <> buildplan.Wanted plan) ->
  snd (NewContributor context pm w) = w
  /\ (forall c, fst (NewContributor context pm w) <> Ok (Some c))
  /\ (buildplan.GetShallowMerged (build.Plans context) Dependency = buildplan.NotWanted ->
      fst (NewContributor context pm w) = Ok None)
  /\ (forall e,
        buildplan.GetShallowMerged (build.Plans context) Dependency = buildplan.MergeError e ->
        fst (NewContributor context pm w) = Err e).
Proof.
  intros Hno. unfold NewContributor.
  destruct (buildplan.GetShallowMerged (build.Plans context) Dependency) as [e| |plan].
  - repeat split; try discriminate. now intros e' [= ->].
  - repeat split; discriminate.
  - now destruct (Hno plan).
Qed.

Lemma not_participating_witness :
  snd (NewContributor
         {| build.Application := {| application.Root := appRoot |};
            build.Layers := {| layers.LayersRoot := layersRoot |};
            build.Plans := {| buildplan.GetShallowMerged := fun _ => buildplan.NotWanted |} |}
         npm (world_of freshDisk)) = world_of freshDisk
  /\ fst (NewContributor
         {| build.Application := {| application.Root := appRoot |};
            build.Layers := {| layers.LayersRoot := layersRoot |};
            build.Plans := {| buildplan.GetShallowMerged := fun _ => buildplan.NotWanted |} |}
         npm (world_of freshDisk)) = Ok None.
Proof.
  destruct (not_participating
              {| build.Application := {| application.Root := appRoot |};
                 build.Layers := {| layers.LayersRoot := layersRoot |};
                 build.Plans := {| buildplan.GetShallowMerged := fun _ => buildplan.NotWanted |} |}
              npm (world_of freshDisk)) as (H1 & _ & H2 & _).
  - intros plan. discriminate.
  - split; [exact H1 | apply H2; reflexivity].
Defined.

(** The fields [setLayersMetadata] does not set stay as they were. *)
Lemma setLayersMetadata_keeps c w c' w' :
  setLayersMetadata c w = (Ok c', w') ->
  pkgManager c' = pkgManager c /\ app c' = app c
  /\ nodeModulesLayer c' = nodeModulesLayer c
  /\ npmCacheLayer c' = npmCacheLayer c /\ launch c' = launch c
  /\ buildContribution c' = buildContribution c
  /\ launchContribution c' = launchContribution c
  /\ events w' = events w /\ disk w' = disk w /\ stored w' = stored w.
Proof.
  unfold setLayersMetadata, bind, time.Now_UnixNano, ask, ret.
  cbn [app set_NPMCacheMetadata set_NodeModulesMetadata].
  rewrite !FileExists_ticks.
  destruct (helper.FileExists _ w) as [[|]|e]; [| |discriminate].
  - rewrite !ReadFile_ticks. destruct (ioutil.ReadFile _ w); [|discriminate].
    intros [= <- <-]. repeat split.
  - intros [= <- <-]. repeat split.
Qed.

(** X2.  A lock file that can be seen but not read, or that cannot even be
    looked for, is fatal: [NewContributor] returns the error of the failed
    call as it is, and no contributor. *)
Theorem unreadable_lock_file_is_fatal context pm plan w e :
  buildplan.GetShallowMerged (build.Plans context) Dependency = buildplan.Wanted plan ->
  helper.FileExists (lockPath (blank context pm)) w = Err e
  \/ (helper.FileExists (lockPath (blank context pm)) w = Ok true
      /\ ioutil.ReadFile (lockPath (blank context pm)) w = Err e) ->
  fst (NewContributor context pm w) = Err e
  /\ fst (setLayersMetadata (blank context pm) w) = Err e.
Proof.
  intros Hplan Hlock.
  assert (H : fst (setLayersMetadata (blank context pm) w) = Err e).
  { unfold lockPath in Hlock.
    unfold setLayersMetadata, bind, time.Now_UnixNano, ask, ret.
    cbn [app set_NPMCacheMetadata set_NodeModulesMetadata].
    rewrite !FileExists_ticks.
    destruct Hlock as [HE | [HE HR]]; rewrite HE; [reflexivity|].
    rewrite !ReadFile_ticks, HR. reflexivity. }
  split; [|exact H].
  rewrite (NewContributor_wanted _ _ _ _ Hplan). unfold bind.
  destruct (setLayersMetadata (blank context pm) w) as [[c'|e'] w']; simpl in *;
    congruence.
Qed.

Lemma unreadable_lock_file_is_fatal_witness :
  fst (NewContributor (context_of ∅) npm (world_of lockDirDisk)) =
    Err (PathError "read" ["workspace"; "package-lock.json"] EISDIR)
  /\ fst (setLayersMetadata (blank (context_of ∅) npm) (world_of lockDirDisk)) =
    Err (PathError "read" ["workspace"; "package-lock.json"] EISDIR).
Proof.
  apply (unreadable_lock_file_is_fatal (context_of ∅) npm (plan_of ∅)
           (world_of lockDirDisk)).
  - reflexivity.
  - right. split; reflexivity.
Defined.

(** X3.  Boolean "build" and "launch" entries of the plan's metadata are
    taken as they are: the contributor [NewContributor] returns carries
    them as its intents, its flags are [Cache] followed by [Build] and
    [Launch] for the entries that are true, and it is wired to the given
    package manager, the application, and the layers "node_modules" and
    "cache" of the build. *)
Theorem boolean_intents_become_flags context pm plan w c w' b1 b2 :
  buildplan.GetShallowMerged (build.Plans context) Dependency = buildplan.Wanted plan ->
  buildplan.Metadata plan !! "build" = Some (buildplan.VBool b1) ->
  buildplan.Metadata plan !! "launch" = Some (buildplan.VBool b2) ->
  NewContributor context pm w = (Ok (Some c), w') ->
  buildContribution c = b1 /\ launchContribution c = b2
  /\ flags c = (layers.Cache :: (if b1 then [layers.Build] else [])
                  ++ (if b2 then [layers.Launch] else []))%list
  /\ pkgManager c = pm /\ app c = build.Application context
  /\ nodeModulesLayer c =
       {| layers.Root := filepath.Join (layers.LayersRoot (build.Layers context)) "node_modules";
          layers.LayerName := "node_modules" |}
  /\ npmCacheLayer c =
       {| layers.Root := filepath.Join (layers.LayersRoot (build.Layers context)) "cache";
          layers.LayerName := "cache" |}
  /\ launch c = build.Layers context.
Proof.
  intros Hplan Hb Hl. rewrite (NewContributor_wanted _ _ _ _ Hplan). unfold bind.
  destruct (setLayersMetadata (blank context pm) w) as [[c'|e'] w1] eqn:Hrun;
    [|discriminate].
  destruct (setLayersMetadata_keeps _ _ _ _ Hrun)
    as (Hpm & Happ & Hnm & Hca & Hla & _).
  unfold ret. intros [= <- <-].
  assert (E1 : buildContribution (intents plan c') = b1).
  { unfold intents. cbn [buildContribution set_launchContribution set_buildContribution].
    now rewrite Hb. }
  assert (E2 : launchContribution (intents plan c') = b2).
  { unfold intents. cbn [launchContribution set_launchContribution]. now rewrite Hl. }
  split; [exact E1|]. split; [exact E2|].
  split; [now rewrite flags_spec, E1, E2|].
  unfold intents.
  cbn [pkgManager app nodeModulesLayer npmCacheLayer launch
       set_launchContribution set_buildContribution].
  rewrite Hpm, Happ, Hnm, Hca, Hla. repeat split.
Qed.

Lemma boolean_intents_become_flags_witness :
  exists c w',
    NewContributor
      (context_of {[ "build" := buildplan.VBool true; "launch" := buildplan.VBool true ]})
      npm (world_of freshDisk) = (Ok (Some c), w')
    /\ flags c = [layers.Cache; layers.Build; layers.Launch].
Proof.
  pose (ctx := context_of
                 {[ "build" := buildplan.VBool true; "launch" := buildplan.VBool true ]}).
  exists (match fst (NewContributor ctx npm (world_of freshDisk)) with
          | Ok (Some c) => c | _ => sample npm end),
         (snd (NewContributor ctx npm (world_of freshDisk))).
  assert (Hrun : NewContributor ctx npm (world_of freshDisk) =
                 (Ok (Some (match fst (NewContributor ctx npm (world_of freshDisk)) with
                            | Ok (Some c) => c | _ => sample npm end)),
                  snd (NewContributor ctx npm (world_of freshDisk)))).
  { apply (run_ok (NewContributor ctx npm) (world_of freshDisk)).
    vm_compute. reflexivity. }
  split; [exact Hrun|].
  destruct (boolean_intents_become_flags ctx npm
              (plan_of {[ "build" := buildplan.VBool true; "launch" := buildplan.VBool true ]})
              (world_of freshDisk) _ _ true true eq_refl eq_refl eq_refl Hrun)
    as (_ & _ & Hf & _).
  exact Hf.
Defined.

(** ** hasSubdirs and the vendoring tip *)

Lemma existsb_is_dir es :
  existsb snd (map (fun e : string * Node => (fst e, is_dir (snd e))) es) = true
  <-> exists x sub, In (x, Dir sub) es.
Proof.
  induction es as [|[n c] es IH]; simpl.
  - split; [discriminate | intros (x & sub & [])].
  - rewrite orb_true_iff, IH. split.
    + intros [H | (x & sub & H)].
      * destruct c as [data|sub]; [discriminate|]. exists n, sub. now left.
      * exists x, sub. now right.
    + intros (x & sub & [H | H]).
      * injection H as -> ->. now left.
      * right. now exists x, sub.
Qed.

(** X4.  [hasSubdirs] answers true exactly when the path is a directory
    with a directory among its entries; a directory with files only, or an
    empty one, gives false; a path that does not exist gives false and no
    error; a regular file at the path is an error. *)
Theorem hasSubdirs_on_the_tree p w :
  faults w (ScReadDir p) = None ->
  (hasSubdirs p w = Ok true <->
   exists es x sub, walk p (disk w) = Found (Dir es) /\ In (x, Dir sub) es)
  /\ (forall es, walk p (disk w) = Found (Dir es) ->
        (forall x sub, ~ In (x, Dir sub) es) -> hasSubdirs p w = Ok false)
  /\ (walk p (disk w) = Missing -> hasSubdirs p w = Ok false)
  /\ (forall data, walk p (disk w) = Found (File data) ->
        hasSubdirs p w = Err (PathError "readdirent" p ENOTDIR)).
Proof.
  intros Hf. unfold hasSubdirs, ioutil.ReadDir. rewrite Hf.
  destruct (walk p (disk w)) as [[data|es]| |]; simpl.
  - split; [split; [discriminate | intros (es & x & sub & H & _); discriminate]|].
    split; [discriminate|]. split; [discriminate|]. reflexivity.
  - split; [|split; [|split; discriminate]].
    + split.
      * intros [= H]. apply existsb_is_dir in H. destruct H as (x & sub & H).
        now exists es, x, sub.
      * intros (es' & x & sub & [= <-] & H). f_equal. apply existsb_is_dir.
        now exists x, sub.
    + intros es' [= <-] Hno. f_equal.
      destruct (existsb snd _) eqn:E; [|reflexivity].
      apply existsb_is_dir in E. destruct E as (x & sub & H). now destruct (Hno x sub).
  - split; [split; [discriminate | intros (es & x & sub & H & _); discriminate]|].
    split; [discriminate|]. split; [reflexivity | discriminate].
  - split; [split; [discriminate | intros (es & x & sub & H & _); discriminate]|].
    split; [discriminate|]. split; discriminate.
Qed.

Lemma hasSubdirs_on_the_tree_witness :
  hasSubdirs ["workspace"; "node_modules"] (world_of vendoredDisk) = Ok true
  /\ hasSubdirs ["workspace"; "node_modules"] (world_of flatDisk) = Ok false
  /\ hasSubdirs ["workspace"; "node_modules"] (world_of freshDisk) = Ok false
  /\ hasSubdirs ["workspace"; "node_modules"] (world_of fileDisk) =
       Err (PathError "readdirent" ["workspace"; "node_modules"] ENOTDIR).
Proof.
  destruct (hasSubdirs_on_the_tree ["workspace"; "node_modules"] (world_of vendoredDisk)
              eq_refl) as (H1 & _).
  destruct (hasSubdirs_on_the_tree ["workspace"; "node_modules"] (world_of flatDisk)
              eq_refl) as (_ & H2 & _).
  destruct (hasSubdirs_on_the_tree ["workspace"; "node_modules"] (world_of freshDisk)
              eq_refl) as (_ & _ & H3 & _).
  destruct (hasSubdirs_on_the_tree ["workspace"; "node_modules"] (world_of fileDisk)
              eq_refl) as (_ & _ & _ & H4).
  split; [|split; [|split]].
  - apply H1. eexists _, "left-pad", _. split; [reflexivity|]. left. reflexivity.
  - apply (H2 [(".yarn-integrity", File [])]); [reflexivity|].
    intros x sub [H|[]]. discriminate H.
  - apply H3. reflexivity.
  - apply (H4 []). reflexivity.
Defined.

(** A nested directory is found only in a directory that exists. *)
Lemma hasSubdirs_true_exists p w :
  hasSubdirs p w = Ok true -> faults w (ScStat p) = None ->
  helper.FileExists p w = Ok true.
Proof.
  unfold hasSubdirs, ioutil.ReadDir, helper.FileExists, os.Stat. intros H Hf. rewrite Hf.
  destruct (faults w (ScReadDir p)); [discriminate|].
  destruct (walk p (disk w)) as [[data|es]| |]; try discriminate. reflexivity.
Qed.

(** ** The stale contribution, branch by branch *)

(** X5.  The vendoring advisory is logged at most once, as the first thing
    the contribution does, exactly when the listing of [node_modules] finds
    no nested directory (the directory may be missing altogether); it never
    makes the contribution fail. *)
Theorem vendoring_tip c layer w s :
  hasSubdirs (nodeModulesPath c) w = Ok s ->
  exists tr,
    events (snd (contributeNodeModules c layer w)) = (events w ++ tr)%list
    /\ count is_tip tr = (if s then 0 else 1)%nat
    /\ (s = false -> exists rest, tr = EvInfo vendoringTip :: rest)
    /\ fst (tipVendorDependencies c (nodeModulesPath c) w) = Ok tt.
Proof.
  unfold nodeModulesPath. intros Hs.
  assert (Htip : fst (tipVendorDependencies c
                        (filepath.Join (application.Root (app c)) ModulesDir) w) = Ok tt).
  { unfold tipVendorDependencies, bind, ask, ret, Logger_Info, log. rewrite Hs.
    now destruct s. }
  unfold contributeNodeModules, tipVendorDependencies, bind, wrap, ask, ret,
    Logger_Info, log.
  rewrite Hs. destruct s; simpl_world.
  all: repeat run_step.
  all: trace; split; [reflexivity|]; split; [|first [exact Htip | reflexivity]].
  all: first [discriminate | intros _; eexists; reflexivity].
Qed.

Lemma vendoring_tip_witness :
  exists tr,
    events (snd (contributeNodeModules (sample idle) (nodeModulesLayer (sample idle))
                   (world_of flatDisk))) = ([] ++ tr)%list
    /\ count is_tip tr = 1%nat
    /\ (false = false -> exists rest, tr = EvInfo vendoringTip :: rest)
    /\ fst (tipVendorDependencies (sample idle) (nodeModulesPath (sample idle))
              (world_of flatDisk)) = Ok tt.
Proof.
  apply (vendoring_tip (sample idle) (nodeModulesLayer (sample idle))
           (world_of flatDisk) false).
  reflexivity.
Defined.

(** X6.  An application whose [node_modules] holds a nested directory is
    rebuilt: as soon as the stat does not fail for an outside reason, the
    contribution calls [Rebuild] exactly once and never [Install], and logs
    no vendoring advisory. *)
Theorem nested_directory_is_rebuilt c layer w :
  hasSubdirs (nodeModulesPath c) w = Ok true ->
  faults w (ScStat (nodeModulesPath c)) = None ->
  exists tr,
    events (snd (contributeNodeModules c layer w)) = (events w ++ tr)%list
    /\ count is_Rebuild tr = 1%nat
    /\ count is_Install tr = 0%nat
    /\ count is_tip tr = 0%nat.
Proof.
  intros Hs Hf. assert (Hv := hasSubdirs_true_exists _ _ Hs Hf).
  unfold nodeModulesPath in *.
  unfold contributeNodeModules, tipVendorDependencies, bind, wrap, ask, ret,
    Logger_Info, log.
  rewrite Hs. simpl_world. rewrite Hv.
  repeat run_step.
  all: trace; repeat split; reflexivity.
Qed.

Lemma nested_directory_is_rebuilt_witness :
  exists tr,
    events (snd (contributeNodeModules (sample npm) (nodeModulesLayer (sample npm))
                   (world_of vendoredDisk))) = ([] ++ tr)%list
    /\ count is_Rebuild tr = 1%nat
    /\ count is_Install tr = 0%nat
    /\ count is_tip tr = 0%nat.
Proof.
  apply (nested_directory_is_rebuilt (sample npm) (nodeModulesLayer (sample npm))
           (world_of vendoredDisk)); reflexivity.
Defined.

(** X7.  A failure of the listing or of the stat of [node_modules] ends
    the contribution before the package manager is called: the listing's
    error is returned as it is and nothing has happened; the stat's error is
    returned under "unable to stat node_modules: " and at most the
    advisory has been logged. *)
Theorem probe_failure_stops_before_the_package_manager c layer w e :
  (hasSubdirs (nodeModulesPath c) w = Err e ->
   contributeNodeModules c layer w = (Err e, w))
  /\ (forall s, hasSubdirs (nodeModulesPath c) w = Ok s ->
      helper.FileExists (nodeModulesPath c) w = Err e ->
      fst (contributeNodeModules c layer w) =
        Err (errorString ("unable to stat node_modules: " +:+ Error e))
      /\ events (snd (contributeNodeModules c layer w)) =
           (events w ++ (if s then [] else [EvInfo vendoringTip]))%list
      /\ disk (snd (contributeNodeModules c layer w)) = disk w).
Proof.
  unfold nodeModulesPath. split.
  - intros Hs.
    unfold contributeNodeModules, tipVendorDependencies, bind, ask.
    now rewrite Hs.
  - intros s Hs Hv.
    unfold contributeNodeModules, tipVendorDependencies, bind, wrap, ask, ret,
      Logger_Info, log.
    rewrite Hs. destruct s; simpl_world; rewrite Hv; simpl_world.
    + repeat split. symmetry. apply app_nil_r.
    + repeat split.
Qed.

Lemma probe_failure_stops_before_the_package_manager_witness :
  contributeNodeModules (sample npm) (nodeModulesLayer (sample npm)) (world_of fileDisk) =
  (Err (PathError "readdirent" ["workspace"; "node_modules"] ENOTDIR), world_of fileDisk).
Proof.
  destruct (probe_failure_stops_before_the_package_manager
              (sample npm) (nodeModulesLayer (sample npm)) (world_of fileDisk)
              (PathError "readdirent" ["workspace"; "node_modules"] ENOTDIR)) as [H _].
  apply H. reflexivity.
Defined.

(** X8.  When both probes succeed the package manager is called exactly
    once, before anything else changes: [Rebuild(cache layer root, app
    root)] if [node_modules] exists, [Install(layer root, cache layer root,
    app root)] if not, on the disk and the environment as the build found
    them. *)
Theorem package_manager_call c layer w s v :
  hasSubdirs (nodeModulesPath c) w = Ok s ->
  helper.FileExists (nodeModulesPath c) w = Ok v ->
  exists tr,
    events (snd (contributeNodeModules c layer w)) = (events w ++ tr)%list
    /\ only is_build tr =
         [ if v
           then EvRebuild (layers.Root (npmCacheLayer c)) (application.Root (app c))
                  (out_lines (attempt c layer w)) (out_err (attempt c layer w))
           else EvInstall (layers.Root layer) (layers.Root (npmCacheLayer c))
                  (application.Root (app c))
                  (out_lines (attempt c layer w)) (out_err (attempt c layer w)) ]
    /\ attempt c layer w =
         (if v
          then Rebuild (pkgManager c) (layers.Root (npmCacheLayer c))
                 (application.Root (app c)) (environ w) (disk w)
          else Install (pkgManager c) (layers.Root layer) (layers.Root (npmCacheLayer c))
                 (application.Root (app c)) (environ w) (disk w))
    /\ exists before after,
         tr = (before ++ after)%list
         /\ only is_build after = only is_build tr
         /\ only is_move before = [] /\ only is_Setenv before = []
         /\ only is_SharedEnv before = [] /\ only is_Warn before = []
         /\ only is_build before = []
         /\ (exists ev rest, after = ev :: rest /\ is_build ev = true).
Proof.
  unfold attempt, nodeModulesPath. intros Hs Hv. rewrite Hv.
  unfold contributeNodeModules, tipVendorDependencies, bind, wrap, ask, ret,
    Logger_Info, log.
  rewrite Hs.
  destruct s; simpl_world; rewrite Hv; destruct v.
  all: repeat run_step.
  all: trace; (split; [reflexivity|]); (split; [reflexivity|]).
  all: first
    [ exists [EvInfo "Rebuilding node_modules"]; eexists;
      split; [reflexivity|]; repeat split; eexists _, _; split; reflexivity
    | exists [EvInfo "Installing node_modules"]; eexists;
      split; [reflexivity|]; repeat split; eexists _, _; split; reflexivity
    | exists [EvInfo vendoringTip; EvInfo "Rebuilding node_modules"]; eexists;
      split; [reflexivity|]; repeat split; eexists _, _; split; reflexivity
    | exists [EvInfo vendoringTip; EvInfo "Installing node_modules"]; eexists;
      split; [reflexivity|]; repeat split; eexists _, _; split; reflexivity ].
Qed.

Lemma package_manager_call_witness :
  exists tr,
    events (snd (contributeNodeModules (sample npm) (nodeModulesLayer (sample npm))
                   (world_of freshDisk))) = ([] ++ tr)%list
    /\ only is_build tr =
         [ EvInstall ["layers"; "node_modules"] ["layers"; "cache"] ["workspace"] [] None ].
Proof.
  destruct (package_manager_call (sample npm) (nodeModulesLayer (sample npm))
              (world_of freshDisk) false false eq_refl eq_refl)
    as (tr & Hev & Hb & _).
  exists tr. split; [exact Hev | exact Hb].
Defined.

(** X9.  A failing [Install] or [Rebuild] is fatal and is the last thing
    that happens: its error comes back under "unable to install
    node_modules: " or "unable to rebuild node_modules: ", nothing is
    relocated, the diagnostic is not run, no variable is set or exported,
    and the disk is left as the package manager left it. *)
Theorem package_manager_failure_is_fatal c layer w s v e :
  hasSubdirs (nodeModulesPath c) w = Ok s ->
  helper.FileExists (nodeModulesPath c) w = Ok v ->
  out_err (attempt c layer w) = Some e ->
  fst (contributeNodeModules c layer w) =
    Err (errorString ((if v then "unable to rebuild node_modules: "
                       else "unable to install node_modules: ") +:+ Error e))
  /\ disk (snd (contributeNodeModules c layer w)) = out_disk (attempt c layer w)
  /\ environ (snd (contributeNodeModules c layer w)) = environ w
  /\ sharedEnv (snd (contributeNodeModules c layer w)) = sharedEnv w
  /\ exists tr,
       events (snd (contributeNodeModules c layer w)) = (events w ++ tr)%list
       /\ last tr = Some (attempt_event c layer w)
       /\ only is_move tr = [] /\ only is_Warn tr = []
       /\ only is_Setenv tr = [] /\ only is_SharedEnv tr = [].
Proof.
  unfold attempt_event, attempt, nodeModulesPath. intros Hs Hv. rewrite Hv.
  unfold contributeNodeModules, tipVendorDependencies, bind, wrap, ask, ret,
    Logger_Info, log.
  rewrite Hs.
  destruct s; simpl_world; rewrite Hv; destruct v; intros He.
  all: first [rewrite call_Rebuild_eq | rewrite call_Install_eq];
    cbv zeta; simpl_world; rewrite He; simpl_world.
  all: repeat split; trace; repeat split.
Qed.

Lemma package_manager_failure_is_fatal_witness :
  fst (contributeNodeModules (sample failing) (nodeModulesLayer (sample failing))
         (world_of freshDisk)) =
    Err (errorString "unable to install node_modules: exit status 1")
  /\ disk (snd (contributeNodeModules (sample failing) (nodeModulesLayer (sample failing))
                  (world_of freshDisk))) = freshDisk.
Proof.
  destruct (package_manager_failure_is_fatal (sample failing)
              (nodeModulesLayer (sample failing)) (world_of freshDisk) false false
              (errorString "exit status 1") eq_refl eq_refl eq_refl)
    as (H1 & H2 & _).
  split; [exact H1 | exact H2].
Defined.

(** X10.  The diagnostic is run with NODE_VERBOSE set to "true" in the
    process environment, on the tree as the relocation left it; the
    variable is set at most once and stays set afterwards, whatever the
    diagnostic and the exports do.  A run that stops earlier leaves the
    environment as it was. *)
Theorem diagnostic_runs_verbose c layer w :
  exists tr,
    events (snd (contributeNodeModules c layer w)) = (events w ++ tr)%list
    /\ ((only is_Setenv tr = [] /\ only is_Warn tr = []
         /\ environ (snd (contributeNodeModules c layer w)) = environ w)
        \/ (only is_Setenv tr = [EvSetenv "NODE_VERBOSE" "true"]
            /\ environ (snd (contributeNodeModules c layer w)) =
                 <["NODE_VERBOSE" := "true"]> (environ w)
            /\ only is_Setenv (after_warn tr) = []
            /\ exists d,
                 only is_Warn tr =
                   [EvWarnUnmetDependencies (application.Root (app c))
                      (out_lines (WarnUnmetDependencies (pkgManager c)
                                    (application.Root (app c))
                                    (<["NODE_VERBOSE" := "true"]> (environ w)) d))
                      (out_err (WarnUnmetDependencies (pkgManager c)
                                  (application.Root (app c))
                                  (<["NODE_VERBOSE" := "true"]> (environ w)) d))]
                 /\ present (nodeModulesPath c) d = false)).
Proof.
  unfold nodeModulesPath. run_once contributeNodeModules.
  all: trace.
  all: first
    [ left; repeat split; reflexivity
    | right; split; [reflexivity|]; split; [reflexivity|]; split; [reflexivity|];
      eexists;
      split;
      [ simpl;
        match goal with
        | H : out_err (WarnUnmetDependencies _ _ _ _) = _ |- _ => rewrite <- H
        end; reflexivity
      | first [ apply present_prune_self, Join_not_nil
              | match goal with
                | H : helper.FileExists _ _ = Ok false |- _ =>
                    exact (FileExists_false _ _ H)
                end ] ] ].
Qed.

(** X11.  A contribution that succeeds has exported exactly two entries
    for the layer, in this order: the override of NODE_PATH with the
    layer's [node_modules] directory, and the extension of PATH with its
    [.bin] directory.  A contribution that fails has exported nothing, or
    the override alone when the extension of PATH failed. *)
Theorem environment_exported c layer w :
  let nodePath := (layers.LayerName layer,
                   layers.Override "NODE_PATH"
                     (filepath.show (filepath.Join (layers.Root layer) ModulesDir))) in
  let binPath := (layers.LayerName layer,
                  layers.AppendPath "PATH"
                    (filepath.show
                       (filepath.Join (filepath.Join (layers.Root layer) ModulesDir) ".bin"))) in
  (fst (contributeNodeModules c layer w) = Ok tt ->
   sharedEnv (snd (contributeNodeModules c layer w)) =
     (sharedEnv w ++ [nodePath; binPath])%list)
  /\ (fst (contributeNodeModules c layer w) <> Ok tt ->
      sharedEnv (snd (contributeNodeModules c layer w)) = sharedEnv w
      \/ (sharedEnv (snd (contributeNodeModules c layer w)) = (sharedEnv w ++ [nodePath])%list
          /\ exists f, faults w (ScSharedEnv (layers.LayerName layer) "PATH") = Some f
               /\ fst (contributeNodeModules c layer w) =
                    Err (failure (ScSharedEnv (layers.LayerName layer) "PATH") f))).
Proof.
  cbv zeta. run_once contributeNodeModules.
  all: split; [intros H; try discriminate H; rewrite <- ?app_assoc; reflexivity|].
  all: intros H; try (now destruct H).
  all: first [ left; reflexivity
             | right; split; [reflexivity|]; eexists; split; reflexivity ].
Qed.

(** X12.  [node_modules] is removed from the application only after it has
    been copied into the layer: the calls by which the contribution itself
    changes the tree, and that go through, are none, the copy alone, or the
    copy followed by the removal.
    The copy alone means the removal failed, and then the contribution
    returns that failure under "unable to remove node_modules from the app
    dir: " without running the diagnostic. *)
Theorem removal_only_after_copy c layer w :
  exists tr,
    events (snd (contributeNodeModules c layer w)) = (events w ++ tr)%list
    /\ (only is_move tr = []
        \/ (only is_move tr =
              [EvCopyDirectory (nodeModulesPath c)
                 (filepath.Join (layers.Root layer) ModulesDir)]
            /\ only is_Warn tr = []
            /\ exists e,
                 fst (contributeNodeModules c layer w) =
                 Err (errorString
                        ("unable to remove node_modules from the app dir: " +:+ Error e)))
        \/ only is_move tr =
             [EvCopyDirectory (nodeModulesPath c)
                (filepath.Join (layers.Root layer) ModulesDir);
              EvRemoveAll (nodeModulesPath c)]).
Proof.
  unfold nodeModulesPath. run_once contributeNodeModules.
  all: trace.
  all: first
    [ left; reflexivity
    | right; left; split; [reflexivity|]; split; [reflexivity|]; eexists; reflexivity
    | right; right; reflexivity ].
Qed.

Lemma interrupted_keeps_file src dst w p v :
  ~ dst `prefix_of` p ->
  walk p (disk w) = Found (File v) -> walk p (interrupted src dst w) = Found (File v).
Proof.
  unfold interrupted. destruct (faults w _); [trivial|]. apply copied_keeps_file.
Qed.

(** X13.  For a layer and an application of which neither [node_modules]
    lies inside the other: when [node_modules] is there after the package
    manager has run and copying it into the layer fails, the contribution
    stops with "unable to copy <node_modules> to <layer root>: <error>"
    (both paths between double quotes, the second being the layer root):
    the removal is not attempted, so the application still has its
    [node_modules] with every regular file in it; neither the diagnostic
    nor the exports take place.  The layer may hold the files that were
    written before the failure. *)
Theorem copy_failure_keeps_node_modules c layer w s v e :
  ~ nodeModulesPath c `prefix_of` filepath.Join (layers.Root layer) ModulesDir ->
  ~ filepath.Join (layers.Root layer) ModulesDir `prefix_of` nodeModulesPath c ->
  hasSubdirs (nodeModulesPath c) w = Ok s ->
  helper.FileExists (nodeModulesPath c) w = Ok v ->
  out_err (attempt c layer w) = None ->
  helper.FileExists (nodeModulesPath c) (set_disk (built c layer w) w) = Ok true ->
  fails (helper.CopyDirectory (nodeModulesPath c)
           (filepath.Join (layers.Root layer) ModulesDir))
    (set_disk (built c layer w) w) = Some e ->
  fst (contributeNodeModules c layer w) =
    Err (Errorf
           ("unable to copy " +:+ dq +:+ filepath.show (nodeModulesPath c) +:+ dq
            +:+ " to " +:+ dq +:+ filepath.show (layers.Root layer) +:+ dq +:+ ": ")
           e)
  /\ present (nodeModulesPath c) (disk (snd (contributeNodeModules c layer w))) = true
  /\ (forall q data,
        walk (nodeModulesPath c ++ q)%list (built c layer w) = Found (File data) ->
        walk (nodeModulesPath c ++ q)%list (disk (snd (contributeNodeModules c layer w)))
          = Found (File data))
  /\ sharedEnv (snd (contributeNodeModules c layer w)) = sharedEnv w
  /\ environ (snd (contributeNodeModules c layer w)) = environ w
  /\ exists tr,
       events (snd (contributeNodeModules c layer w)) = (events w ++ tr)%list
       /\ only is_move tr = [] /\ only is_Warn tr = [].
Proof.
  unfold built, attempt, nodeModulesPath. intros Hpre1 Hpre2 Hs Hv. rewrite Hv.
  unfold contributeNodeModules, tipVendorDependencies, bind, wrap, ask, ret,
    Logger_Info, log.
  rewrite Hs.
  destruct s; simpl_world; rewrite Hv; destruct v; intros Ho Hb Hc.
  all: first [rewrite call_Rebuild_eq | rewrite call_Install_eq];
    cbv zeta; simpl_world; rewrite Ho; simpl_world; rewrite Hb; simpl_world.
  all: rewrite CopyDirectory_eq;
    match goal with
    | |- context [fails ?m ?w1] =>
        replace (fails m w1) with (Some e)
          by (rewrite <- Hc; apply CopyDirectory_fails_same; reflexivity)
    end; simpl_world.
  all: split; [reflexivity|].
  all: split; [apply interrupted_keeps_present; exact (FileExists_true _ _ Hb)|].
  all: split;
    [ intros q data Hw; apply interrupted_keeps_file;
      [exact (apart_below _ _ _ Hpre2 Hpre1) | exact Hw]|].
  all: split; [reflexivity|]; split; [reflexivity|]; trace; split; reflexivity.
Qed.

Lemma copy_failure_keeps_node_modules_witness :
  fst (contributeNodeModules (sample idle) (nodeModulesLayer (sample idle))
         (world_of blockedDisk)) =
    Err (errorString
           ("unable to copy " +:+ dq +:+ "/workspace/node_modules" +:+ dq
            +:+ " to " +:+ dq +:+ "/layers/node_modules" +:+ dq
            +:+ ": mkdir /layers/node_modules: not a directory"))
  /\ present ["workspace"; "node_modules"]
       (disk (snd (contributeNodeModules (sample idle) (nodeModulesLayer (sample idle))
                     (world_of blockedDisk)))) = true.
Proof.
  destruct (copy_failure_keeps_node_modules (sample idle) (nodeModulesLayer (sample idle))
              (world_of blockedDisk) true true
              (PathError "mkdir" ["layers"; "node_modules"] ENOTDIR))
    as (H1 & H2 & _); try reflexivity.
  - intros [k Hk]. vm_compute in Hk. discriminate Hk.
  - intros [k Hk]. vm_compute in Hk. discriminate Hk.
  - split; [exact H1 | exact H2].
Defined.

(** ** The cache layer *)

Lemma present_nil_dir p : p <> [] -> present p (Dir []) = false.
Proof. destruct p; [contradiction | reflexivity]. Qed.

(** What exists has its parents. *)
Lemma present_prefix (p q : path) n : present (p ++ q)%list n = true -> present p n = true.
Proof.
  revert n. induction p as [|x p IH]; intros n H; [reflexivity|].
  destruct n as [data|es]; [discriminate H|].
  change ((x :: p) ++ q)%list with (x :: (p ++ q)%list) in H.
  rewrite present_cons in H. rewrite present_cons.
  destruct (find x es); [exact (IH _ H) | discriminate H].
Qed.

(** Making a directory changes nothing outside the path made. *)
Lemma present_mkdir_other q p n d :
  graft q [] n = Some d -> ~ p `prefix_of` q -> present p d = present p n.
Proof.
  revert p n d. induction q as [|x rest IH]; intros p n d Hg Hp.
  - destruct n as [data|ds]; [discriminate Hg|]. injection Hg as <-. reflexivity.
  - destruct n as [data|ds]; [discriminate Hg|].
    simpl in Hg. destruct (graft rest [] _) as [c|] eqn:Hc; [|discriminate Hg].
    injection Hg as <-.
    destruct p as [|y p']; [destruct Hp; apply prefix_nil|].
    rewrite !present_cons.
    destruct (decide (x = y)) as [E|E].
    + subst y. rewrite find_put_same.
      assert (Hp' : ~ p' `prefix_of` rest).
      { intros [k Hk]. apply Hp. exists k. rewrite Hk. reflexivity. }
      rewrite (IH _ _ _ Hc Hp').
      destruct (find x ds); [reflexivity|]. simpl.
      apply present_nil_dir. intros ->. apply Hp'. apply prefix_nil.
    + rewrite (find_put_other _ _ _ _ E). reflexivity.
Qed.

Lemma MkdirAll_present p w :
  fails (os.MkdirAll p) w = None ->
  present p (default (disk w) (graft p [] (disk w))) = true
  /\ (forall q, ~ q `prefix_of` p ->
        present q (default (disk w) (graft p [] (disk w))) = present q (disk w))
  /\ (forall q v, walk q (disk w) = Found (File v) ->
        walk q (default (disk w) (graft p [] (disk w))) = Found (File v)).
Proof.
  unfold fails, os.MkdirAll, syscall.
  destruct (faults w (ScMkdirAll p)); [discriminate|].
  destruct (graft p [] (disk w)) as [d|] eqn:Hg; [|discriminate].
  intros _. split; [exact (graft_present _ _ _ _ Hg)|]. split.
  - intros q Hq. exact (present_mkdir_other _ _ _ _ Hg Hq).
  - intros q v. exact (mkdir_keeps_file _ _ _ _ _ Hg).
Qed.

(** X14.  After a successful contribution of the cache layer, when neither
    [npm-cache] of the application nor [npm-cache] of the layer lies inside
    the other: the layer root exists, the application root no longer
    contains [npm-cache], every regular file the application shipped under
    its [npm-cache] is found with the same bytes at the same place under
    [npm-cache] of the layer root, and for an application without an
    [npm-cache] the layer directory is all that was made. *)
Theorem cache_relocation c layer w w' :
  let npmCache := filepath.Join (application.Root (app c)) CacheDir in
  let target := filepath.Join (layers.Root layer) CacheDir in
  ~ npmCache `prefix_of` target ->
  ~ target `prefix_of` npmCache ->
  contributeNPMCache c layer w = (Ok tt, w') ->
  present (layers.Root layer) (disk w') = true
  /\ present npmCache (disk w') = false
  /\ (forall q data,
        walk (npmCache ++ q)%list (disk w) = Found (File data) ->
        walk (target ++ q)%list (disk w') = Found (File data))
  /\ (present npmCache (disk w) = false ->
      disk w' = default (disk w) (graft (layers.Root layer) [] (disk w))).
Proof.
  intros npmCache target Hpre1 Hpre2. subst npmCache target.
  assert (Hroot : ~ filepath.Join (application.Root (app c)) CacheDir
                    `prefix_of` layers.Root layer).
  { intros H. apply Hpre1. etransitivity; [exact H|]. now exists [CacheDir]. }
  run.
  all: intros Hrun; try discriminate Hrun; injection Hrun as <-; simpl_world.
  all: match goal with
       | H : fails (os.MkdirAll _) _ = None |- _ =>
           destruct (MkdirAll_present _ _ H) as (Hmk & Hother & Hfiles)
       end.
  all: match goal with
       | H : helper.FileExists _ _ = Ok true |- _ =>
           pose proof (FileExists_true _ _ H) as Hex
       | H : helper.FileExists _ _ = Ok false |- _ =>
           pose proof (FileExists_false _ _ H) as Hex
       end; simpl_world; cbn [disk set_disk emit] in Hex; rewrite (Hother _ Hroot) in Hex.
  - split; [|split; [|split]].
    + rewrite (present_prune_other _ _ _ Hroot).
      apply copied_keeps_present. exact Hmk.
    + apply present_prune_self, Join_not_nil.
    + intros q data Hw. apply prune_keeps_file; [exact (apart_below _ _ _ Hpre1 Hpre2)|].
      match goal with
      | H : fails (helper.CopyDirectory _ _) _ = None |- _ =>
          exact (copied_files _ _ _ _ _ H (Hfiles _ _ Hw))
      end.
    + intros H. congruence.
  - split; [|split; [|split]].
    + exact Hmk.
    + rewrite (Hother _ Hroot). exact Hex.
    + intros q data Hw. apply walk_present_prefix in Hw. congruence.
    + intros _. reflexivity.
Qed.

Lemma cache_relocation_witness :
  walk ["layers"; "cache"; "npm-cache"; "_cacache"; "index-v5"]
    (disk (snd (contributeNPMCache (sample npm) (npmCacheLayer (sample npm))
                  (world_of cachedDisk)))) = Found (File [])
  /\ present ["workspace"; "npm-cache"]
       (disk (snd (contributeNPMCache (sample npm) (npmCacheLayer (sample npm))
                     (world_of cachedDisk)))) = false.
Proof.
  destruct (cache_relocation (sample npm) (npmCacheLayer (sample npm)) (world_of cachedDisk)
              (snd (contributeNPMCache (sample npm) (npmCacheLayer (sample npm))
                      (world_of cachedDisk))))
    as (_ & H2 & H3 & _).
  - intros [k Hk]. vm_compute in Hk. discriminate Hk.
  - intros [k Hk]. vm_compute in Hk. discriminate Hk.
  - apply (run_ok (contributeNPMCache (sample npm) (npmCacheLayer (sample npm)))
             (world_of cachedDisk)).
    vm_compute. reflexivity.
  - split; [|exact H2].
    apply (H3 ["_cacache"; "index-v5"] []). vm_compute. reflexivity.
Defined.

(** X15.  The cache contribution does three things at most, in this order:
    it makes the layer directory, copies [npm-cache] of the application
    under the layer root and removes it from the application.  It returns
    no error exactly when it completed all three, or made the layer
    directory and found no [npm-cache] in the application; it never calls
    the package manager, writes nothing to the log and leaves both
    environments as they were. *)
Theorem cache_contribution_steps c layer w :
  let npmCache := filepath.Join (application.Root (app c)) CacheDir in
  let steps :=
    [EvMkdirAll (layers.Root layer);
     EvCopyDirectory npmCache (filepath.Join (layers.Root layer) CacheDir);
     EvRemoveAll npmCache] in
  let made := set_disk (default (disk w) (graft (layers.Root layer) [] (disk w))) w in
  environ (snd (contributeNPMCache c layer w)) = environ w
  /\ sharedEnv (snd (contributeNPMCache c layer w)) = sharedEnv w
  /\ exists tr,
       events (snd (contributeNPMCache c layer w)) = (events w ++ tr)%list
       /\ tr `prefix_of` steps
       /\ (fst (contributeNPMCache c layer w) = Ok tt <->
           tr = steps
           \/ (tr = [EvMkdirAll (layers.Root layer)]
               /\ helper.FileExists npmCache made = Ok false)).
Proof.
  cbv zeta. run_once contributeNPMCache.
  all: split; [reflexivity|]; split; [reflexivity|]; trace.
  all: split; [first [now eexists | eexists; simpl; reflexivity]|].
  all: split.
  all: try (intros H; discriminate H).
  all: try (intros _; left; reflexivity).
  all: try (intros _; right; split; reflexivity).
  all: intros [H|[H1 H2]]; simpl in *; congruence.
Qed.

(** X16.  When the layer directory cannot be made, the cache contribution
    stops at once with "unable make npm cache layer: <error>" and the world
    is as it was. *)
Theorem cache_layer_cannot_be_made c layer w e :
  fails (os.MkdirAll (layers.Root layer)) w = Some e ->
  contributeNPMCache c layer w =
    (Err (Errorf "unable make npm cache layer: " e), w).
Proof.
  intros He.
  unfold contributeNPMCache, bind, wrap, ask, ret. rewrite MkdirAll_eq, He. reflexivity.
Qed.

Lemma cache_layer_cannot_be_made_witness :
  contributeNPMCache (sample npm) (npmCacheLayer (sample npm)) (world_of noLayersDisk) =
    (Err (errorString "unable make npm cache layer: mkdir /layers: not a directory"),
     world_of noLayersDisk).
Proof.
  exact (cache_layer_cannot_be_made (sample npm) (npmCacheLayer (sample npm))
           (world_of noLayersDisk) (PathError "mkdir" ["layers"] ENOTDIR) eq_refl).
Defined.

(** X17.  For a layer and an application of which neither [npm-cache]
    lies inside the other: when the application ships an [npm-cache] and
    copying it into the layer fails, the cache contribution stops with
    "unable to copy <npm-cache> to <layer root>: <error>" (both paths
    between double quotes, the second being the layer root and not the
    directory copied to); nothing is removed: the application keeps its
    [npm-cache] with every regular file in it, and the making of the layer
    directory is the only step on the trace.  The layer may hold the files
    that were written before the failure. *)
Theorem cache_copy_failure c layer w e :
  let npmCache := filepath.Join (application.Root (app c)) CacheDir in
  let target := filepath.Join (layers.Root layer) CacheDir in
  let made := set_disk (default (disk w) (graft (layers.Root layer) [] (disk w))) w in
  ~ npmCache `prefix_of` target ->
  ~ target `prefix_of` npmCache ->
  fails (os.MkdirAll (layers.Root layer)) w = None ->
  helper.FileExists npmCache made = Ok true ->
  fails (helper.CopyDirectory npmCache target) made = Some e ->
  fst (contributeNPMCache c layer w) =
    Err (Errorf ("unable to copy " +:+ dq +:+ filepath.show npmCache +:+ dq
                 +:+ " to " +:+ dq +:+ filepath.show (layers.Root layer)
                 +:+ dq +:+ ": ") e)
  /\ present npmCache (disk (snd (contributeNPMCache c layer w))) = true
  /\ (forall q data,
        walk (npmCache ++ q)%list (disk w) = Found (File data) ->
        walk (npmCache ++ q)%list (disk (snd (contributeNPMCache c layer w)))
          = Found (File data))
  /\ events (snd (contributeNPMCache c layer w)) =
       (events w ++ [EvMkdirAll (layers.Root layer)])%list.
Proof.
  cbv zeta. intros Hpre1 Hpre2 Hm Hx Hc.
  destruct (MkdirAll_present _ _ Hm) as (_ & _ & Hfiles).
  unfold contributeNPMCache, bind, wrap, ask, ret. rewrite MkdirAll_eq, Hm.
  simpl_world. rewrite Hx. rewrite CopyDirectory_eq.
  match goal with
  | |- context [fails ?m ?w1] =>
      replace (fails m w1) with (Some e)
        by (rewrite <- Hc; apply CopyDirectory_fails_same; reflexivity)
  end.
  simpl_world.
  split; [reflexivity|].
  split; [apply interrupted_keeps_present; exact (FileExists_true _ _ Hx)|].
  split; [|reflexivity].
  intros q data Hw. apply interrupted_keeps_file.
  - exact (apart_below _ _ _ Hpre2 Hpre1).
  - exact (Hfiles _ _ Hw).
Qed.

Lemma cache_copy_failure_witness :
  fst (contributeNPMCache (sample npm) (npmCacheLayer (sample npm))
         (world_of blockedCacheDisk)) =
    Err (errorString
           ("unable to copy " +:+ dq +:+ "/workspace/npm-cache" +:+ dq
            +:+ " to " +:+ dq +:+ "/layers/cache" +:+ dq
            +:+ ": mkdir /layers/cache/npm-cache: not a directory"))
  /\ present ["workspace"; "npm-cache"; "_cacache"; "index-v5"]
       (disk (snd (contributeNPMCache (sample npm) (npmCacheLayer (sample npm))
                     (world_of blockedCacheDisk)))) = true.
Proof.
  destruct (cache_copy_failure (sample npm) (npmCacheLayer (sample npm))
              (world_of blockedCacheDisk)
              (PathError "mkdir" ["layers"; "cache"; "npm-cache"] ENOTDIR))
    as (H1 & _ & H3 & _); try reflexivity.
  - intros [k Hk]. vm_compute in Hk. discriminate Hk.
  - intros [k Hk]. vm_compute in Hk. discriminate Hk.
  - split; [exact H1|].
    assert (Hw : walk ["workspace"; "npm-cache"; "_cacache"; "index-v5"]
                   (disk (snd (contributeNPMCache (sample npm) (npmCacheLayer (sample npm))
                                 (world_of blockedCacheDisk)))) = Found (File [])).
    { apply (H3 ["_cacache"; "index-v5"] []). vm_compute. reflexivity. }
    unfold present. rewrite Hw. reflexivity.
Defined.

(** ** The whole contribution *)

Lemma contributeNodeModules_builds c layer w s v :
  hasSubdirs (nodeModulesPath c) w = Ok s ->
  helper.FileExists (nodeModulesPath c) w = Ok v ->
  exists tr,
    events (snd (contributeNodeModules c layer w)) = (events w ++ tr)%list
    /\ count is_Install tr = (if v then 0 else 1)%nat
    /\ count is_Rebuild tr = (if v then 1 else 0)%nat.
Proof.
  unfold nodeModulesPath. intros Hs Hv.
  unfold contributeNodeModules, tipVendorDependencies, bind, wrap, ask, ret,
    Logger_Info, log.
  rewrite Hs.
  destruct s; simpl_world; rewrite Hv; destruct v.
  all: repeat run_step.
  all: trace; split; reflexivity.
Qed.

(** On a miss the store runs the contribution function and adds nothing
    but its own record. *)
Lemma Layer_Contribute_miss_events l md f fl w :
  faults w (ScMetadataMatches (layers.LayerName l)) = None ->
  stored_metadata <$> stored w !! layers.LayerName l <> Some md ->
  exists bk,
    events (snd (Layer_Contribute l md f fl w)) =
      (events (snd (f l (emit (EvLayerContribute l md fl) w))) ++ bk)%list
    /\ count is_Install bk = 0%nat /\ count is_Rebuild bk = 0%nat.
Proof.
  intros Hf Hs. rewrite (Layer_Contribute_miss _ _ _ _ _ Hf Hs). unfold bind.
  destruct (f l _) as [[[]|e] w1]; simpl snd.
  - rewrite WriteMetadata_eq.
    destruct (faults w1 _); simpl_world.
    + exists []. split; [symmetry; apply app_nil_r|]. split; reflexivity.
    + eexists [_]. split; [reflexivity|]. split; reflexivity.
  - exists []. split; [symmetry; apply app_nil_r|]. split; reflexivity.
Qed.

(** The contribution of the cache layer never calls the package manager. *)
Lemma Layer_Contribute_cache_events c l md fl w :
  exists tr,
    events (snd (Layer_Contribute l md (contributeNPMCache c) fl w)) = (events w ++ tr)%list
    /\ count is_Install tr = 0%nat /\ count is_Rebuild tr = 0%nat.
Proof.
  destruct (faults w (ScMetadataMatches (layers.LayerName l))) as [e|] eqn:Hf.
  { rewrite (Layer_Contribute_fault _ _ _ _ _ _ Hf). simpl_world.
    eexists [_]. split; [reflexivity|]. split; reflexivity. }
  destruct (decide (stored_metadata <$> stored w !! layers.LayerName l = Some md)) as [Hs|Hs].
  - rewrite (Layer_Contribute_hit _ _ _ _ _ Hf Hs), WriteMetadata_eq. simpl_world.
    destruct (faults w (ScWriteMetadata (layers.LayerName l))); simpl_world.
    + eexists [_]. split; [reflexivity|]. split; reflexivity.
    + rewrite <- app_assoc. eexists. split; [reflexivity|]. split; reflexivity.
  - destruct (Layer_Contribute_miss_events l md (contributeNPMCache c) fl w Hf Hs)
      as (bk & Hev & Hi & Hr).
    destruct (contributeNPMCache_frame c l (emit (EvLayerContribute l md fl) w))
      as (_ & _ & _ & tr & Htr & _ & Hi' & Hr').
    rewrite Hev, Htr. simpl_world. rewrite <- !app_assoc.
    eexists. split; [reflexivity|].
    rewrite !count_app, Hi, Hr, Hi', Hr'. split; reflexivity.
Qed.

Lemma count_cons f e tr :
  count f (e :: tr) = ((if f e then 1 else 0) + count f tr)%nat.
Proof. unfold count. simpl. destruct (f e); reflexivity. Qed.

Lemma count_nil f : count f [] = 0%nat.
Proof. reflexivity. Qed.

(** X18.  A [Contribute] that returns an error has registered no process:
    the application metadata is as the build found it and the trace holds
    no registration, whichever of the three steps failed. *)
Theorem failed_contribution_registers_no_process c w e :
  fst (Contribute c w) = Err e ->
  appMetadata (snd (Contribute c w)) = appMetadata w
  /\ exists tr,
       events (snd (Contribute c w)) = (events w ++ tr)%list
       /\ only is_registration tr = [].
Proof.
  unfold Contribute, bind.
  destruct (Layer_Contribute_spec (nodeModulesLayer c) (NodeModulesMetadata c)
              (contributeNodeModules c) (flags c) w (contributeNodeModules_quiet c))
    as (_ & Ham1 & _ & tr1 & Hev1 & _ & Hrg1).
  destruct (Layer_Contribute (nodeModulesLayer c) (NodeModulesMetadata c)
              (contributeNodeModules c) (flags c) w) as [[[]|e1] w1];
    simpl fst in *; simpl snd in *.
  2:{ intros _. split; [exact Ham1|]. eexists. split; [exact Hev1|].
      simpl. exact Hrg1. }
  destruct (Layer_Contribute_spec (npmCacheLayer c) (NPMCacheMetadata c)
              (contributeNPMCache c) [layers.Cache] w1 (contributeNPMCache_quiet c))
    as (_ & Ham2 & _ & tr2 & Hev2 & _ & Hrg2).
  destruct (Layer_Contribute (npmCacheLayer c) (NPMCacheMetadata c)
              (contributeNPMCache c) [layers.Cache] w1) as [[[]|e2] w2];
    simpl fst in *; simpl snd in *.
  2:{ intros _. split; [congruence|]. rewrite Hev2, Hev1, <- !app_assoc.
      eexists. split; [reflexivity|].
      simpl. rewrite !only_app, Hrg1. simpl. exact Hrg2. }
  rewrite WriteApplicationMetadata_eq.
  destruct (faults w2 ScWriteApplicationMetadata); [|discriminate].
  intros _. simpl snd. split; [congruence|]. rewrite Hev2, Hev1, <- !app_assoc.
  eexists. split; [reflexivity|].
  simpl. rewrite !only_app, Hrg1. simpl. exact Hrg2.
Qed.

Lemma failed_contribution_registers_no_process_witness :
  fst (Contribute (sample failing) (world_of freshDisk)) =
    Err (errorString "unable to install node_modules: exit status 1")
  /\ appMetadata (snd (Contribute (sample failing) (world_of freshDisk))) = None.
Proof.
  split; [vm_compute; reflexivity|].
  exact (proj1 (failed_contribution_registers_no_process (sample failing)
                  (world_of freshDisk)
                  (errorString "unable to install node_modules: exit status 1")
                  eq_refl)).
Defined.

(** X19.  When the store does not hold the fingerprint of the
    dependency-tree layer (no earlier build, or a lock file that changed)
    and the two probes of [node_modules] succeed, the whole [Contribute]
    calls the package manager to build exactly once, whatever happens
    afterwards: one [Rebuild] and no [Install] if [node_modules] exists,
    one [Install] and no [Rebuild] if not.  The cache layer never adds a
    call. *)
Theorem stale_fingerprint_builds_once c w s v :
  faults w (ScMetadataMatches (layers.LayerName (nodeModulesLayer c))) = None ->
  stored_metadata <$> stored w !! layers.LayerName (nodeModulesLayer c)
    <> Some (NodeModulesMetadata c) ->
  hasSubdirs (nodeModulesPath c) w = Ok s ->
  helper.FileExists (nodeModulesPath c) w = Ok v ->
  exists tr,
    events (snd (Contribute c w)) = (events w ++ tr)%list
    /\ count is_Install tr = (if v then 0 else 1)%nat
    /\ count is_Rebuild tr = (if v then 1 else 0)%nat.
Proof.
  intros Hf Hst Hs Hv.
  destruct (Layer_Contribute_miss_events (nodeModulesLayer c) (NodeModulesMetadata c)
              (contributeNodeModules c) (flags c) w Hf Hst) as (bk & Hev1 & Hi1 & Hr1).
  destruct (contributeNodeModules_builds c (nodeModulesLayer c)
              (emit (EvLayerContribute (nodeModulesLayer c) (NodeModulesMetadata c)
                       (flags c)) w) s v Hs Hv) as (tr & Htr & Hi & Hr).
  cbn [events emit] in Htr. rewrite Htr in Hev1.
  assert (Hfin : forall rest,
            count is_Install rest = 0%nat -> count is_Rebuild rest = 0%nat ->
            exists tr0,
              ((((events w ++ [EvLayerContribute (nodeModulesLayer c)
                               (NodeModulesMetadata c) (flags c)]) ++ tr) ++ bk) ++ rest)%list
                = (events w ++ tr0)%list
              /\ count is_Install tr0 = (if v then 0 else 1)%nat
              /\ count is_Rebuild tr0 = (if v then 1 else 0)%nat).
  { intros rest Hi0 Hr0. rewrite <- !app_assoc. eexists. split; [reflexivity|].
    rewrite !count_app, Hi, Hr, Hi1, Hr1, Hi0, Hr0, !count_cons, !count_nil.
    cbn [is_Install is_Rebuild]. destruct v; split; reflexivity. }
  unfold Contribute, bind.
  destruct (Layer_Contribute (nodeModulesLayer c) (NodeModulesMetadata c)
              (contributeNodeModules c) (flags c) w) as [[[]|e1] w1];
    simpl fst in *; simpl snd in *.
  2:{ rewrite Hev1, <- (app_nil_r (_ ++ bk)%list). apply Hfin; reflexivity. }
  destruct (Layer_Contribute_cache_events c (npmCacheLayer c) (NPMCacheMetadata c)
              [layers.Cache] w1) as (tr2 & Hev2 & Hi2 & Hr2).
  destruct (Layer_Contribute (npmCacheLayer c) (NPMCacheMetadata c)
              (contributeNPMCache c) [layers.Cache] w1) as [[[]|e2] w2];
    simpl fst in *; simpl snd in *.
  2:{ rewrite Hev2, Hev1. apply Hfin; assumption. }
  rewrite WriteApplicationMetadata_eq.
  destruct (faults w2 ScWriteApplicationMetadata); simpl snd; simpl_world.
  - rewrite Hev2, Hev1. apply Hfin; assumption.
  - rewrite Hev2, Hev1, <- (app_assoc _ tr2). apply Hfin.
    + rewrite count_app, Hi2. reflexivity.
    + rewrite count_app, Hr2. reflexivity.
Qed.

Lemma stale_fingerprint_builds_once_witness :
  exists tr,
    events (snd (Contribute (sample npm) (world_of vendoredDisk))) = ([] ++ tr)%list
    /\ count is_Install tr = 0%nat
    /\ count is_Rebuild tr = 1%nat.
Proof.
  apply (stale_fingerprint_builds_once (sample npm) (world_of vendoredDisk) true true).
  - reflexivity.
  - vm_compute. discriminate.
  - reflexivity.
  - reflexivity.
Defined.
